(** * chproxy: configuration loading and the outer HTTP dispatcher

    A shallow embedding of [config/config.go] and [main.go] of chproxy,
    together with the statements checked against them.

    Conventions.
    - Go strings are byte strings: [string] (a list of [ascii] bytes).
    - [time.Duration] and [config.Duration] are 64-bit integers; they
      are modelled as [Z] and the wrap-around of the arithmetic is
      written out with [wrap64].  [config.ByteSize] is an integer type
      whose declaration is not among the sources; it is modelled as
      [Z].
    - A Go function returning [(T, error)] returns [Res T]; a method with
      a pointer receiver takes the receiver's current value and returns
      the new one.
    - Maps ([http.Header], the [XXX] catch-all fields) are [gmap]s. *)

From Stdlib Require Import ZArith String Ascii List Lia.
From Stdlib Require Import Decimal DecimalString DecimalPos DecimalN.
From stdpp Require Import base option gmap strings list.

Local Open Scope string_scope.
Local Open Scope Z_scope.

(** ** Go runtime and standard library pieces *)

Module Go.

(** Go's [error] values, kept structured.  [Errorf] is an error built by
    [fmt.Errorf] with its rendered message; [TypeError] is yaml.v2's
    [*yaml.TypeError]; [LibError] is an error produced by the operating
    system or by the YAML scanner, with its message. *)
Inductive error : Type :=
| Errorf (msg : string)
| TypeError
| LibError (msg : string).

Definition Res (A : Type) : Type := error + A.

Definition ret {A} (a : A) : Res A := inr a.
Definition fail {A} (e : error) : Res A := inl e.
Definition bind {A B} (m : Res A) (k : A -> Res B) : Res B :=
  match m with
  | inl e => inl e
  | inr a => k a
  end.

(** [err.Error()] *)
Definition Error (e : error) : string :=
  match e with
  | Errorf msg => msg
  | TypeError => "yaml: unmarshal errors"
  | LibError msg => msg
  end.

(** *** int64 arithmetic *)

Definition MaxInt64 : Z := 2 ^ 63 - 1.
Definition MinInt64 : Z := - 2 ^ 63.
Definition MaxUint32 : Z := 2 ^ 32 - 1.

Definition wrap64 (z : Z) : Z := (z + 2 ^ 63) mod 2 ^ 64 - 2 ^ 63.
Definition add64 (a b : Z) : Z := wrap64 (a + b).
Definition mul64 (a b : Z) : Z := wrap64 (a * b).

Definition in_int64 (z : Z) : Prop := MinInt64 <= z <= MaxInt64.

(** *** package time *)

Definition Nanosecond : Z := 1.
Definition Microsecond : Z := 1000 * Nanosecond.
Definition Millisecond : Z := 1000 * Microsecond.
Definition Second : Z := 1000 * Millisecond.
Definition Minute : Z := 60 * Second.
Definition Hour : Z := 60 * Minute.

(** *** What the sources do not contain

    Two things the program uses are neither in its sources nor fixed by
    them, and are taken as they are given:
    - the tables of [strconv.IsPrint] for the runes above U+00FF, which
      belong to the Go release the program is built with;
    - the parser of byte sizes of package [config], whose file is not
      among the sources: [TestBadConfig] shows that it reads the text of
      a scalar and gives the text of one of its errors, and nothing
      fixes the values it returns. *)
Class Outside : Type := {
  IsPrint_table : Z -> bool;
  parseByteSize : string -> Res Z
}.

(** *** unicode/utf8 *)

Definition byte (c : ascii) : Z := Z.of_N (N_of_ascii c).
Definition chr (z : Z) : ascii := ascii_of_N (Z.to_N z).

Definition RuneSelf : Z := 0x80.
Definition RuneError : Z := 0xFFFD.
Definition MaxRune : Z := 0x10FFFF.

(** The table [first] with [acceptRanges]: for a first byte from 0x80
    up, the length of the sequence it starts and the range of its second
    byte; [None] for a byte that starts no sequence. *)
Definition first (s0 : Z) : option (nat * Z * Z) :=
  if s0 <? 0xC2 then None
  else if s0 <=? 0xDF then Some (2%nat, 0x80, 0xBF)
  else if s0 =? 0xE0 then Some (3%nat, 0xA0, 0xBF)
  else if s0 <=? 0xEC then Some (3%nat, 0x80, 0xBF)
  else if s0 =? 0xED then Some (3%nat, 0x80, 0x9F)
  else if s0 <=? 0xEF then Some (3%nat, 0x80, 0xBF)
  else if s0 =? 0xF0 then Some (4%nat, 0x90, 0xBF)
  else if s0 <=? 0xF3 then Some (4%nat, 0x80, 0xBF)
  else if s0 =? 0xF4 then Some (4%nat, 0x80, 0x8F)
  else None.

(** A continuation byte. *)
Definition is_cont (b : Z) : bool := (0x80 <=? b) && (b <=? 0xBF).

(** [utf8.DecodeRuneInString]: the first rune of [s] and its width in
    bytes; [(RuneError, 1)] when [s] does not start with a well-formed
    sequence. *)
Definition DecodeRuneInString (s : string) : Z * nat :=
  match s with
  | "" => (RuneError, 0%nat)
  | String c0 t0 =>
      let s0 := byte c0 in
      if s0 <? RuneSelf then (s0, 1%nat)
      else
        match first s0 with
        | None => (RuneError, 1%nat)
        | Some (sz, lo, hi) =>
            match t0 with
            | "" => (RuneError, 1%nat)
            | String c1 t1 =>
                let s1 := byte c1 in
                if (s1 <? lo) || (hi <? s1) then (RuneError, 1%nat)
                else if (sz <=? 2)%nat
                then (Z.lor (Z.shiftl (Z.land s0 0x1F) 6) (Z.land s1 0x3F), 2%nat)
                else
                  match t1 with
                  | "" => (RuneError, 1%nat)
                  | String c2 t2 =>
                      let s2 := byte c2 in
                      if negb (is_cont s2) then (RuneError, 1%nat)
                      else if (sz <=? 3)%nat
                      then (Z.lor (Z.lor (Z.shiftl (Z.land s0 0x0F) 12)
                                         (Z.shiftl (Z.land s1 0x3F) 6))
                                  (Z.land s2 0x3F), 3%nat)
                      else
                        match t2 with
                        | "" => (RuneError, 1%nat)
                        | String c3 _ =>
                            let s3 := byte c3 in
                            if negb (is_cont s3) then (RuneError, 1%nat)
                            else (Z.lor (Z.lor (Z.lor (Z.shiftl (Z.land s0 0x07) 18)
                                                      (Z.shiftl (Z.land s1 0x3F) 12))
                                               (Z.shiftl (Z.land s2 0x3F) 6))
                                        (Z.land s3 0x3F), 4%nat)
                        end
                  end
            end
        end
  end.

(** [utf8.ValidRune]: in range and not a surrogate half. *)
Definition ValidRune (r : Z) : bool :=
  ((0 <=? r) && (r <? 0xD800)) || ((0xDFFF <? r) && (r <=? MaxRune)).

(** [utf8.AppendRune] to an empty buffer. *)
Definition EncodeRune (r : Z) : string :=
  if (0 <=? r) && (r <=? 0x7F) then String (chr r) ""
  else if (0 <=? r) && (r <=? 0x7FF)
  then String (chr (Z.lor 0xC0 (Z.shiftr r 6)))
         (String (chr (Z.lor 0x80 (Z.land r 0x3F))) "")
  else
    let r := if ValidRune r then r else RuneError in
    if r <=? 0xFFFF
    then String (chr (Z.lor 0xE0 (Z.shiftr r 12)))
           (String (chr (Z.lor 0x80 (Z.land (Z.shiftr r 6) 0x3F)))
              (String (chr (Z.lor 0x80 (Z.land r 0x3F))) ""))
    else String (chr (Z.lor 0xF0 (Z.shiftr r 18)))
           (String (chr (Z.lor 0x80 (Z.land (Z.shiftr r 12) 0x3F)))
              (String (chr (Z.lor 0x80 (Z.land (Z.shiftr r 6) 0x3F)))
                 (String (chr (Z.lor 0x80 (Z.land r 0x3F))) ""))).

(** *** strconv.Quote, the [%q] verb

    [fmt] prints a string under [%q] with [strconv.Quote]: the string
    is read rune by rune; a byte that starts no well-formed UTF-8
    sequence is written [\xNN], the double quote and the backslash are
    backslashed, a printable rune is copied, and any other rune is
    written with its escape. *)

Definition dq : ascii := "034"%char.
Definition backslash : ascii := "092"%char.

Definition hex_digit (n : N) : ascii :=
  match n with
  | 0%N => "0" | 1%N => "1" | 2%N => "2" | 3%N => "3"
  | 4%N => "4" | 5%N => "5" | 6%N => "6" | 7%N => "7"
  | 8%N => "8" | 9%N => "9" | 10%N => "a" | 11%N => "b"
  | 12%N => "c" | 13%N => "d" | 14%N => "e" | _ => "f"
  end%char.

(** [lowerhex[r>>shift & 0xF]] *)
Definition lowerhex (r : Z) (shift : Z) : ascii :=
  hex_digit (Z.to_N (Z.land (Z.shiftr r shift) 0xF)).

Definition hex_digits (r : Z) (shifts : list Z) : string :=
  fold_right (fun s acc => String (lowerhex r s) acc) "" shifts.

Section Quote.

Context `{Out : Outside}.

(** [strconv.IsPrint]: decided in the code for Latin-1, by the tables
    above it. *)
Definition IsPrint (r : Z) : bool :=
  if r <=? 0xFF
  then ((0x20 <=? r) && (r <=? 0x7E))
       || ((0xA1 <=? r) && (r <=? 0xFF) && negb (r =? 0xAD))
  else IsPrint_table r.

(** [appendEscapedRune] for the double quote, neither ASCII-only nor
    graphic-only. *)
Definition appendEscapedRune (r : Z) : string :=
  if (r =? byte dq) || (r =? byte backslash) then String backslash (String (chr r) "")
  else if IsPrint r then EncodeRune r
  else if r =? 7 then String backslash "a"
  else if r =? 8 then String backslash "b"
  else if r =? 12 then String backslash "f"
  else if r =? 10 then String backslash "n"
  else if r =? 13 then String backslash "r"
  else if r =? 9 then String backslash "t"
  else if r =? 11 then String backslash "v"
  else if (r <? 0x20) || (r =? 0x7F)
  then String backslash (String "x" (hex_digits (Z.land r 0xFF) [4; 0]))
  else if negb (ValidRune r)
  then String backslash (String "u" (hex_digits RuneError [12; 8; 4; 0]))
  else if r <? 0x10000
  then String backslash (String "u" (hex_digits r [12; 8; 4; 0]))
  else String backslash (String "U" (hex_digits r [28; 24; 20; 16; 12; 8; 4; 0])).

(** The loop of [appendQuotedWith] over the bytes of the string:
    [skip] counts the bytes left of the rune read last. *)
Fixpoint quote_from (skip : nat) (s : string) : string :=
  match s with
  | "" => ""
  | String c s' =>
      match skip with
      | S k => quote_from k s'
      | 0%nat =>
          let (r, width) :=
            if byte c <? RuneSelf then (byte c, 1%nat) else DecodeRuneInString s in
          (if (width =? 1)%nat && (r =? RuneError)
           then String backslash (String "x" (hex_digits (byte c) [4; 0]))
           else appendEscapedRune r)
          +:+ quote_from (width - 1) s'
      end
  end.

Definition quote (s : string) : string :=
  String dq (quote_from 0 s +:+ String dq "").

End Quote.

(** The ASCII bytes that [%q] copies unchanged: the printable ones other
    than the double quote and the backslash. *)
Definition is_plain (c : ascii) : bool :=
  let n := N_of_ascii c in
  ((32 <=? n) && (n <=? 126))%N && negb (Ascii.eqb c dq) && negb (Ascii.eqb c backslash).

Fixpoint all_plain (s : string) : bool :=
  match s with
  | "" => true
  | String c s' => is_plain c && all_plain s'
  end.

(** strings.Contains, as a relation *)
Definition Contains (s sub : string) : Prop :=
  exists pre post, s = pre +:+ sub +:+ post.

(** strings.Join *)
Fixpoint Join (l : list string) (sep : string) : string :=
  match l with
  | [] => ""
  | [x] => x
  | x :: l' => x +:+ sep +:+ Join l' sep
  end.

(** *** decimal digits: the [[0-9]+] of a regexp and [%d] *)

Definition is_digit (c : ascii) : bool :=
  let n := N_of_ascii c in ((48 <=? n) && (n <=? 57))%N.

Fixpoint all_digits (s : string) : bool :=
  match s with
  | "" => true
  | String c s' => is_digit c && all_digits s'
  end.

(** The longest prefix of decimal digits, and what follows it. *)
Fixpoint span_digits (s : string) : string * string :=
  match s with
  | "" => ("", "")
  | String c s' =>
      if is_digit c
      then let (ds, rest) := span_digits s' in (String c ds, rest)
      else ("", s)
  end.

(** The number a string of decimal digits denotes. *)
Definition digits_value (ds : string) : Z :=
  match NilEmpty.uint_of_string ds with
  | Some u => Z.of_N (N.of_uint u)
  | None => 0
  end.

(** [fmt.Sprintf("%d", z)] *)
Definition format_int (z : Z) : string :=
  if z <? 0
  then String "-" (NilZero.string_of_uint (N.to_uint (Z.to_N (- z))))
  else NilZero.string_of_uint (N.to_uint (Z.to_N z)).

End Go.

Export Go.

(** The error monad of [Res]: [let* x := m in k] stops at the first
    error, as a Go function does with [if err != nil { return err }]. *)
Notation "'let*' x := m 'in' k" := (bind m (fun x => k))
  (at level 10, x pattern, m at level 100, k at level 200).

(** ** config: [Duration] and [ByteSize]

    The file of package [config] that declares [Duration], [ByteSize],
    [parseDuration] and [checkOverflow] is not among the sources; only
    their callers and tests are. *)

Module Types.

Section defs.

Context `{Out : Outside}.

Definition Duration : Type := Z.
Definition ByteSize : Type := Z.

(** The micro sign in UTF-8 followed by [s]. *)
Definition micro_s : string :=
  String (ascii_of_nat 194) (String (ascii_of_nat 181) "s").

Definition unit_factor (u : string) : option Z :=
  if String.eqb u "ns" then Some Nanosecond
  else if String.eqb u micro_s then Some Microsecond
  else if String.eqb u "ms" then Some Millisecond
  else if String.eqb u "s" then Some Second
  else if String.eqb u "m" then Some Minute
  else if String.eqb u "h" then Some Hour
  else if String.eqb u "d" then Some (24 * Hour)
  else if String.eqb u "w" then Some (7 * (24 * Hour))
  else None.

(** Modelled from the spec: [parseDuration] is missing from the sources.
    The spec gives a constrained grammar, a count followed by one of
    the units ns, µs, ms, s, m, h, d, w, with no fractions and no
    composite values; the tests give the values (d is 24h, w is 7d) and
    the error text.  The value is computed in int64; the spec does not
    say what happens to a count beyond that range, and the model
    wraps. *)
Definition parseDuration (s : string) : Res Duration :=
  let (ds, u) := span_digits s in
  match ds, unit_factor u with
  | String _ _, Some f => ret (mul64 (digits_value ds) f)
  | _, _ => fail (Errorf ("not a valid duration string: " +:+ quote s))
  end.

Definition units : list (string * Z) :=
  [ ("w", 7 * (24 * Hour)); ("d", 24 * Hour); ("h", Hour); ("m", Minute);
    ("s", Second); ("ms", Millisecond); (micro_s, Microsecond) ].

(** The first unit of the table whose factor divides [t]; [ns] when
    none does. *)
Fixpoint pick_unit (t : Z) (us : list (string * Z)) : string * Z :=
  match us with
  | [] => ("ns", Nanosecond)
  | (u, f) :: us' => if t mod f =? 0 then (u, f) else pick_unit t us'
  end.

(** Modelled from the spec: [Duration.String] is missing from the
    sources.  The spec asks that parsing a formatted duration gives the
    duration back, and [TestParseDuration] fixes the text of eight
    values; the model prints the count of the largest unit that divides
    the value. *)
Definition Duration_String (d : Duration) : string :=
  let (u, f) := pick_unit d units in
  format_int (Z.quot d f) +:+ u.

End defs.

End Types.

Export Types.

(** ** gopkg.in/yaml.v2: documents and the decoder

    The YAML scanner and resolver are outside the program.  A document is
    modelled after scanning: aliases and merge keys expanded, every scalar
    with its text and the value the resolver gave it, every mapping as the
    list of its entries in document order with the key's text.

    The decoder is modelled as yaml.v2 runs it on the types of package
    [config].  One difference is deliberate: yaml.v2 collects type errors
    and reports them once decoding is over, while a failure returned by an
    [UnmarshalYAML] method aborts decoding at once; the model stops at the
    first error of either kind.  Since yaml.v2 returns an error as soon
    as one type error was collected, this does not change which
    documents are accepted nor the value decoded from them; for a
    rejected document with a type error the error reported may differ. *)

Module Yaml.

Inductive resolved : Type :=
| RNull                 (* [~], [null], or an empty plain scalar *)
| RStr
| RBool (b : bool)
| RInt (z : Z)
| RFloat (trunc : Z).   (* a float, with its integer part *)

#[warnings="-register-all"]
Inductive node : Type :=
| ScalarNode (value : string) (r : resolved)
| SequenceNode (children : list node)
| MappingNode (children : list (string * node)).

Definition is_null (n : node) : bool :=
  match n with
  | ScalarNode _ RNull => true
  | _ => false
  end.

(** [d.scalar] into a [string]: a null gives the zero value, any other
    scalar its text. *)
Definition decode_string (n : node) : Res string :=
  match n with
  | ScalarNode _ RNull => ret ""
  | ScalarNode v _ => ret v
  | _ => fail TypeError
  end.

(** [d.scalar] into a [uint32]. *)
Definition decode_uint32 (n : node) : Res Z :=
  match n with
  | ScalarNode _ RNull => ret 0
  | ScalarNode _ (RInt z) | ScalarNode _ (RFloat z) =>
      if (0 <=? z) && (z <=? MaxUint32) then ret z else fail TypeError
  | _ => fail TypeError
  end.

(** [d.scalar] into a [bool]. *)
Definition decode_bool (n : node) : Res bool :=
  match n with
  | ScalarNode _ RNull => ret false
  | ScalarNode _ (RBool b) => ret b
  | _ => fail TypeError
  end.

Fixpoint mapM {A B} (f : A -> Res B) (l : list A) : Res (list B) :=
  match l with
  | [] => ret []
  | a :: l' => let* b := f a in let* bs := mapM f l' in ret (b :: bs)
  end.

(** [d.sequence] into a slice: a fresh slice with one element per child,
    each decoded into a fresh zero value. *)
Definition sequence {T} (elem : node -> Res T) (n : node) : Res (list T) :=
  match n with
  | ScalarNode _ RNull => ret []
  | SequenceNode l => mapM elem l
  | _ => fail TypeError
  end.

(** [d.unmarshal] into a value whose pointer type implements
    [yaml.Unmarshaler]: [d.prepare] returns before calling the method
    when the node is null, and the value is then set to its zero value;
    otherwise the method decides. *)
Definition unmarshal {T} (zero : T) (UnmarshalYAML : node -> T -> Res T)
    (n : node) (out : T) : Res T :=
  if is_null n then ret zero else UnmarshalYAML n out.

Fixpoint fold_fields {T} (field : string -> node -> T -> Res T)
    (kvs : list (string * node)) (out : T) : Res T :=
  match kvs with
  | [] => ret out
  | (k, v) :: kvs' => let* out' := field k v out in fold_fields field kvs' out'
  end.

(** [d.mappingStruct]: the inline map is reset, then the entries are
    decoded in document order, each into the field its key names; the
    fields that no key names keep the value they had.  It is reached
    with a node that is not null. *)
Definition mappingStruct {T} (reset : T -> T)
    (field : string -> node -> T -> Res T) (n : node) (out : T) : Res T :=
  match n with
  | MappingNode kvs => fold_fields field kvs (reset out)
  | _ => fail TypeError
  end.

(** The node of the last entry with key [k]. *)
Fixpoint mapping_get (k : string) (kvs : list (string * node)) : option node :=
  match kvs with
  | [] => None
  | (k', v) :: kvs' =>
      match mapping_get k kvs' with
      | Some v' => Some v'
      | None => if String.eqb k' k then Some v else None
      end
  end.

Definition has_key (k : string) (n : node) : bool :=
  match n with
  | MappingNode kvs => bool_decide (is_Some (mapping_get k kvs))
  | _ => false
  end.

(** Plain scalars, as the resolver tags them. *)
Definition str (s : string) : node := ScalarNode s RStr.
Definition int (text : string) (z : Z) : node := ScalarNode text (RInt z).
Definition null : node := ScalarNode "" RNull.

End Yaml.

Export Yaml.

(** ** package config ([config/config.go])

    One module per struct: the record [t], its zero value, one setter per
    field (an assignment to the field through the pointer receiver), the
    decoding of one mapping entry into the struct ([field], what
    [d.mappingStruct] does for the struct's tags), the decoding of the
    struct without its method, which is the call of [unmarshal] on the
    [plain] type ([plain]), the method [UnmarshalYAML], and, for the
    element types of slices, the decoding of a node into a fresh element
    ([decode]).

    The package-level variables [defaultConfig], [defaultCluster] and
    [defaultClusterUser] are never written after their initialisation:
    the slices that a configuration shares with them are only read. *)

Module config.

Section scalars.

Context `{Out : Outside}.

(** Modelled from the spec: [checkOverflow] is missing from the sources.
    The spec says that loading fails when a mapping has a key that the
    struct does not know; [TestBadConfig] gives the error text.  The order
    of several unknown keys is not fixed in Go. *)
Definition checkOverflow (m : gmap string node) (ctx : string) : Res unit :=
  match map_to_list m with
  | [] => ret tt
  | kvs => fail (Errorf ("unknown fields in " +:+ ctx +:+ ": " +:+ Join (kvs.*1) ", "))
  end.

(** Modelled from the spec: [Duration.UnmarshalYAML] is missing from the
    sources.  Time values are parsed from their text by [parseDuration]. *)
Definition Duration_UnmarshalYAML (n : node) (d : Duration) : Res Duration :=
  let* s := decode_string n in parseDuration s.

(** Modelled from the spec: [ByteSize.UnmarshalYAML] is missing from the
    sources.  Byte sizes are parsed from their text, as the error of
    [TestBadConfig] shows; the parser itself is [parseByteSize] of
    [Outside]. *)
Definition ByteSize_UnmarshalYAML (n : node) (b : ByteSize) : Res ByteSize :=
  let* s := decode_string n in parseByteSize s.

Definition decode_Duration (n : node) : Res Duration :=
  unmarshal 0 Duration_UnmarshalYAML n 0.

Definition decode_ByteSize (n : node) : Res ByteSize :=
  unmarshal 0 ByteSize_UnmarshalYAML n 0.

Definition decode_strings (n : node) : Res (list string) :=
  sequence decode_string n.

End scalars.

Module Param.

Record t : Type := mk {
  Key : string;
  Value : string
}.

Definition zero : t :=
  {| Key := ""; Value := "" |}.

Definition set_Key (x : string) (c : t) : t :=
  {| Key := x; Value := Value c |}.
Definition set_Value (x : string) (c : t) : t :=
  {| Key := Key c; Value := x |}.

(** [Param] has no method and no catch-all: unknown keys are ignored. *)
Definition field (k : string) (v : node) (c : t) : Res t :=
  if String.eqb k "key" then let* x := decode_string v in ret (set_Key x c)
  else if String.eqb k "value" then let* x := decode_string v in ret (set_Value x c)
  else ret c.

Definition decode (n : node) : Res t :=
  if is_null n then ret zero else mappingStruct (fun c => c) field n zero.

End Param.

Module ParamGroup.

Section defs.

Context `{Out : Outside}.

Record t : Type := mk {
  Name : string;
  Params : list Param.t;
  XXX : gmap string node
}.

Definition zero : t :=
  {| Name := ""; Params := []; XXX := ∅ |}.

Definition set_Name (x : string) (c : t) : t :=
  {| Name := x; Params := Params c; XXX := XXX c |}.
Definition set_Params (x : list Param.t) (c : t) : t :=
  {| Name := Name c; Params := x; XXX := XXX c |}.
Definition set_XXX (x : gmap string node) (c : t) : t :=
  {| Name := Name c; Params := Params c; XXX := x |}.

Definition field (k : string) (v : node) (c : t) : Res t :=
  if String.eqb k "name" then let* x := decode_string v in ret (set_Name x c)
  else if String.eqb k "params" then let* x := sequence Param.decode v in ret (set_Params x c)
  else ret (set_XXX (<[k := v]> (XXX c)) c).

Definition plain : node -> t -> Res t := mappingStruct (set_XXX ∅) field.

Definition UnmarshalYAML (n : node) (pg : t) : Res t :=
  let* pg := plain n pg in
  if (String.length (Name pg) =? 0)%nat
  then fail (Errorf "`param_group.name` must be specified")
  else if (length (Params pg) =? 0)%nat
  then fail (Errorf "`param_group.params` must contain at least one param")
  else let* _ := checkOverflow (XXX pg) ("param_group " +:+ quote (Name pg)) in
       ret pg.

Definition decode (n : node) : Res t := unmarshal zero UnmarshalYAML n zero.

End defs.

End ParamGroup.

Module ClusterUser.

Section defs.

Context `{Out : Outside}.

Record t : Type := mk {
  Name : string;
  Password : string;
  MaxConcurrentQueries : Z;
  MaxExecutionTime : Duration;
  ReqPerMin : Z;
  MaxQueueSize : Z;
  MaxQueueTime : Duration;
  XXX : gmap string node
}.

Definition zero : t :=
  {| Name := ""; Password := ""; MaxConcurrentQueries := 0; MaxExecutionTime := 0; ReqPerMin := 0; MaxQueueSize := 0; MaxQueueTime := 0; XXX := ∅ |}.

Definition set_Name (x : string) (c : t) : t :=
  {| Name := x; Password := Password c; MaxConcurrentQueries := MaxConcurrentQueries c; MaxExecutionTime := MaxExecutionTime c; ReqPerMin := ReqPerMin c; MaxQueueSize := MaxQueueSize c; MaxQueueTime := MaxQueueTime c; XXX := XXX c |}.
Definition set_Password (x : string) (c : t) : t :=
  {| Name := Name c; Password := x; MaxConcurrentQueries := MaxConcurrentQueries c; MaxExecutionTime := MaxExecutionTime c; ReqPerMin := ReqPerMin c; MaxQueueSize := MaxQueueSize c; MaxQueueTime := MaxQueueTime c; XXX := XXX c |}.
Definition set_MaxConcurrentQueries (x : Z) (c : t) : t :=
  {| Name := Name c; Password := Password c; MaxConcurrentQueries := x; MaxExecutionTime := MaxExecutionTime c; ReqPerMin := ReqPerMin c; MaxQueueSize := MaxQueueSize c; MaxQueueTime := MaxQueueTime c; XXX := XXX c |}.
Definition set_MaxExecutionTime (x : Duration) (c : t) : t :=
  {| Name := Name c; Password := Password c; MaxConcurrentQueries := MaxConcurrentQueries c; MaxExecutionTime := x; ReqPerMin := ReqPerMin c; MaxQueueSize := MaxQueueSize c; MaxQueueTime := MaxQueueTime c; XXX := XXX c |}.
Definition set_ReqPerMin (x : Z) (c : t) : t :=
  {| Name := Name c; Password := Password c; MaxConcurrentQueries := MaxConcurrentQueries c; MaxExecutionTime := MaxExecutionTime c; ReqPerMin := x; MaxQueueSize := MaxQueueSize c; MaxQueueTime := MaxQueueTime c; XXX := XXX c |}.
Definition set_MaxQueueSize (x : Z) (c : t) : t :=
  {| Name := Name c; Password := Password c; MaxConcurrentQueries := MaxConcurrentQueries c; MaxExecutionTime := MaxExecutionTime c; ReqPerMin := ReqPerMin c; MaxQueueSize := x; MaxQueueTime := MaxQueueTime c; XXX := XXX c |}.
Definition set_MaxQueueTime (x : Duration) (c : t) : t :=
  {| Name := Name c; Password := Password c; MaxConcurrentQueries := MaxConcurrentQueries c; MaxExecutionTime := MaxExecutionTime c; ReqPerMin := ReqPerMin c; MaxQueueSize := MaxQueueSize c; MaxQueueTime := x; XXX := XXX c |}.
Definition set_XXX (x : gmap string node) (c : t) : t :=
  {| Name := Name c; Password := Password c; MaxConcurrentQueries := MaxConcurrentQueries c; MaxExecutionTime := MaxExecutionTime c; ReqPerMin := ReqPerMin c; MaxQueueSize := MaxQueueSize c; MaxQueueTime := MaxQueueTime c; XXX := x |}.

Definition field (k : string) (v : node) (c : t) : Res t :=
  if String.eqb k "name" then let* x := decode_string v in ret (set_Name x c)
  else if String.eqb k "password" then let* x := decode_string v in ret (set_Password x c)
  else if String.eqb k "max_concurrent_queries"
  then let* x := decode_uint32 v in ret (set_MaxConcurrentQueries x c)
  else if String.eqb k "max_execution_time"
  then let* x := decode_Duration v in ret (set_MaxExecutionTime x c)
  else if String.eqb k "requests_per_minute"
  then let* x := decode_uint32 v in ret (set_ReqPerMin x c)
  else if String.eqb k "max_queue_size"
  then let* x := decode_uint32 v in ret (set_MaxQueueSize x c)
  else if String.eqb k "max_queue_time"
  then let* x := decode_Duration v in ret (set_MaxQueueTime x c)
  else ret (set_XXX (<[k := v]> (XXX c)) c).

Definition plain : node -> t -> Res t := mappingStruct (set_XXX ∅) field.

Definition UnmarshalYAML (n : node) (cu : t) : Res t :=
  let* cu := plain n cu in
  if (String.length (Name cu) =? 0)%nat
  then fail (Errorf "`cluster.user.name` cannot be empty")
  else if (MaxQueueTime cu >? 0) && (MaxQueueSize cu =? 0)
  then fail (Errorf ("`max_queue_size` must be set if `max_queue_time` is set for "
                     +:+ quote (Name cu)))
  else let* _ := checkOverflow (XXX cu) ("cluster.user " +:+ quote (Name cu)) in
       ret cu.

Definition decode (n : node) : Res t := unmarshal zero UnmarshalYAML n zero.

End defs.

End ClusterUser.

Module Cache.

Section defs.

Context `{Out : Outside}.

Record t : Type := mk {
  Name : string;
  Dir : string;
  MaxSize : ByteSize;
  Expire : Duration;
  GraceTime : Duration;
  XXX : gmap string node
}.

Definition zero : t :=
  {| Name := ""; Dir := ""; MaxSize := 0; Expire := 0; GraceTime := 0; XXX := ∅ |}.

Definition set_Name (x : string) (c : t) : t :=
  {| Name := x; Dir := Dir c; MaxSize := MaxSize c; Expire := Expire c; GraceTime := GraceTime c; XXX := XXX c |}.
Definition set_Dir (x : string) (c : t) : t :=
  {| Name := Name c; Dir := x; MaxSize := MaxSize c; Expire := Expire c; GraceTime := GraceTime c; XXX := XXX c |}.
Definition set_MaxSize (x : ByteSize) (c : t) : t :=
  {| Name := Name c; Dir := Dir c; MaxSize := x; Expire := Expire c; GraceTime := GraceTime c; XXX := XXX c |}.
Definition set_Expire (x : Duration) (c : t) : t :=
  {| Name := Name c; Dir := Dir c; MaxSize := MaxSize c; Expire := x; GraceTime := GraceTime c; XXX := XXX c |}.
Definition set_GraceTime (x : Duration) (c : t) : t :=
  {| Name := Name c; Dir := Dir c; MaxSize := MaxSize c; Expire := Expire c; GraceTime := x; XXX := XXX c |}.
Definition set_XXX (x : gmap string node) (c : t) : t :=
  {| Name := Name c; Dir := Dir c; MaxSize := MaxSize c; Expire := Expire c; GraceTime := GraceTime c; XXX := x |}.

Definition field (k : string) (v : node) (c : t) : Res t :=
  if String.eqb k "name" then let* x := decode_string v in ret (set_Name x c)
  else if String.eqb k "dir" then let* x := decode_string v in ret (set_Dir x c)
  else if String.eqb k "max_size" then let* x := decode_ByteSize v in ret (set_MaxSize x c)
  else if String.eqb k "expire" then let* x := decode_Duration v in ret (set_Expire x c)
  else if String.eqb k "grace_time" then let* x := decode_Duration v in ret (set_GraceTime x c)
  else ret (set_XXX (<[k := v]> (XXX c)) c).

Definition plain : node -> t -> Res t := mappingStruct (set_XXX ∅) field.

Definition UnmarshalYAML (n : node) (c : t) : Res t :=
  let* c := plain n c in
  if (String.length (Name c) =? 0)%nat
  then fail (Errorf "`cache.name` must be specified")
  else if (String.length (Dir c) =? 0)%nat
  then fail (Errorf ("`cache.dir` must be specified for " +:+ quote (Name c)))
  else if MaxSize c <=? 0
  then fail (Errorf ("`cache.max_size` must be specified for " +:+ quote (Name c)))
  else let* _ := checkOverflow (XXX c) ("cache " +:+ quote (Name c)) in
       ret c.

Definition decode (n : node) : Res t := unmarshal zero UnmarshalYAML n zero.

End defs.

End Cache.

Module User.

Section defs.

Context `{Out : Outside}.

Record t : Type := mk {
  Name : string;
  Password : string;
  ToCluster : string;
  ToUser : string;
  MaxConcurrentQueries : Z;
  MaxExecutionTime : Duration;
  ReqPerMin : Z;
  MaxQueueSize : Z;
  MaxQueueTime : Duration;
  DenyHTTP : bool;
  DenyHTTPS : bool;
  AllowCORS : bool;
  Cache : string;
  Params : string;
  XXX : gmap string node
}.

Definition zero : t :=
  {| Name := ""; Password := ""; ToCluster := ""; ToUser := ""; MaxConcurrentQueries := 0; MaxExecutionTime := 0; ReqPerMin := 0; MaxQueueSize := 0; MaxQueueTime := 0; DenyHTTP := false; DenyHTTPS := false; AllowCORS := false; Cache := ""; Params := ""; XXX := ∅ |}.

Definition set_Name (x : string) (c : t) : t :=
  {| Name := x; Password := Password c; ToCluster := ToCluster c; ToUser := ToUser c; MaxConcurrentQueries := MaxConcurrentQueries c; MaxExecutionTime := MaxExecutionTime c; ReqPerMin := ReqPerMin c; MaxQueueSize := MaxQueueSize c; MaxQueueTime := MaxQueueTime c; DenyHTTP := DenyHTTP c; DenyHTTPS := DenyHTTPS c; AllowCORS := AllowCORS c; Cache := Cache c; Params := Params c; XXX := XXX c |}.
Definition set_Password (x : string) (c : t) : t :=
  {| Name := Name c; Password := x; ToCluster := ToCluster c; ToUser := ToUser c; MaxConcurrentQueries := MaxConcurrentQueries c; MaxExecutionTime := MaxExecutionTime c; ReqPerMin := ReqPerMin c; MaxQueueSize := MaxQueueSize c; MaxQueueTime := MaxQueueTime c; DenyHTTP := DenyHTTP c; DenyHTTPS := DenyHTTPS c; AllowCORS := AllowCORS c; Cache := Cache c; Params := Params c; XXX := XXX c |}.
Definition set_ToCluster (x : string) (c : t) : t :=
  {| Name := Name c; Password := Password c; ToCluster := x; ToUser := ToUser c; MaxConcurrentQueries := MaxConcurrentQueries c; MaxExecutionTime := MaxExecutionTime c; ReqPerMin := ReqPerMin c; MaxQueueSize := MaxQueueSize c; MaxQueueTime := MaxQueueTime c; DenyHTTP := DenyHTTP c; DenyHTTPS := DenyHTTPS c; AllowCORS := AllowCORS c; Cache := Cache c; Params := Params c; XXX := XXX c |}.
Definition set_ToUser (x : string) (c : t) : t :=
  {| Name := Name c; Password := Password c; ToCluster := ToCluster c; ToUser := x; MaxConcurrentQueries := MaxConcurrentQueries c; MaxExecutionTime := MaxExecutionTime c; ReqPerMin := ReqPerMin c; MaxQueueSize := MaxQueueSize c; MaxQueueTime := MaxQueueTime c; DenyHTTP := DenyHTTP c; DenyHTTPS := DenyHTTPS c; AllowCORS := AllowCORS c; Cache := Cache c; Params := Params c; XXX := XXX c |}.
Definition set_MaxConcurrentQueries (x : Z) (c : t) : t :=
  {| Name := Name c; Password := Password c; ToCluster := ToCluster c; ToUser := ToUser c; MaxConcurrentQueries := x; MaxExecutionTime := MaxExecutionTime c; ReqPerMin := ReqPerMin c; MaxQueueSize := MaxQueueSize c; MaxQueueTime := MaxQueueTime c; DenyHTTP := DenyHTTP c; DenyHTTPS := DenyHTTPS c; AllowCORS := AllowCORS c; Cache := Cache c; Params := Params c; XXX := XXX c |}.
Definition set_MaxExecutionTime (x : Duration) (c : t) : t :=
  {| Name := Name c; Password := Password c; ToCluster := ToCluster c; ToUser := ToUser c; MaxConcurrentQueries := MaxConcurrentQueries c; MaxExecutionTime := x; ReqPerMin := ReqPerMin c; MaxQueueSize := MaxQueueSize c; MaxQueueTime := MaxQueueTime c; DenyHTTP := DenyHTTP c; DenyHTTPS := DenyHTTPS c; AllowCORS := AllowCORS c; Cache := Cache c; Params := Params c; XXX := XXX c |}.
Definition set_ReqPerMin (x : Z) (c : t) : t :=
  {| Name := Name c; Password := Password c; ToCluster := ToCluster c; ToUser := ToUser c; MaxConcurrentQueries := MaxConcurrentQueries c; MaxExecutionTime := MaxExecutionTime c; ReqPerMin := x; MaxQueueSize := MaxQueueSize c; MaxQueueTime := MaxQueueTime c; DenyHTTP := DenyHTTP c; DenyHTTPS := DenyHTTPS c; AllowCORS := AllowCORS c; Cache := Cache c; Params := Params c; XXX := XXX c |}.
Definition set_MaxQueueSize (x : Z) (c : t) : t :=
  {| Name := Name c; Password := Password c; ToCluster := ToCluster c; ToUser := ToUser c; MaxConcurrentQueries := MaxConcurrentQueries c; MaxExecutionTime := MaxExecutionTime c; ReqPerMin := ReqPerMin c; MaxQueueSize := x; MaxQueueTime := MaxQueueTime c; DenyHTTP := DenyHTTP c; DenyHTTPS := DenyHTTPS c; AllowCORS := AllowCORS c; Cache := Cache c; Params := Params c; XXX := XXX c |}.
Definition set_MaxQueueTime (x : Duration) (c : t) : t :=
  {| Name := Name c; Password := Password c; ToCluster := ToCluster c; ToUser := ToUser c; MaxConcurrentQueries := MaxConcurrentQueries c; MaxExecutionTime := MaxExecutionTime c; ReqPerMin := ReqPerMin c; MaxQueueSize := MaxQueueSize c; MaxQueueTime := x; DenyHTTP := DenyHTTP c; DenyHTTPS := DenyHTTPS c; AllowCORS := AllowCORS c; Cache := Cache c; Params := Params c; XXX := XXX c |}.
Definition set_DenyHTTP (x : bool) (c : t) : t :=
  {| Name := Name c; Password := Password c; ToCluster := ToCluster c; ToUser := ToUser c; MaxConcurrentQueries := MaxConcurrentQueries c; MaxExecutionTime := MaxExecutionTime c; ReqPerMin := ReqPerMin c; MaxQueueSize := MaxQueueSize c; MaxQueueTime := MaxQueueTime c; DenyHTTP := x; DenyHTTPS := DenyHTTPS c; AllowCORS := AllowCORS c; Cache := Cache c; Params := Params c; XXX := XXX c |}.
Definition set_DenyHTTPS (x : bool) (c : t) : t :=
  {| Name := Name c; Password := Password c; ToCluster := ToCluster c; ToUser := ToUser c; MaxConcurrentQueries := MaxConcurrentQueries c; MaxExecutionTime := MaxExecutionTime c; ReqPerMin := ReqPerMin c; MaxQueueSize := MaxQueueSize c; MaxQueueTime := MaxQueueTime c; DenyHTTP := DenyHTTP c; DenyHTTPS := x; AllowCORS := AllowCORS c; Cache := Cache c; Params := Params c; XXX := XXX c |}.
Definition set_AllowCORS (x : bool) (c : t) : t :=
  {| Name := Name c; Password := Password c; ToCluster := ToCluster c; ToUser := ToUser c; MaxConcurrentQueries := MaxConcurrentQueries c; MaxExecutionTime := MaxExecutionTime c; ReqPerMin := ReqPerMin c; MaxQueueSize := MaxQueueSize c; MaxQueueTime := MaxQueueTime c; DenyHTTP := DenyHTTP c; DenyHTTPS := DenyHTTPS c; AllowCORS := x; Cache := Cache c; Params := Params c; XXX := XXX c |}.
Definition set_Cache (x : string) (c : t) : t :=
  {| Name := Name c; Password := Password c; ToCluster := ToCluster c; ToUser := ToUser c; MaxConcurrentQueries := MaxConcurrentQueries c; MaxExecutionTime := MaxExecutionTime c; ReqPerMin := ReqPerMin c; MaxQueueSize := MaxQueueSize c; MaxQueueTime := MaxQueueTime c; DenyHTTP := DenyHTTP c; DenyHTTPS := DenyHTTPS c; AllowCORS := AllowCORS c; Cache := x; Params := Params c; XXX := XXX c |}.
Definition set_Params (x : string) (c : t) : t :=
  {| Name := Name c; Password := Password c; ToCluster := ToCluster c; ToUser := ToUser c; MaxConcurrentQueries := MaxConcurrentQueries c; MaxExecutionTime := MaxExecutionTime c; ReqPerMin := ReqPerMin c; MaxQueueSize := MaxQueueSize c; MaxQueueTime := MaxQueueTime c; DenyHTTP := DenyHTTP c; DenyHTTPS := DenyHTTPS c; AllowCORS := AllowCORS c; Cache := Cache c; Params := x; XXX := XXX c |}.
Definition set_XXX (x : gmap string node) (c : t) : t :=
  {| Name := Name c; Password := Password c; ToCluster := ToCluster c; ToUser := ToUser c; MaxConcurrentQueries := MaxConcurrentQueries c; MaxExecutionTime := MaxExecutionTime c; ReqPerMin := ReqPerMin c; MaxQueueSize := MaxQueueSize c; MaxQueueTime := MaxQueueTime c; DenyHTTP := DenyHTTP c; DenyHTTPS := DenyHTTPS c; AllowCORS := AllowCORS c; Cache := Cache c; Params := Params c; XXX := x |}.

Definition field (k : string) (v : node) (u : t) : Res t :=
  if String.eqb k "name" then let* x := decode_string v in ret (set_Name x u)
  else if String.eqb k "password" then let* x := decode_string v in ret (set_Password x u)
  else if String.eqb k "to_cluster" then let* x := decode_string v in ret (set_ToCluster x u)
  else if String.eqb k "to_user" then let* x := decode_string v in ret (set_ToUser x u)
  else if String.eqb k "max_concurrent_queries"
  then let* x := decode_uint32 v in ret (set_MaxConcurrentQueries x u)
  else if String.eqb k "max_execution_time"
  then let* x := decode_Duration v in ret (set_MaxExecutionTime x u)
  else if String.eqb k "requests_per_minute"
  then let* x := decode_uint32 v in ret (set_ReqPerMin x u)
  else if String.eqb k "max_queue_size"
  then let* x := decode_uint32 v in ret (set_MaxQueueSize x u)
  else if String.eqb k "max_queue_time"
  then let* x := decode_Duration v in ret (set_MaxQueueTime x u)
  else if String.eqb k "deny_http" then let* x := decode_bool v in ret (set_DenyHTTP x u)
  else if String.eqb k "deny_https" then let* x := decode_bool v in ret (set_DenyHTTPS x u)
  else if String.eqb k "allow_cors" then let* x := decode_bool v in ret (set_AllowCORS x u)
  else if String.eqb k "cache" then let* x := decode_string v in ret (set_Cache x u)
  else if String.eqb k "params" then let* x := decode_string v in ret (set_Params x u)
  else ret (set_XXX (<[k := v]> (XXX u)) u).

Definition plain : node -> t -> Res t := mappingStruct (set_XXX ∅) field.

Definition UnmarshalYAML (n : node) (u : t) : Res t :=
  let* u := plain n u in
  if (String.length (Name u) =? 0)%nat
  then fail (Errorf "`user.name` cannot be empty")
  else if (String.length (ToUser u) =? 0)%nat
  then fail (Errorf ("`user.to_user` cannot be empty for " +:+ quote (Name u)))
  else if (String.length (ToCluster u) =? 0)%nat
  then fail (Errorf ("`user.to_cluster` cannot be empty for " +:+ quote (Name u)))
  else if DenyHTTP u && DenyHTTPS u
  then fail (Errorf ("`deny_http` and `deny_https` cannot be simultaneously set to `true` for "
                     +:+ quote (Name u)))
  else if (MaxQueueTime u >? 0) && (MaxQueueSize u =? 0)
  then fail (Errorf ("`max_queue_size` must be set if `max_queue_time` is set for "
                     +:+ quote (Name u)))
  else let* _ := checkOverflow (XXX u) ("user " +:+ quote (Name u)) in
       ret u.

Definition decode (n : node) : Res t := unmarshal zero UnmarshalYAML n zero.

End defs.

End User.

Module KillQueryUser.

Section defs.

Context `{Out : Outside}.

Record t : Type := mk {
  Name : string;
  Password : string;
  XXX : gmap string node
}.

Definition zero : t :=
  {| Name := ""; Password := ""; XXX := ∅ |}.

Definition set_Name (x : string) (c : t) : t :=
  {| Name := x; Password := Password c; XXX := XXX c |}.
Definition set_Password (x : string) (c : t) : t :=
  {| Name := Name c; Password := x; XXX := XXX c |}.
Definition set_XXX (x : gmap string node) (c : t) : t :=
  {| Name := Name c; Password := Password c; XXX := x |}.

Definition field (k : string) (v : node) (u : t) : Res t :=
  if String.eqb k "name" then let* x := decode_string v in ret (set_Name x u)
  else if String.eqb k "password" then let* x := decode_string v in ret (set_Password x u)
  else ret (set_XXX (<[k := v]> (XXX u)) u).

Definition plain : node -> t -> Res t := mappingStruct (set_XXX ∅) field.

Definition UnmarshalYAML (n : node) (u : t) : Res t :=
  let* u := plain n u in
  if (String.length (Name u) =? 0)%nat
  then fail (Errorf "`cluster.kill_query_user.name` must be specified")
  else let* _ := checkOverflow (XXX u) "kill_query_user" in
       ret u.

End defs.

End KillQueryUser.

Module Replica.

Section defs.

Context `{Out : Outside}.

Record t : Type := mk {
  Name : string;
  Nodes : list string;
  XXX : gmap string node
}.

Definition zero : t :=
  {| Name := ""; Nodes := []; XXX := ∅ |}.

Definition set_Name (x : string) (c : t) : t :=
  {| Name := x; Nodes := Nodes c; XXX := XXX c |}.
Definition set_Nodes (x : list string) (c : t) : t :=
  {| Name := Name c; Nodes := x; XXX := XXX c |}.
Definition set_XXX (x : gmap string node) (c : t) : t :=
  {| Name := Name c; Nodes := Nodes c; XXX := x |}.

Definition field (k : string) (v : node) (r : t) : Res t :=
  if String.eqb k "name" then let* x := decode_string v in ret (set_Name x r)
  else if String.eqb k "nodes" then let* x := decode_strings v in ret (set_Nodes x r)
  else ret (set_XXX (<[k := v]> (XXX r)) r).

Definition plain : node -> t -> Res t := mappingStruct (set_XXX ∅) field.

Definition UnmarshalYAML (n : node) (r : t) : Res t :=
  let* r := plain n r in
  if (String.length (Name r) =? 0)%nat
  then fail (Errorf "`replica.name` cannot be empty")
  else if (length (Nodes r) =? 0)%nat
  then fail (Errorf ("`replica.nodes` cannot be empty for " +:+ quote (Name r)))
  else let* _ := checkOverflow (XXX r) ("replica " +:+ quote (Name r)) in
       ret r.

Definition decode (n : node) : Res t := unmarshal zero UnmarshalYAML n zero.

End defs.

End Replica.

Definition defaultClusterUser : ClusterUser.t :=
  ClusterUser.set_Name "default" ClusterUser.zero.

Module Cluster.

Section defs.

Context `{Out : Outside}.

Record t : Type := mk {
  Name : string;
  Nodes : list string;
  Replicas : list Replica.t;
  ClusterUsers : list ClusterUser.t;
  KillQueryUser : KillQueryUser.t;
  HeartBeatInterval : Duration;
  XXX : gmap string node
}.

Definition zero : t :=
  {| Name := ""; Nodes := []; Replicas := []; ClusterUsers := []; KillQueryUser := KillQueryUser.zero; HeartBeatInterval := 0; XXX := ∅ |}.

Definition set_Name (x : string) (c : t) : t :=
  {| Name := x; Nodes := Nodes c; Replicas := Replicas c; ClusterUsers := ClusterUsers c; KillQueryUser := KillQueryUser c; HeartBeatInterval := HeartBeatInterval c; XXX := XXX c |}.
Definition set_Nodes (x : list string) (c : t) : t :=
  {| Name := Name c; Nodes := x; Replicas := Replicas c; ClusterUsers := ClusterUsers c; KillQueryUser := KillQueryUser c; HeartBeatInterval := HeartBeatInterval c; XXX := XXX c |}.
Definition set_Replicas (x : list Replica.t) (c : t) : t :=
  {| Name := Name c; Nodes := Nodes c; Replicas := x; ClusterUsers := ClusterUsers c; KillQueryUser := KillQueryUser c; HeartBeatInterval := HeartBeatInterval c; XXX := XXX c |}.
Definition set_ClusterUsers (x : list ClusterUser.t) (c : t) : t :=
  {| Name := Name c; Nodes := Nodes c; Replicas := Replicas c; ClusterUsers := x; KillQueryUser := KillQueryUser c; HeartBeatInterval := HeartBeatInterval c; XXX := XXX c |}.
Definition set_KillQueryUser (x : KillQueryUser.t) (c : t) : t :=
  {| Name := Name c; Nodes := Nodes c; Replicas := Replicas c; ClusterUsers := ClusterUsers c; KillQueryUser := x; HeartBeatInterval := HeartBeatInterval c; XXX := XXX c |}.
Definition set_HeartBeatInterval (x : Duration) (c : t) : t :=
  {| Name := Name c; Nodes := Nodes c; Replicas := Replicas c; ClusterUsers := ClusterUsers c; KillQueryUser := KillQueryUser c; HeartBeatInterval := x; XXX := XXX c |}.
Definition set_XXX (x : gmap string node) (c : t) : t :=
  {| Name := Name c; Nodes := Nodes c; Replicas := Replicas c; ClusterUsers := ClusterUsers c; KillQueryUser := KillQueryUser c; HeartBeatInterval := HeartBeatInterval c; XXX := x |}.

Definition defaultCluster : t := set_ClusterUsers [defaultClusterUser] zero.

Definition field (k : string) (v : node) (c : t) : Res t :=
  if String.eqb k "name" then let* x := decode_string v in ret (set_Name x c)
  else if String.eqb k "nodes" then let* x := decode_strings v in ret (set_Nodes x c)
  else if String.eqb k "replicas"
  then let* x := sequence Replica.decode v in ret (set_Replicas x c)
  else if String.eqb k "users"
  then let* x := sequence ClusterUser.decode v in ret (set_ClusterUsers x c)
  else if String.eqb k "kill_query_user"
  then let* x := unmarshal KillQueryUser.zero KillQueryUser.UnmarshalYAML v (KillQueryUser c) in
       ret (set_KillQueryUser x c)
  else if String.eqb k "heartbeat_interval"
  then let* x := decode_Duration v in ret (set_HeartBeatInterval x c)
  else ret (set_XXX (<[k := v]> (XXX c)) c).

Definition plain : node -> t -> Res t := mappingStruct (set_XXX ∅) field.

Definition UnmarshalYAML (n : node) (c : t) : Res t :=
  let c := defaultCluster in
  let* c := plain n c in
  if (String.length (Name c) =? 0)%nat
  then fail (Errorf "`cluster.name` cannot be empty")
  else if (length (Nodes c) =? 0)%nat && (length (Replicas c) =? 0)%nat
  then fail (Errorf ("either `cluster.nodes` or `cluster.replicas` must be set for "
                     +:+ quote (Name c)))
  else if (0 <? length (Nodes c))%nat && (0 <? length (Replicas c))%nat
  then fail (Errorf ("`cluster.nodes` cannot be simultaneously set with `cluster.replicas` for "
                     +:+ quote (Name c)))
  else if (length (ClusterUsers c) =? 0)%nat
  then fail (Errorf ("`cluster.users` must contain at least 1 user for " +:+ quote (Name c)))
  else
    let c := if HeartBeatInterval c =? 0
             then set_HeartBeatInterval (Second * 5) c else c in
    let* _ := checkOverflow (XXX c) ("cluster " +:+ quote (Name c)) in
    ret c.

Definition decode (n : node) : Res t := unmarshal zero UnmarshalYAML n zero.

End defs.

End Cluster.

Module TimeoutCfg.

Record t : Type := mk {
  ReadTimeout : Duration;
  WriteTimeout : Duration;
  IdleTimeout : Duration
}.

Definition zero : t :=
  {| ReadTimeout := 0; WriteTimeout := 0; IdleTimeout := 0 |}.

Definition set_ReadTimeout (x : Duration) (c : t) : t :=
  {| ReadTimeout := x; WriteTimeout := WriteTimeout c; IdleTimeout := IdleTimeout c |}.
Definition set_WriteTimeout (x : Duration) (c : t) : t :=
  {| ReadTimeout := ReadTimeout c; WriteTimeout := x; IdleTimeout := IdleTimeout c |}.
Definition set_IdleTimeout (x : Duration) (c : t) : t :=
  {| ReadTimeout := ReadTimeout c; WriteTimeout := WriteTimeout c; IdleTimeout := x |}.

End TimeoutCfg.

Module HTTP.

Section defs.

Context `{Out : Outside}.

Record t : Type := mk {
  ListenAddr : string;
  TimeoutCfg : TimeoutCfg.t;
  XXX : gmap string node
}.

Definition zero : t :=
  {| ListenAddr := ""; TimeoutCfg := TimeoutCfg.zero; XXX := ∅ |}.

Definition set_ListenAddr (x : string) (c : t) : t :=
  {| ListenAddr := x; TimeoutCfg := TimeoutCfg c; XXX := XXX c |}.
Definition set_TimeoutCfg (x : TimeoutCfg.t) (c : t) : t :=
  {| ListenAddr := ListenAddr c; TimeoutCfg := x; XXX := XXX c |}.
Definition set_XXX (x : gmap string node) (c : t) : t :=
  {| ListenAddr := ListenAddr c; TimeoutCfg := TimeoutCfg c; XXX := x |}.

Definition ReadTimeout (c : t) : Duration := TimeoutCfg.ReadTimeout (TimeoutCfg c).
Definition WriteTimeout (c : t) : Duration := TimeoutCfg.WriteTimeout (TimeoutCfg c).
Definition IdleTimeout (c : t) : Duration := TimeoutCfg.IdleTimeout (TimeoutCfg c).
Definition set_ReadTimeout (x : Duration) (c : t) : t :=
  set_TimeoutCfg (TimeoutCfg.set_ReadTimeout x (TimeoutCfg c)) c.
Definition set_WriteTimeout (x : Duration) (c : t) : t :=
  set_TimeoutCfg (TimeoutCfg.set_WriteTimeout x (TimeoutCfg c)) c.
Definition set_IdleTimeout (x : Duration) (c : t) : t :=
  set_TimeoutCfg (TimeoutCfg.set_IdleTimeout x (TimeoutCfg c)) c.

(** [TimeoutCfg] is inlined: its keys are keys of the [http] mapping. *)
Definition field (k : string) (v : node) (c : t) : Res t :=
  if String.eqb k "listen_addr" then let* x := decode_string v in ret (set_ListenAddr x c)
  else if String.eqb k "read_timeout"
  then let* x := decode_Duration v in ret (set_ReadTimeout x c)
  else if String.eqb k "write_timeout"
  then let* x := decode_Duration v in ret (set_WriteTimeout x c)
  else if String.eqb k "idle_timeout"
  then let* x := decode_Duration v in ret (set_IdleTimeout x c)
  else ret (set_XXX (<[k := v]> (XXX c)) c).

Definition plain : node -> t -> Res t := mappingStruct (set_XXX ∅) field.

Definition UnmarshalYAML (n : node) (c : t) : Res t :=
  let* c := plain n c in
  let c := if ReadTimeout c =? 0 then set_ReadTimeout Minute c else c in
  let c := if IdleTimeout c =? 0 then set_IdleTimeout (Minute * 10) c else c in
  let* _ := checkOverflow (XXX c) "http" in
  ret c.

End defs.

End HTTP.

Module Server.

Section defs.

Context `{Out : Outside}.

Record t : Type := mk {
  HTTP : HTTP.t;
  XXX : gmap string node
}.

Definition zero : t :=
  {| HTTP := HTTP.zero; XXX := ∅ |}.

Definition set_HTTP (x : HTTP.t) (c : t) : t :=
  {| HTTP := x; XXX := XXX c |}.
Definition set_XXX (x : gmap string node) (c : t) : t :=
  {| HTTP := HTTP c; XXX := x |}.

Definition field (k : string) (v : node) (s : t) : Res t :=
  if String.eqb k "http"
  then let* x := unmarshal HTTP.zero HTTP.UnmarshalYAML v (HTTP s) in ret (set_HTTP x s)
  else ret (set_XXX (<[k := v]> (XXX s)) s).

Definition plain : node -> t -> Res t := mappingStruct (set_XXX ∅) field.

Definition UnmarshalYAML (n : node) (s : t) : Res t :=
  let* s := plain n s in
  let* _ := checkOverflow (XXX s) "server" in
  ret s.

End defs.

End Server.

Module Config.

Section defs.

Context `{Out : Outside}.

Record t : Type := mk {
  Server : Server.t;
  Clusters : list Cluster.t;
  Users : list User.t;
  LogDebug : bool;
  Caches : list Cache.t;
  ParamGroups : list ParamGroup.t;
  XXX : gmap string node
}.

Definition zero : t :=
  {| Server := Server.zero; Clusters := []; Users := []; LogDebug := false; Caches := []; ParamGroups := []; XXX := ∅ |}.

Definition set_Server (x : Server.t) (c : t) : t :=
  {| Server := x; Clusters := Clusters c; Users := Users c; LogDebug := LogDebug c; Caches := Caches c; ParamGroups := ParamGroups c; XXX := XXX c |}.
Definition set_Clusters (x : list Cluster.t) (c : t) : t :=
  {| Server := Server c; Clusters := x; Users := Users c; LogDebug := LogDebug c; Caches := Caches c; ParamGroups := ParamGroups c; XXX := XXX c |}.
Definition set_Users (x : list User.t) (c : t) : t :=
  {| Server := Server c; Clusters := Clusters c; Users := x; LogDebug := LogDebug c; Caches := Caches c; ParamGroups := ParamGroups c; XXX := XXX c |}.
Definition set_LogDebug (x : bool) (c : t) : t :=
  {| Server := Server c; Clusters := Clusters c; Users := Users c; LogDebug := x; Caches := Caches c; ParamGroups := ParamGroups c; XXX := XXX c |}.
Definition set_Caches (x : list Cache.t) (c : t) : t :=
  {| Server := Server c; Clusters := Clusters c; Users := Users c; LogDebug := LogDebug c; Caches := x; ParamGroups := ParamGroups c; XXX := XXX c |}.
Definition set_ParamGroups (x : list ParamGroup.t) (c : t) : t :=
  {| Server := Server c; Clusters := Clusters c; Users := Users c; LogDebug := LogDebug c; Caches := Caches c; ParamGroups := x; XXX := XXX c |}.
Definition set_XXX (x : gmap string node) (c : t) : t :=
  {| Server := Server c; Clusters := Clusters c; Users := Users c; LogDebug := LogDebug c; Caches := Caches c; ParamGroups := ParamGroups c; XXX := x |}.

Definition defaultConfig : t := set_Clusters [Cluster.defaultCluster] zero.

Definition field (k : string) (v : node) (c : t) : Res t :=
  if String.eqb k "server"
  then let* x := unmarshal Server.zero Server.UnmarshalYAML v (Server c) in ret (set_Server x c)
  else if String.eqb k "clusters"
  then let* x := sequence Cluster.decode v in ret (set_Clusters x c)
  else if String.eqb k "users" then let* x := sequence User.decode v in ret (set_Users x c)
  else if String.eqb k "log_debug" then let* x := decode_bool v in ret (set_LogDebug x c)
  else if String.eqb k "caches" then let* x := sequence Cache.decode v in ret (set_Caches x c)
  else if String.eqb k "param_groups"
  then let* x := sequence ParamGroup.decode v in ret (set_ParamGroups x c)
  else ret (set_XXX (<[k := v]> (XXX c)) c).

Definition plain : node -> t -> Res t := mappingStruct (set_XXX ∅) field.

Definition UnmarshalYAML (n : node) (c : t) : Res t :=
  let c := defaultConfig in
  let* c := plain n c in
  if (length (Users c) =? 0)%nat
  then fail (Errorf "`users` must contain at least 1 user")
  else if (length (Clusters c) =? 0)%nat
  then fail (Errorf "`clusters` must contain at least 1 cluster")
  else if (String.length (HTTP.ListenAddr (Server.HTTP (Server c))) =? 0)%nat
  then fail (Errorf "HTTP is not configured")
  else let* _ := checkOverflow (XXX c) "config" in
       ret c.

Definition ListenAddr (c : t) : string := HTTP.ListenAddr (Server.HTTP (Server c)).
Definition WriteTimeout (c : t) : Duration := HTTP.WriteTimeout (Server.HTTP (Server c)).
Definition ReadTimeout (c : t) : Duration := HTTP.ReadTimeout (Server.HTTP (Server c)).
Definition IdleTimeout (c : t) : Duration := HTTP.IdleTimeout (Server.HTTP (Server c)).
Definition set_WriteTimeout (x : Duration) (c : t) : t :=
  set_Server (Server.set_HTTP (HTTP.set_WriteTimeout x (Server.HTTP (Server c))) (Server c)) c.

End defs.

End Config.

Section loading.

Context `{Out : Outside}.

(** [yaml.Unmarshal(content, cfg)]: nothing is decoded when the content
    holds no document. *)
Definition Unmarshal (doc : option node) (cfg : Config.t) : Res Config.t :=
  match doc with
  | None => ret cfg
  | Some n => unmarshal Config.zero Config.UnmarshalYAML n cfg
  end.

(** The two loops of [LoadFile] over the cluster users and the users. *)
Definition maxClusterUsers (us : list ClusterUser.t) (m : Z) : Z :=
  fold_left (fun m u =>
               let cud := add64 (ClusterUser.MaxExecutionTime u) (ClusterUser.MaxQueueTime u) in
               if cud >? m then cud else m) us m.

Definition maxClusters (cs : list Cluster.t) (m : Z) : Z :=
  fold_left (fun m c => maxClusterUsers (Cluster.ClusterUsers c) m) cs m.

Definition maxUsers (us : list User.t) (m : Z) : Z :=
  fold_left (fun m u =>
               let ud := add64 (User.MaxExecutionTime u) (User.MaxQueueTime u) in
               if ud >? m then ud else m) us m.

(** [LoadFile] from [var maxResponseTime] to its end. *)
Definition setWriteTimeout (cfg : Config.t) : Config.t :=
  let maxResponseTime := 0 in
  let maxResponseTime := maxClusters (Config.Clusters cfg) maxResponseTime in
  let maxResponseTime := maxUsers (Config.Users cfg) maxResponseTime in
  let maxResponseTime := if maxResponseTime <? 0 then 0 else maxResponseTime in
  let maxResponseTime := add64 maxResponseTime Minute in
  if (0 <? String.length (Config.ListenAddr cfg))%nat && (Config.WriteTimeout cfg =? 0)
  then Config.set_WriteTimeout maxResponseTime cfg
  else cfg.

(** What [LoadFile] does with the content of the file once the YAML
    scanner has read it. *)
Definition LoadDocument (doc : option node) : Res Config.t :=
  let* cfg := Unmarshal doc Config.zero in
  ret (setWriteTimeout cfg).

Section LoadFile.

(** [ioutil.ReadFile] on the file system at the time of the call, and the
    scanner of yaml.v2: a syntax error, or the root node of the document
    ([None] for an empty content). *)
Variable ReadFile : string -> Res string.
Variable scan : string -> Res (option node).

Definition LoadFile (filename : string) : Res Config.t :=
  let* content := ReadFile filename in
  let* doc := scan content in
  LoadDocument doc.

End LoadFile.

End loading.

End config.

Export config.

(** ** package main ([main.go])

    The process is modelled sequentially.  Its globals are the fields of
    [World].  The reverse proxy, which is not among the sources, the
    Prometheus handler and the YAML library are the operations of
    [Externals]; package [log] and [respondWith], which are not among the
    sources either, are modelled from the spec. *)

Module main.

(** *** net/http *)

Record Request : Type := {
  Method : string;
  URL_Path : string;
  RemoteAddr : string
}.

(** What a handler has done to its [http.ResponseWriter]: the header map,
    the status given to [WriteHeader] ([None] while no status was
    written) and the bytes written. *)
Record ResponseWriter : Type := {
  Header : gmap string (list string);
  Status : option Z;
  Body : string
}.

Definition newResponseWriter : ResponseWriter :=
  {| Header := ∅; Status := None; Body := "" |}.

(** [rw.Header().Set(key, value)], for a key in canonical form. *)
Definition Header_Set (key value : string) (rw : ResponseWriter) : ResponseWriter :=
  {| Header := <[key := [value]]> (Header rw); Status := Status rw; Body := Body rw |}.

(** [rw.WriteHeader(status)]: only the first status counts. *)
Definition WriteHeader (status : Z) (rw : ResponseWriter) : ResponseWriter :=
  match Status rw with
  | Some _ => rw
  | None => {| Header := Header rw; Status := Some status; Body := Body rw |}
  end.

(** [rw.Write(s)]: the status is 200 when none was written before. *)
Definition Write (s : string) (rw : ResponseWriter) : ResponseWriter :=
  let rw := WriteHeader 200 rw in
  {| Header := Header rw; Status := Status rw; Body := Body rw +:+ s |}.

(** The status line the server sends once the handler has returned. *)
Definition StatusCode (rw : ResponseWriter) : Z := default 200 (Status rw).

Definition Header_Get (key : string) (rw : ResponseWriter) : string :=
  match Header rw !! key with
  | Some (v :: _) => v
  | _ => ""
  end.

Definition StatusOK : Z := 200.
Definition StatusBadRequest : Z := 400.
Definition StatusMethodNotAllowed : Z := 405.

(** *** the process *)

Definition Signal : Type := Z.
Definition SIGHUP : Signal := 1.

(** What the process does to the outside, in order. *)
Inductive event : Type :=
| Log (level msg : string)
| Print (s : string)
| ApplyConfig (cfg : Config.t).

Record World (Proxy : Type) : Type := {
  configFile : string;                  (* the flag [-config] *)
  version : bool;                       (* the flag [-version] *)
  proxy : Proxy;
  badRequest : Z;                       (* counter *)
  configSuccess : Z;                    (* gauge *)
  configSuccessTime : Z;                (* gauge *)
  debug : bool;                         (* [log.SetDebug] *)
  ReadFile : string -> Res string;      (* the file system *)
  now : Z;                              (* [time.Now().Unix()] *)
  trace : list event
}.

Arguments configFile {Proxy}.
Arguments version {Proxy}.
Arguments proxy {Proxy}.
Arguments badRequest {Proxy}.
Arguments configSuccess {Proxy}.
Arguments configSuccessTime {Proxy}.
Arguments debug {Proxy}.
Arguments ReadFile {Proxy}.
Arguments now {Proxy}.
Arguments trace {Proxy}.

Class Externals : Type := {
  (** the Unicode tables and the parser of byte sizes *)
  outside :: Outside;
  Proxy : Type;
  (** the scanner of yaml.v2 *)
  scan : string -> Res (option node);
  (** [yaml.Marshal] of a configuration *)
  Config_String : Config.t -> string;
  (** [reverseProxy.applyConfig]: the new proxy and the error, if any *)
  proxy_applyConfig : Config.t -> Proxy -> Proxy * option error;
  (** [reverseProxy.ServeHTTP], [reverseProxy.refreshCacheMetrics] and
      the Prometheus handler *)
  proxy_ServeHTTP :
    ResponseWriter -> Request -> World Proxy -> World Proxy * ResponseWriter;
  proxy_refreshCacheMetrics : World Proxy -> World Proxy;
  promHandler_ServeHTTP :
    ResponseWriter -> Request -> World Proxy -> World Proxy * ResponseWriter
}.

Section Process.

Context `{E : Externals}.

Abbreviation world := (World Proxy).

Definition set_proxy (p : Proxy) (w : world) : world :=
  {| configFile := configFile w; version := version w; proxy := p;
     badRequest := badRequest w; configSuccess := configSuccess w;
     configSuccessTime := configSuccessTime w; debug := debug w;
     ReadFile := ReadFile w; now := now w; trace := trace w |}.

Definition set_badRequest (x : Z) (w : world) : world :=
  {| configFile := configFile w; version := version w; proxy := proxy w;
     badRequest := x; configSuccess := configSuccess w;
     configSuccessTime := configSuccessTime w; debug := debug w;
     ReadFile := ReadFile w; now := now w; trace := trace w |}.

Definition set_configSuccess (x : Z) (w : world) : world :=
  {| configFile := configFile w; version := version w; proxy := proxy w;
     badRequest := badRequest w; configSuccess := x;
     configSuccessTime := configSuccessTime w; debug := debug w;
     ReadFile := ReadFile w; now := now w; trace := trace w |}.

Definition set_configSuccessTime (x : Z) (w : world) : world :=
  {| configFile := configFile w; version := version w; proxy := proxy w;
     badRequest := badRequest w; configSuccess := configSuccess w;
     configSuccessTime := x; debug := debug w;
     ReadFile := ReadFile w; now := now w; trace := trace w |}.

Definition set_debug (x : bool) (w : world) : world :=
  {| configFile := configFile w; version := version w; proxy := proxy w;
     badRequest := badRequest w; configSuccess := configSuccess w;
     configSuccessTime := configSuccessTime w; debug := x;
     ReadFile := ReadFile w; now := now w; trace := trace w |}.

Definition set_env (fs : string -> Res string) (t : Z) (w : world) : world :=
  {| configFile := configFile w; version := version w; proxy := proxy w;
     badRequest := badRequest w; configSuccess := configSuccess w;
     configSuccessTime := configSuccessTime w; debug := debug w;
     ReadFile := fs; now := t; trace := trace w |}.

Definition emit (e : event) (w : world) : world :=
  {| configFile := configFile w; version := version w; proxy := proxy w;
     badRequest := badRequest w; configSuccess := configSuccess w;
     configSuccessTime := configSuccessTime w; debug := debug w;
     ReadFile := ReadFile w; now := now w; trace := trace w ++ [e] |}.

(** A step of the process either returns, or ends the process with an
    exit code ([os.Exit], a panic). *)
Inductive outcome (A : Type) : Type :=
| Exited (code : Z) (w : world)
| Done (w : world) (a : A).

Arguments Exited {A}.
Arguments Done {A}.

Definition M (A : Type) : Type := world -> outcome A.

Definition mret {A} (a : A) : M A := fun w => Done w a.
Definition mbind {A B} (m : M A) (k : A -> M B) : M B :=
  fun w => match m w with
           | Exited code w' => Exited code w'
           | Done w' a => k a w'
           end.
Definition modify (f : world -> world) : M unit := fun w => Done (f w) tt.
Definition gets {A} (f : world -> A) : M A := fun w => Done w (f w).
Definition exit {A} (code : Z) : M A := fun w => Exited code w.

Arguments Exited {A}.
Arguments Done {A}.

Notation "'let!' x := m 'in' k" := (mbind m (fun x => k))
  (at level 10, x pattern, m at level 100, k at level 200).

Definition nl : string := String "010"%char "".

(** Modelled from the spec: package [log] is missing from the sources.
    The spec treats logging as a sink, says that a failed reload is logged
    and does not end the process, and that a failed start-up exits with a
    status that is not zero: [Infof] and [Errorf] write a line, [Fatalf]
    writes a line and exits with status 1. *)
Definition log_Infof (msg : string) : M unit := modify (emit (Log "INFO" msg)).
Definition log_Errorf (msg : string) : M unit := modify (emit (Log "ERROR" msg)).
Definition log_Fatalf {A} (msg : string) : M A :=
  fun w => Exited 1 (emit (Log "FATAL" msg) w).

(** Modelled from the spec: [respondWith] is missing from the sources.
    The spec's scenarios give the status of the response and say that its
    body contains the text of the error. *)
Definition respondWith (rw : ResponseWriter) (err : error) (status : Z) : ResponseWriter :=
  Write (Error err) (WriteHeader status rw).

(** The second [switch] of [serveHTTP], on [r.URL.Path]. *)
Definition servePath (rw : ResponseWriter) (r : Request) (w : world)
  : world * ResponseWriter :=
  if String.eqb (URL_Path r) "/favicon.ico" then (w, rw)
  else if String.eqb (URL_Path r) "/metrics"
  then promHandler_ServeHTTP rw r (proxy_refreshCacheMetrics w)
  else if String.eqb (URL_Path r) "/" then proxy_ServeHTTP rw r w
  else
    let w := set_badRequest (badRequest w + 1) w in
    let err := Errorf (quote (RemoteAddr r) +:+ ": unsupported path: " +:+ quote (URL_Path r)) in
    let rw := Header_Set "Connection" "close" rw in
    (w, respondWith rw err StatusBadRequest).

Definition serveHTTP (rw : ResponseWriter) (r : Request) (w : world)
  : world * ResponseWriter :=
  if String.eqb (Method r) "GET" || String.eqb (Method r) "POST"
  then servePath rw r w
  else if String.eqb (Method r) "OPTIONS"
  then (w, Header_Set "Allow" "GET,POST" rw)
  else
    let err := Errorf (quote (RemoteAddr r) +:+ ": unsupported method " +:+ quote (Method r)) in
    let rw := Header_Set "Connection" "close" rw in
    (w, respondWith rw err StatusMethodNotAllowed).

Definition loadConfig : M (Res Config.t) :=
  let! file := gets configFile in
  let! _ := (if String.eqb file "" then log_Fatalf "Missing -config flag" else mret tt) in
  let! fs := gets ReadFile in
  match config.LoadFile fs scan file with
  | inl err =>
      let! _ := modify (set_configSuccess 0) in
      mret (fail (Errorf ("can't load config " +:+ quote file +:+ ": " +:+ Error err)))
  | inr cfg =>
      let! _ := modify (set_configSuccess 1) in
      let! t := gets now in
      let! _ := modify (set_configSuccessTime t) in
      mret (ret cfg)
  end.

Definition applyConfig (cfg : Config.t) : M (option error) :=
  let! p := gets proxy in
  let! _ := modify (emit (ApplyConfig cfg)) in
  let! _ := modify (set_proxy (proxy_applyConfig cfg p).1) in
  match (proxy_applyConfig cfg p).2 with
  | Some err => mret (Some err)
  | None =>
      let! _ := modify (set_debug (Config.LogDebug cfg)) in
      let! _ := log_Infof ("Loaded config:" +:+ nl +:+ Config_String cfg) in
      mret None
  end.

Definition reloadConfig : M (option error) :=
  let! r := loadConfig in
  match r with
  | inl err => mret (Some err)
  | inr cfg => applyConfig cfg
  end.

(** One turn of the loop of the goroutine that [main] starts: the body of
    [switch <-c]. *)
Definition handleSignal (s : Signal) : M unit :=
  if s =? SIGHUP
  then
    let! file := gets configFile in
    let! _ := log_Infof ("SIGHUP received. Going to reload config " +:+ file +:+ " ...") in
    let! err := reloadConfig in
    match err with
    | Some err => log_Errorf ("error while reloading config: " +:+ Error err)
    | None => log_Infof ("Reloading config " +:+ file +:+ ": successful")
    end
  else mret tt.

(** A signal delivered to the process, with the file system and the clock
    at that time. *)
Record arrival : Type := {
  sig : Signal;
  fs : string -> Res string;
  clock : Z
}.

Definition receive (a : arrival) : M unit :=
  let! _ := modify (set_env (fs a) (clock a)) in
  handleSignal (sig a).

Fixpoint signalLoop (l : list arrival) : M unit :=
  match l with
  | [] => mret tt
  | a :: l' => let! _ := receive a in signalLoop l'
  end.

Definition buildTag : string := "unknown".
Definition buildRevision : string := "unknown".
Definition buildTime : string := "unknown".

Definition versionString : string :=
  let ver := if (String.length buildTag =? 0)%nat then "unknown" else buildTag in
  "chproxy ver. " +:+ ver +:+ ", rev. " +:+ buildRevision +:+ ", built at " +:+ buildTime.

(** [main] up to the start of the goroutines. *)
Definition startup : M Config.t :=
  let! v := gets version in
  let! _ := (if v
             then let! _ := modify (emit (Print (versionString +:+ nl))) in exit 0
             else mret tt) in
  let! file := gets configFile in
  let! _ := log_Infof versionString in
  let! _ := log_Infof ("Loading config: " +:+ file) in
  let! r := loadConfig in
  match r with
  | inl err => log_Fatalf ("error while loading config: " +:+ Error err)
  | inr cfg =>
      let! e := applyConfig cfg in
      match e with
      | Some err => log_Fatalf ("error while applying config: " +:+ Error err)
      | None =>
          let! _ := log_Infof ("Loading config " +:+ quote file +:+ ": successful") in
          mret cfg
      end
  end.

(** [main], with the signals that arrive while it runs.  The HTTP server
    runs beside the signal loop and is not part of this function. *)
Definition main (arrivals : list arrival) : M unit :=
  let! cfg := startup in
  if (String.length (Config.ListenAddr cfg) =? 0)%nat
  then exit 2
  else signalLoop arrivals.

(** The worlds in which the signal loop runs. *)
Inductive Reachable : world -> Prop :=
| reach_startup w0 w cfg :
    startup w0 = Done w cfg -> Reachable w
| reach_receive w a w' :
    Reachable w -> receive a w = Done w' tt -> Reachable w'.

(** The configurations handed to [proxy.applyConfig] so far. *)
Definition applied (w : world) : list Config.t :=
  omap (fun e => match e with ApplyConfig cfg => Some cfg | _ => None end) (trace w).

End Process.

Arguments Exited {E A}.
Arguments Done {E A}.

End main.

(** ** Vocabulary of the statements *)

Module spec.

(** The unit names of the duration grammar. *)
Definition duration_units : list string :=
  ["ns"; micro_s; "ms"; "s"; "m"; "h"; "d"; "w"].

(** The accepted duration grammar, as the specification words it: a
    non-negative integer in decimal digits, immediately followed by one
    unit. *)
Definition duration_grammar (s : string) : Prop :=
  exists ds u, s = ds +:+ u /\ ds <> "" /\ all_digits ds = true /\ u ∈ duration_units.

(** [m] is the maximum of the list [l]. *)
Definition is_maximum (m : Z) (l : list Z) : Prop :=
  m ∈ l /\ forall x, x ∈ l -> x <= m.

(** The response times that [LoadFile] looks at: for every user of every
    cluster, then for every user, the sum of [MaxExecutionTime] and
    [MaxQueueTime]. *)
Definition responseTimes (cfg : Config.t) : list Z :=
  concat (map (fun c =>
                 map (fun u => ClusterUser.MaxExecutionTime u + ClusterUser.MaxQueueTime u)
                     (Cluster.ClusterUsers c))
              (Config.Clusters cfg))
  ++ map (fun u => User.MaxExecutionTime u + User.MaxQueueTime u) (Config.Users cfg).

(** The entries of the [clusters] sequence of a document. *)
Definition cluster_entries (doc : list (string * node)) : list node :=
  match mapping_get "clusters" doc with
  | Some (SequenceNode l) => l
  | _ => []
  end.

End spec.

Export spec.

Import main.

(** ** Fixtures: a process with a trivial proxy, requests, documents *)

Module fixtures.

(** A parser of byte sizes for the examples: a whole count of bytes,
    with or without the letter B. *)
Definition count_of_bytes (s : string) : Res Z :=
  let (ds, u) := span_digits s in
  match ds with
  | String _ _ =>
      if String.eqb u "" || String.eqb u "B"
      then ret (digits_value ds)
      else fail (Errorf ("cannot parse byte size: " +:+ s))
  | "" => fail (Errorf ("cannot parse byte size: " +:+ s))
  end.

(** What the examples take for [Outside]: of the Unicode tables only
    Latin Extended-A, U+0100 to U+017F, all of whose runes are
    printable, and the parser above. *)
Definition lib : Outside := {|
  IsPrint_table := fun r => r <=? 0x17F;
  parseByteSize := count_of_bytes
|}.

Definition stub : Externals := {|
  outside := lib;
  Proxy := unit;
  scan := fun _ => ret None;
  Config_String := fun _ => "";
  proxy_applyConfig := fun _ p => (p, None);
  proxy_ServeHTTP := fun rw _ w => (w, Write ("Ok." +:+ nl) rw);
  proxy_refreshCacheMetrics := fun w => w;
  promHandler_ServeHTTP := fun rw _ w => (w, Write "" rw)
|}.

Definition world0 : World (@Proxy stub) :=
  {| configFile := "testdata/http.yml"; version := false; proxy := tt;
     badRequest := 0; configSuccess := 0; configSuccessTime := 0;
     debug := false; ReadFile := fun _ => fail (LibError "no such file or directory");
     now := 0; trace := [] |}.

Definition request (method path : string) : Request :=
  {| Method := method; URL_Path := path; RemoteAddr := "127.0.0.1:1234" |}.

(** A process whose scanner reads every file as the document [doc]. *)
Definition reading (doc : option node) : Externals := {|
  outside := lib;
  Proxy := unit;
  scan := fun _ => ret doc;
  Config_String := fun _ => "";
  proxy_applyConfig := fun _ p => (p, None);
  proxy_ServeHTTP := fun rw _ w => (w, Write ("Ok." +:+ nl) rw);
  proxy_refreshCacheMetrics := fun w => w;
  promHandler_ServeHTTP := fun rw _ w => (w, Write "" rw)
|}.

(** A world in which every file exists. *)
Definition world1 : World unit :=
  {| configFile := "testdata/http.yml"; version := false; proxy := tt;
     badRequest := 0; configSuccess := 0; configSuccessTime := 0;
     debug := false; ReadFile := fun _ => ret "";
     now := 0; trace := [] |}.

(** A SIGHUP that arrives when the configuration file is gone. *)
Definition hup_missing : arrival :=
  {| sig := SIGHUP;
     fs := fun _ => fail (LibError "open testdata/foobar.yml: no such file or directory");
     clock := 1 |}.

Definition a_user : node :=
  MappingNode [ ("name", str "default"); ("to_cluster", str "cluster");
                ("to_user", str "default") ].

Definition a_server : node :=
  MappingNode [ ("http", MappingNode [ ("listen_addr", str ":8080") ]) ].

(** The document that [TestLoadConfig] calls "default values": a server,
    one user, and one cluster with a node and nothing else. *)
Definition default_values : node :=
  MappingNode
    [ ("server", a_server);
      ("users", SequenceNode [ a_user ]);
      ("clusters",
        SequenceNode
          [ MappingNode [ ("name", str "cluster");
                          ("nodes", SequenceNode [ str "127.0.0.1:8123" ]) ] ]) ].

(** The configuration that [TestLoadConfig] expects for it. *)
Definition default_values_cfg : Config.t :=
  {| Config.Server :=
       {| Server.HTTP :=
            {| HTTP.ListenAddr := ":8080";
               HTTP.TimeoutCfg :=
                 {| TimeoutCfg.ReadTimeout := Minute;
                    TimeoutCfg.WriteTimeout := Minute;
                    TimeoutCfg.IdleTimeout := 10 * Minute |};
               HTTP.XXX := ∅ |};
          Server.XXX := ∅ |};
     Config.Clusters :=
       [ {| Cluster.Name := "cluster";
            Cluster.Nodes := ["127.0.0.1:8123"];
            Cluster.Replicas := [];
            Cluster.ClusterUsers := [ ClusterUser.set_Name "default" ClusterUser.zero ];
            Cluster.KillQueryUser := KillQueryUser.zero;
            Cluster.HeartBeatInterval := 5 * Second;
            Cluster.XXX := ∅ |} ];
     Config.Users :=
       [ User.set_ToUser "default"
           (User.set_ToCluster "cluster" (User.set_Name "default" User.zero)) ];
     Config.LogDebug := false;
     Config.Caches := [];
     Config.ParamGroups := [];
     Config.XXX := ∅ |}.

(** A document with a server and a user and no [clusters] key. *)
Definition no_clusters : node :=
  MappingNode [ ("server", a_server); ("users", SequenceNode [ a_user ]) ].

(** A document whose [clusters] sequence has one entry, a null. *)
Definition null_cluster : node :=
  MappingNode [ ("server", a_server); ("users", SequenceNode [ a_user ]);
                ("clusters", SequenceNode [ ScalarNode "~" RNull ]) ].

(** A document whose only cluster user and whose only user may each
    run a query for 15250 weeks and queue it for as long. *)
Definition long_queries : node :=
  MappingNode
    [ ("server", a_server);
      ("users",
        SequenceNode
          [ MappingNode [ ("name", str "default"); ("to_cluster", str "cluster");
                          ("to_user", str "default");
                          ("max_execution_time", str "15250w");
                          ("max_queue_time", str "15250w");
                          ("max_queue_size", int "1" 1) ] ]);
      ("clusters",
        SequenceNode
          [ MappingNode
              [ ("name", str "cluster");
                ("nodes", SequenceNode [ str "127.0.0.1:8123" ]);
                ("users",
                  SequenceNode
                    [ MappingNode [ ("name", str "default");
                                    ("max_execution_time", str "15250w");
                                    ("max_queue_time", str "15250w");
                                    ("max_queue_size", int "1" 1) ] ]) ] ]) ].

End fixtures.

(** ** package main, continued: the HTTP server ([main.go]) *)

Module server.

(** The fields of the [http.Server] that [listenAndServe] fills from the
    configuration.  Its handler is always [serveHTTP] and its error log
    [log.NilLogger].  In [net/http] a timeout that is zero or negative means no timeout. *)
Record http_Server : Type := {
  ReadTimeout : Z;
  WriteTimeout : Z;
  IdleTimeout : Z
}.

Section Serve.

Context `{E : Externals}.

(** The network: [net.Listen("tcp4", addr)], and [Serve] of
    [http.Server], which returns only with an error ([None] while it
    serves). *)
Variable Listener : Type.
Variable net_Listen : string -> Res Listener.
Variable Serve : http_Server -> Listener -> option error.

Definition newListener (listenAddr : string) : M Listener :=
  match net_Listen listenAddr with
  | inl err =>
      log_Fatalf ("cannot listen for " +:+ quote listenAddr +:+ ": " +:+ Error err)
  | inr ln => mret ln
  end.

Definition listenAndServe (ln : Listener) (cfg : TimeoutCfg.t) : option error :=
  let s := {| ReadTimeout := TimeoutCfg.ReadTimeout cfg;
              WriteTimeout := TimeoutCfg.WriteTimeout cfg;
              IdleTimeout := TimeoutCfg.IdleTimeout cfg |} in
  Serve s ln.

Definition serve (cfg : HTTP.t) : M unit :=
  mbind (newListener (HTTP.ListenAddr cfg)) (fun ln =>
  mbind (log_Infof ("Serving http on " +:+ quote (HTTP.ListenAddr cfg))) (fun _ =>
  match listenAndServe ln (HTTP.TimeoutCfg cfg) with
  | Some err =>
      log_Fatalf ("HTTP server error on " +:+ quote (HTTP.ListenAddr cfg) +:+ ": "
                  +:+ Error err)
  | None => mret tt
  end)).

(** [main] from its start to the call of [serve]: the start-up, the check
    of the listen address, and the server on [cfg.Server.HTTP]. *)
Definition mainServe : M unit :=
  mbind startup (fun cfg =>
  if (String.length (HTTP.ListenAddr (Server.HTTP (Config.Server cfg))) =? 0)%nat
  then exit 2
  else serve (Server.HTTP (Config.Server cfg))).

End Serve.

End server.

(** ** More vocabulary of the statements *)

Module vocabulary.

(** The entries of the sequence under the key [k] of a mapping. *)
Definition entries (k : string) (kvs : list (string * node)) : list node :=
  match mapping_get k kvs with
  | Some (SequenceNode l) => l
  | _ => []
  end.

(** The sums that [LoadFile] compares, as Go computes them in int64. *)
Definition wrappedTimes (cfg : Config.t) : list Z :=
  concat (map (fun c =>
                 map (fun u => add64 (ClusterUser.MaxExecutionTime u)
                                     (ClusterUser.MaxQueueTime u))
                     (Cluster.ClusterUsers c))
              (Config.Clusters cfg))
  ++ map (fun u => add64 (User.MaxExecutionTime u) (User.MaxQueueTime u))
         (Config.Users cfg).

(** The number of SIGHUP among the signals. *)
Definition count_SIGHUP (l : list arrival) : nat :=
  length (List.filter (fun a => sig a =? SIGHUP) l).

(** The listen address and the timeouts of an [HTTP] section are
    consistent: an address comes with a read and an idle timeout. *)
Definition timeouts_set (h : HTTP.t) : Prop :=
  HTTP.ListenAddr h <> "" -> HTTP.ReadTimeout h <> 0 /\ HTTP.IdleTimeout h <> 0.

End vocabulary.

Export vocabulary.

(** ** More fixtures *)

Module samples.

(** A process whose proxy refuses every configuration. *)
Definition refusing : Externals := {|
  outside := fixtures.lib;
  Proxy := unit;
  scan := fun _ => ret (Some fixtures.default_values);
  Config_String := fun _ => "";
  proxy_applyConfig := fun _ p => (p, Some (Errorf "refused"));
  proxy_ServeHTTP := fun rw _ w => (w, rw);
  proxy_refreshCacheMetrics := fun w => w;
  promHandler_ServeHTTP := fun rw _ w => (w, rw)
|}.

(** A SIGHUP that arrives while the configuration file is readable. *)
Definition hup : arrival := {| sig := SIGHUP; fs := fun _ => ret ""; clock := 7 |}.

(** Another signal. *)
Definition usr1 : arrival := {| sig := 10; fs := fun _ => ret ""; clock := 8 |}.

(** The entries of the sample document. *)
Definition full_cache : list (string * node) :=
  [ ("name", str "shortterm"); ("dir", str "/path/to/cachedir");
    ("max_size", str "104857600B"); ("expire", str "10s") ].

Definition full_user : list (string * node) :=
  [ ("name", str "web"); ("password", str "****");
    ("to_cluster", str "second cluster"); ("to_user", str "web");
    ("deny_http", ScalarNode "true" (RBool true));
    ("max_queue_size", int "100" 100);
    ("max_queue_time", str "35s");
    ("cache", str "shortterm"); ("params", str "web") ].

Definition full_replica : list (string * node) :=
  [ ("name", str "replica1"); ("nodes", SequenceNode [ str "127.0.1.1:8443" ]) ].

Definition full_cluster : list (string * node) :=
  [ ("name", str "second cluster");
    ("replicas", SequenceNode [ MappingNode full_replica ]);
    ("kill_query_user",
      MappingNode [ ("name", str "default"); ("password", str "***") ]);
    ("users",
      SequenceNode
        [ MappingNode [ ("name", str "web");
                        ("max_concurrent_queries", int "4" 4);
                        ("max_execution_time", str "10s");
                        ("max_queue_size", int "50" 50);
                        ("max_queue_time", str "70s") ] ]) ].

(** A document with users, caches, parameter groups and a cluster made
    of replicas, in the manner of the "full description" of
    [TestLoadConfig]. *)
Definition full : list (string * node) :=
  [ ("server",
      MappingNode [ ("http", MappingNode [ ("listen_addr", str ":9090");
                                           ("read_timeout", str "5m");
                                           ("write_timeout", str "10m");
                                           ("idle_timeout", str "20m") ]) ]);
    ("log_debug", ScalarNode "true" (RBool true));
    ("caches", SequenceNode [ MappingNode full_cache ]);
    ("param_groups",
      SequenceNode
        [ MappingNode
            [ ("name", str "web");
              ("params",
                SequenceNode [ MappingNode [ ("key", str "max_execution_time");
                                             ("value", int "30" 30) ] ]) ] ]);
    ("users", SequenceNode [ MappingNode full_user ]);
    ("clusters", SequenceNode [ MappingNode full_cluster ]) ].

Definition full_cfg : Config.t :=
  match LoadDocument (Out := fixtures.lib) (Some (MappingNode full)) with
  | inr cfg => cfg
  | inl _ => Config.zero
  end.

End samples.

(** * Statements *)

(** ** Helper lemmas on strings *)

Lemma append_cons (c : ascii) (s t : string) : String c s +:+ t = String c (s +:+ t).
Proof. reflexivity. Qed.

Lemma append_nil_l (s : string) : "" +:+ s = s.
Proof. reflexivity. Qed.

Lemma append_nil_r (s : string) : s +:+ "" = s.
Proof.
  induction s as [|c s IH]; [reflexivity|].
  rewrite append_cons, IH. reflexivity.
Qed.

Lemma append_assoc (a b c : string) : (a +:+ b) +:+ c = a +:+ (b +:+ c).
Proof.
  induction a as [|x a IH]; [reflexivity|].
  rewrite !append_cons, IH. reflexivity.
Qed.

(** On plain text [%q] only adds the two quotes. *)
Lemma quote_from_plain `{Out : Outside} (s : string) :
  all_plain s = true -> quote_from 0 s = s.
Proof.
  induction s as [|c s IH]; [reflexivity|].
  cbn [all_plain]. intros H. apply andb_true_iff in H as [Hc Hs].
  assert (Hb : (byte c <? RuneSelf) = true /\ (byte c =? RuneError) = false /\
               appendEscapedRune (byte c) = String c "").
  { destruct c as [b0 b1 b2 b3 b4 b5 b6 b7].
    destruct b0, b1, b2, b3, b4, b5, b6, b7; try discriminate Hc;
      repeat split; reflexivity. }
  destruct Hb as (Hself & Herr & Happ).
  cbn [quote_from]. rewrite Hself, Herr, andb_false_r, Happ.
  cbn [Nat.sub]. rewrite (IH Hs). reflexivity.
Qed.

Lemma quote_plain `{Out : Outside} (s : string) :
  all_plain s = true -> quote s = String dq (s +:+ String dq "").
Proof. intros H. unfold quote. rewrite (quote_from_plain s H). reflexivity. Qed.

(** [%q] beyond plain text: a byte that is not UTF-8 is written in
    hexadecimal, a printable rune of Latin-1 such as the micro sign is
    copied, an unprintable one is written with its code point, and the
    control characters of ASCII have their escapes.  None of these
    needs the tables of the runes above U+00FF. *)
Lemma quote_escapes `{Out : Outside} :
  quote (String "/" (String (ascii_of_nat 255) "")) = String dq ("/\xff" +:+ String dq "") /\
  quote micro_s = String dq (micro_s +:+ String dq "") /\
  quote (String (ascii_of_nat 194) (String (ascii_of_nat 128) ""))
  = String dq ("\u0080" +:+ String dq "") /\
  quote (String (ascii_of_nat 10) (String (ascii_of_nat 127) (String dq "")))
  = String dq ("\n\x7f\" +:+ String dq (String dq "")).
Proof. repeat split. Qed.
(** ** The dispatcher of [main.go] *)

Section Dispatch.

Context `{E : Externals}.

(** C2. The first switch of [serveHTTP]: GET and POST go on to the switch
    on the path; OPTIONS is answered with the header [Allow: GET,POST],
    nothing written to the body and the implicit status 200; any other
    method is answered with status 405, the header [Connection: close]
    and a body that contains [unsupported method] followed by the quoted
    method. *)
Theorem serveHTTP_method_dispatch (r : Request) (w : World Proxy) :
  (Method r = "GET" \/ Method r = "POST" ->
   forall rw, serveHTTP rw r w = servePath rw r w) /\
  (Method r = "OPTIONS" ->
   serveHTTP newResponseWriter r w
   = (w, {| Header := {[ "Allow" := ["GET,POST"] ]}; Status := None; Body := "" |})) /\
  (Method r <> "GET" -> Method r <> "POST" -> Method r <> "OPTIONS" ->
   let rw := (serveHTTP newResponseWriter r w).2 in
   StatusCode rw = 405 /\
   Header rw !! "Connection" = Some ["close"] /\
   Contains (Body rw) ("unsupported method " +:+ quote (Method r))).
Proof.
  split; [|split].
  - intros [H | H] rw; unfold serveHTTP; rewrite H; reflexivity.
  - intros H. unfold serveHTTP. rewrite H. reflexivity.
  - intros H1 H2 H3. unfold serveHTTP.
    destruct (String.eqb_spec (Method r) "GET"); [congruence|].
    destruct (String.eqb_spec (Method r) "POST"); [congruence|].
    destruct (String.eqb_spec (Method r) "OPTIONS"); [congruence|].
    cbn [orb snd]. repeat split.
    exists (quote (RemoteAddr r) +:+ ": "), "".
    rewrite append_nil_r, append_assoc. reflexivity.
Qed.

(** C3. The second switch of [serveHTTP]: a GET or POST request for a path
    other than [/], [/metrics] and [/favicon.ico] is answered with status
    400, the header [Connection: close] and a body that contains
    [unsupported path:] followed by the path as [%q] prints it, whatever
    bytes the path is made of, and the counter of
    bad requests goes up by one; a request for [/favicon.ico] is answered
    with nothing written, hence status 200 and no body. *)
Theorem serveHTTP_path_dispatch (r : Request) (w : World Proxy) :
  Method r = "GET" \/ Method r = "POST" ->
  (URL_Path r <> "/" -> URL_Path r <> "/metrics" -> URL_Path r <> "/favicon.ico" ->
   let rw := (serveHTTP newResponseWriter r w).2 in
   StatusCode rw = 400 /\
   Header rw !! "Connection" = Some ["close"] /\
   Contains (Body rw) ("unsupported path: " +:+ quote (URL_Path r)) /\
   badRequest (serveHTTP newResponseWriter r w).1 = badRequest w + 1) /\
  (URL_Path r = "/favicon.ico" ->
   serveHTTP newResponseWriter r w = (w, newResponseWriter) /\
   StatusCode (serveHTTP newResponseWriter r w).2 = 200 /\
   Body (serveHTTP newResponseWriter r w).2 = "").
Proof.
  intros Hm.
  assert (Hs : forall rw, serveHTTP rw r w = servePath rw r w).
  { intros rw. unfold serveHTTP. destruct Hm as [-> | ->]; reflexivity. }
  rewrite Hs. unfold servePath. split.
  - intros H1 H2 H3.
    destruct (String.eqb_spec (URL_Path r) "/favicon.ico"); [congruence|].
    destruct (String.eqb_spec (URL_Path r) "/metrics"); [congruence|].
    destruct (String.eqb_spec (URL_Path r) "/"); [congruence|].
    cbn [snd fst]. repeat split.
    exists (quote (RemoteAddr r) +:+ ": "), "".
    rewrite append_nil_r, append_assoc. reflexivity.
  - intros ->. repeat split.
Qed.

End Dispatch.

(** Witness of C2: the scenarios of [TestServe], CONNECT and OPTIONS, and
    a GET, on the stub process. *)
Lemma serveHTTP_method_dispatch_witness :
  let connect := fixtures.request "CONNECT" "/" in
  let options := fixtures.request "OPTIONS" "/" in
  let get := fixtures.request "GET" "/" in
  let w := fixtures.world0 in
  (StatusCode (serveHTTP (E := fixtures.stub) newResponseWriter connect w).2 = 405 /\
   Contains (Body (serveHTTP (E := fixtures.stub) newResponseWriter connect w).2)
            ("unsupported method " +:+ String dq ("CONNECT" +:+ String dq ""))) /\
  Header_Get "Allow" (serveHTTP (E := fixtures.stub) newResponseWriter options w).2
  = "GET,POST" /\
  serveHTTP (E := fixtures.stub) newResponseWriter get w
  = servePath (E := fixtures.stub) newResponseWriter get w.
Proof.
  intros connect options get w. split; [|split].
  - destruct (serveHTTP_method_dispatch (E := fixtures.stub) connect w)
      as (_ & _ & H).
    destruct H as (Hs & _ & Hb); [discriminate ..|].
    split; [exact Hs | exact Hb].
  - rewrite (proj1 (proj2 (serveHTTP_method_dispatch (E := fixtures.stub) options w))
               eq_refl).
    reflexivity.
  - apply (serveHTTP_method_dispatch (E := fixtures.stub) get w).
    left; reflexivity.
Defined.

(** Witness of C3: [GET /foobar], [GET /favicon.ico], and a GET for a
    path with a byte that is not UTF-8. *)
Lemma serveHTTP_path_dispatch_witness :
  let foobar := fixtures.request "GET" "/foobar" in
  let favicon := fixtures.request "GET" "/favicon.ico" in
  let broken := fixtures.request "GET" (String "/" (String (ascii_of_nat 255) "")) in
  let w := fixtures.world0 in
  (StatusCode (serveHTTP (E := fixtures.stub) newResponseWriter foobar w).2 = 400 /\
   Contains (Body (serveHTTP (E := fixtures.stub) newResponseWriter foobar w).2)
            ("unsupported path: " +:+ String dq ("/foobar" +:+ String dq ""))) /\
  StatusCode (serveHTTP (E := fixtures.stub) newResponseWriter favicon w).2 = 200 /\
  Contains (Body (serveHTTP (E := fixtures.stub) newResponseWriter broken w).2)
           ("unsupported path: " +:+ String dq ("/\xff" +:+ String dq "")).
Proof.
  intros foobar favicon broken w. split; [|split].
  - destruct (serveHTTP_path_dispatch (E := fixtures.stub) foobar w) as [H _];
      [left; reflexivity|].
    destruct H as (Hs & _ & Hb & _); [discriminate ..|].
    split; [exact Hs | exact Hb].
  - apply (serveHTTP_path_dispatch (E := fixtures.stub) favicon w);
      [left; reflexivity | reflexivity].
  - destruct (serveHTTP_path_dispatch (E := fixtures.stub) broken w) as [H _];
      [left; reflexivity|].
    destruct H as (_ & _ & Hb & _); [discriminate ..|].
    exact Hb.
Defined.

(** ** Hot reload *)

Section Reload.

Context `{E : Externals}.

Lemma loadConfig_Done (w w' : World Proxy) (r : Res Config.t) :
  loadConfig w = Done w' r ->
  configFile w <> "" /\ configFile w' = configFile w /\
  proxy w' = proxy w /\ trace w' = trace w /\ debug w' = debug w.
Proof.
  unfold loadConfig, mbind, gets, modify, mret, log_Fatalf.
  destruct (String.eqb_spec (configFile w) "") as [Heq | Hne]; [discriminate|].
  destruct (LoadFile (ReadFile w) scan (configFile w)); intros [= <- _]; auto.
Qed.

Lemma applyConfig_configFile (cfg : Config.t) (w w' : World Proxy) (r : option error) :
  applyConfig cfg w = Done w' r -> configFile w' = configFile w.
Proof.
  unfold applyConfig, mbind, gets, modify, mret, log_Infof.
  destruct (proxy_applyConfig cfg (proxy w)).2; intros [= <- _]; reflexivity.
Qed.

Lemma applyConfig_returns (cfg : Config.t) (w : World Proxy) :
  exists w' r, applyConfig cfg w = Done w' r.
Proof.
  unfold applyConfig, mbind, gets, modify, mret, log_Infof.
  destruct (proxy_applyConfig cfg (proxy w)).2; eauto.
Qed.

Lemma startup_configFile (w0 w : World Proxy) (cfg : Config.t) :
  startup w0 = Done w cfg -> configFile w <> "".
Proof.
  unfold startup.
  unfold mbind at 1. unfold gets at 1.
  destruct (version w0).
  { unfold mbind, modify, exit. discriminate. }
  unfold mbind at 1. unfold mret at 1.
  unfold mbind at 1. unfold gets at 1.
  unfold mbind at 1. unfold log_Infof at 1, modify at 1.
  unfold mbind at 1. unfold log_Infof at 1, modify at 1.
  unfold mbind at 1.
  destruct (loadConfig _) as [|w1 r] eqn:Hload; [discriminate|].
  apply loadConfig_Done in Hload as (Hne & Hcf & _).
  destruct r as [err | cfg1]; [discriminate|].
  unfold mbind at 1.
  destruct (applyConfig cfg1 w1) as [|w2 r2] eqn:Happ; [discriminate|].
  apply applyConfig_configFile in Happ.
  destruct r2; [discriminate|].
  unfold mbind, log_Infof, modify, mret. intros [= <- _]. cbn.
  rewrite Happ, Hcf. exact Hne.
Qed.

Lemma loadConfig_returns (w : World Proxy) :
  configFile w <> "" ->
  exists w' r, loadConfig w = Done w' r /\ configFile w' = configFile w.
Proof.
  intros Hne. unfold loadConfig, mbind, gets, modify, mret, log_Fatalf.
  destruct (String.eqb_spec (configFile w) "") as [Heq | _]; [congruence|].
  destruct (LoadFile (ReadFile w) scan (configFile w)); eauto.
Qed.

Lemma reloadConfig_returns (w : World Proxy) :
  configFile w <> "" ->
  exists w' r, reloadConfig w = Done w' r /\ configFile w' = configFile w.
Proof.
  intros Hne. unfold reloadConfig, mbind.
  destruct (loadConfig_returns w Hne) as (w1 & r & -> & Hcf).
  destruct r as [err | cfg]; [unfold mret; eauto|].
  destruct (applyConfig_returns cfg w1) as (w2 & r2 & Happ).
  rewrite Happ. apply applyConfig_configFile in Happ.
  exists w2, r2. split; [reflexivity | congruence].
Qed.

Lemma receive_returns (a : arrival) (w : World Proxy) :
  configFile w <> "" ->
  exists w', receive a w = Done w' tt /\ configFile w' = configFile w.
Proof.
  intros Hne. unfold receive, mbind at 1, modify at 1, handleSignal.
  destruct (sig a =? SIGHUP); [|unfold mret; eauto].
  unfold mbind at 1, gets at 1. unfold mbind at 1, log_Infof at 1, modify at 1.
  unfold mbind at 1.
  set (w1 := emit _ _).
  destruct (reloadConfig_returns w1 Hne) as (w2 & r & -> & Hcf).
  destruct r; unfold log_Errorf, log_Infof, modify; eauto.
Qed.

Lemma Reachable_configFile (w : World Proxy) : Reachable w -> configFile w <> "".
Proof.
  induction 1 as [w0 w cfg Hs | w a w' _ IH Hr].
  - eapply startup_configFile; eauto.
  - destruct (receive_returns a w IH) as (w'' & Hr' & Hcf).
    rewrite Hr' in Hr. injection Hr as <-. congruence.
Qed.

(** The signal loop never ends the process. *)
Lemma signalLoop_returns (l : list arrival) (w : World Proxy) :
  configFile w <> "" -> exists w', signalLoop l w = Done w' tt.
Proof.
  revert w. induction l as [|a l IH]; intros w Hne; cbn [signalLoop].
  - unfold mret. eauto.
  - destruct (receive_returns a w Hne) as (w1 & Hr & Hcf).
    unfold mbind. rewrite Hr. apply IH. congruence.
Qed.

(** C1. In a world reached by [main], when a SIGHUP arrives and
    [LoadFile] fails on the configuration file: [reloadConfig] returns
    the error of [loadConfig] having only set the gauge [configSuccess]
    to 0, so [applyConfig] is not called and the proxy keeps the
    configuration applied before; the handler logs the error and
    returns, the process has not exited, and the loop goes on with the
    signals that follow. *)
Theorem reloadConfig_load_failure
    (w : World Proxy) (a : arrival) (rest : list arrival) (e : error) :
  Reachable w ->
  sig a = SIGHUP ->
  LoadFile (fs a) scan (configFile w) = inl e ->
  let w1 := emit (Log "INFO" ("SIGHUP received. Going to reload config "
                              +:+ configFile w +:+ " ..."))
                 (set_env (fs a) (clock a) w) in
  let err := Errorf ("can't load config " +:+ quote (configFile w) +:+ ": " +:+ Error e) in
  let w' := emit (Log "ERROR" ("error while reloading config: " +:+ Error err))
                 (set_configSuccess 0 w1) in
  reloadConfig w1 = Done (set_configSuccess 0 w1) (Some err) /\
  receive a w = Done w' tt /\
  proxy w' = proxy w /\ applied w' = applied w /\ debug w' = debug w /\
  Reachable w' /\
  signalLoop (a :: rest) w = signalLoop rest w' /\
  exists w'', signalLoop (a :: rest) w = Done w'' tt.
Proof.
  intros Hreach Hsig Hload w1 err w'.
  pose proof (Reachable_configFile w Hreach) as Hne.
  assert (Hreload : reloadConfig w1 = Done (set_configSuccess 0 w1) (Some err)).
  { unfold reloadConfig, loadConfig, mbind, gets, modify, mret, log_Fatalf.
    cbv beta.
    change (configFile w1) with (configFile w).
    destruct (String.eqb_spec (configFile w) "") as [Heq | _]; [congruence|].
    replace (ReadFile w1) with (fs a) by reflexivity.
    rewrite Hload. reflexivity. }
  assert (Hrecv : receive a w = Done w' tt).
  { unfold receive, mbind at 1, modify at 1, handleSignal.
    rewrite Hsig, Z.eqb_refl.
    unfold mbind at 1, gets at 1. unfold mbind at 1, log_Infof at 1, modify at 1.
    unfold mbind at 1.
    change (configFile (set_env (fs a) (clock a) w)) with (configFile w).
    fold w1. rewrite Hreload. reflexivity. }
  assert (Hloop : signalLoop (a :: rest) w = signalLoop rest w').
  { cbn [signalLoop]. unfold mbind. rewrite Hrecv. reflexivity. }
  split; [exact Hreload|]. split; [exact Hrecv|].
  split; [reflexivity|]. split.
  { unfold applied, w', w1. cbn [trace emit set_configSuccess set_env].
    rewrite !omap_app. cbn. rewrite !app_nil_r. reflexivity. }
  split; [reflexivity|]. split.
  { eapply reach_receive; eauto. }
  split; [exact Hloop|].
  rewrite Hloop. apply signalLoop_returns. exact Hne.
Qed.

End Reload.

(** ** Durations *)

Lemma span_digits_spec (s ds u : string) :
  span_digits s = (ds, u) ->
  s = ds +:+ u /\ all_digits ds = true /\
  match u with "" => True | String c _ => is_digit c = false end.
Proof.
  revert ds u. induction s as [|c s IH]; intros ds u; cbn [span_digits].
  - intros [= <- <-]. auto.
  - destruct (is_digit c) eqn:Hc.
    + destruct (span_digits s) as [ds' u'] eqn:Hs. intros [= <- <-].
      destruct (IH _ _ eq_refl) as (-> & Hd & Hu).
      cbn [all_digits]. rewrite Hc, Hd. auto.
    + intros [= <- <-]. rewrite Hc. auto.
Qed.

Lemma span_digits_app (ds u : string) :
  all_digits ds = true ->
  match u with "" => True | String c _ => is_digit c = false end ->
  span_digits (ds +:+ u) = (ds, u).
Proof.
  intros Hd Hu. induction ds as [|c ds IH].
  - rewrite append_nil_l. destruct u as [|c u]; [reflexivity|].
    cbn [span_digits]. rewrite Hu. reflexivity.
  - cbn [all_digits] in Hd. apply andb_true_iff in Hd as [Hc Hd].
    rewrite append_cons. cbn [span_digits]. rewrite Hc, (IH Hd). reflexivity.
Qed.

Lemma unit_factor_Some (u : string) :
  u ∈ duration_units <-> exists f, unit_factor u = Some f.
Proof.
  unfold duration_units, unit_factor. split.
  - rewrite !elem_of_cons, elem_of_nil.
    intros [-> | [-> | [-> | [-> | [-> | [-> | [-> | [-> | []]]]]]]]]; eexists; reflexivity.
  - intros [f Hf]. revert Hf.
    repeat match goal with
           | |- context [String.eqb ?a ?b] =>
               destruct (String.eqb_spec a b) as [-> | _];
               [intros _; rewrite !elem_of_cons; tauto|]
           end.
    discriminate.
Qed.

Lemma unit_head_not_digit (u : string) (f : Z) :
  unit_factor u = Some f ->
  match u with "" => True | String c _ => is_digit c = false end.
Proof.
  intros Hf. assert (Hu : u ∈ duration_units) by (apply unit_factor_Some; eauto).
  unfold duration_units in Hu. rewrite !elem_of_cons, elem_of_nil in Hu.
  destruct Hu as [-> | [-> | [-> | [-> | [-> | [-> | [-> | [-> | []]]]]]]]]; reflexivity.
Qed.

Lemma parseDuration_app `{Out : Outside} (ds u : string) (f : Z) :
  ds <> "" -> all_digits ds = true -> unit_factor u = Some f ->
  parseDuration (ds +:+ u) = inr (mul64 (digits_value ds) f).
Proof.
  intros Hne Hd Hf. unfold parseDuration.
  rewrite (span_digits_app ds u Hd (unit_head_not_digit u f Hf)), Hf.
  destruct ds; [congruence | reflexivity].
Qed.

Lemma parseDuration_cases `{Out : Outside} (s : string) :
  (exists ds u f, s = ds +:+ u /\ ds <> "" /\ all_digits ds = true /\
                  unit_factor u = Some f /\
                  parseDuration s = inr (mul64 (digits_value ds) f)) \/
  (parseDuration s = inl (Errorf ("not a valid duration string: " +:+ quote s)) /\
   forall d, parseDuration s <> inr d).
Proof.
  unfold parseDuration.
  destruct (span_digits s) as [ds u] eqn:Hs.
  apply span_digits_spec in Hs as (-> & Hd & _).
  destruct ds as [|c ds]; [right; split; [reflexivity | discriminate]|].
  destruct (unit_factor u) as [f|] eqn:Hf; [|right; split; [reflexivity | discriminate]].
  left. exists (String c ds), u, f. repeat split; auto.
Qed.

(** C4. [parseDuration] succeeds exactly on the strings of the grammar, a
    non-empty run of decimal digits immediately followed by one of ns,
    µs, ms, s, m, h, d, w; on every other string it returns the error
    [not a valid duration string:] with the quoted string; a count of
    [d] is that count times 24 hours and a count of [w] that count times
    7 times 24 hours; the strings without a unit, with a space before the
    unit, with an unknown or composite unit or with a fraction that the
    tests name are rejected. *)
Theorem parseDuration_grammar `{Out : Outside} :
  (forall s, duration_grammar s <-> exists d, parseDuration s = inr d) /\
  (forall s, ~ duration_grammar s ->
             parseDuration s = inl (Errorf ("not a valid duration string: " +:+ quote s))) /\
  (forall ds, ds <> "" -> all_digits ds = true ->
              parseDuration (ds +:+ "h") = inr (mul64 (digits_value ds) Hour) /\
              parseDuration (ds +:+ "d") = inr (mul64 (digits_value ds) (24 * Hour)) /\
              parseDuration (ds +:+ "w") = inr (mul64 (digits_value ds) (7 * (24 * Hour)))) /\
  Forall (fun s => parseDuration s
                   = inl (Errorf ("not a valid duration string: " +:+ quote s)))
         ["10"; "20ks"; "30Ms"; "40 ms"; "50y"; "1.5h"; ""; "h"; "-5s"; "1h30m"].
Proof.
  assert (Hiff : forall s, duration_grammar s <-> exists d, parseDuration s = inr d).
  { intros s. split.
    - intros (ds & u & -> & Hne & Hd & Hu).
      apply unit_factor_Some in Hu as [f Hf].
      rewrite (parseDuration_app ds u f Hne Hd Hf). eauto.
    - intros [d Hp].
      destruct (parseDuration_cases s) as [(ds & u & f & -> & Hne & Hd & Hf & _) | [_ Hno]].
      + exists ds, u. repeat split; auto. apply unit_factor_Some. eauto.
      + destruct (Hno d Hp). }
  split; [exact Hiff|]. split; [|split].
  - intros s Hng.
    destruct (parseDuration_cases s) as [(ds & u & f & _ & _ & _ & _ & Hp) | [He _]];
      [|exact He].
    destruct Hng. apply Hiff. eauto.
  - intros ds Hne Hd. repeat split; apply parseDuration_app; auto.
  - repeat constructor.
Qed.


Section Samples.

#[local] Existing Instance fixtures.lib.

(** Witness of C4: ["75d"] is in the grammar and ["1.5h"] is not. *)
Lemma parseDuration_grammar_witness :
  parseDuration "75d" = inr (75 * (24 * Hour)) /\
  parseDuration "1.5h" = inl (Errorf ("not a valid duration string: " +:+ quote "1.5h")) /\
  duration_grammar "75d".
Proof.
  destruct parseDuration_grammar as (Hiff & Herr & Hval & _).
  split; [|split].
  - apply (Hval "75"); [discriminate | reflexivity].
  - apply Herr. intros Hg. apply Hiff in Hg as [d Hd]. discriminate Hd.
  - apply Hiff. exists (75 * (24 * Hour)). reflexivity.
Defined.

End Samples.

(** ** Formatting durations *)

Lemma all_digits_string_of_uint (d : uint) :
  all_digits (NilEmpty.string_of_uint d) = true.
Proof. induction d; cbn; auto. Qed.

Lemma string_of_uint_nonempty (d : uint) :
  d <> Nil -> NilEmpty.string_of_uint d <> "".
Proof. destruct d; cbn; congruence. Qed.

Lemma N_to_uint_nonnil (n : N) : N.to_uint n <> Nil.
Proof.
  destruct n as [|p]; cbn; [discriminate|]. apply DecimalPos.Unsigned.to_uint_nonnil.
Qed.

Lemma NilZero_string_of_uint_N (n : N) :
  NilZero.string_of_uint (N.to_uint n) = NilEmpty.string_of_uint (N.to_uint n).
Proof.
  pose proof (N_to_uint_nonnil n) as H.
  destruct (N.to_uint n); [congruence | reflexivity ..].
Qed.

Lemma format_int_nonneg (n : Z) :
  0 <= n ->
  format_int n <> "" /\ all_digits (format_int n) = true /\
  digits_value (format_int n) = n.
Proof.
  intros Hn. unfold format_int.
  destruct (Z.ltb_spec n 0) as [Hlt | _]; [lia|].
  rewrite NilZero_string_of_uint_N. split; [|split].
  - apply string_of_uint_nonempty, N_to_uint_nonnil.
  - apply all_digits_string_of_uint.
  - unfold digits_value. rewrite NilEmpty.usu, DecimalN.Unsigned.of_to. lia.
Qed.

Lemma wrap64_id (z : Z) : in_int64 z -> wrap64 z = z.
Proof.
  unfold in_int64, MinInt64, MaxInt64, wrap64. intros H.
  rewrite Z.mod_small; lia.
Qed.

Lemma wrap64_range (z : Z) : in_int64 (wrap64 z).
Proof.
  unfold in_int64, MinInt64, MaxInt64, wrap64.
  pose proof (Z.mod_pos_bound (z + 2 ^ 63) (2 ^ 64) ltac:(lia)). lia.
Qed.

Lemma pick_unit_spec (d : Z) (u : string) (f : Z) :
  pick_unit d units = (u, f) ->
  unit_factor u = Some f /\ 0 < f /\ d mod f = 0.
Proof.
  unfold units. cbn [pick_unit].
  repeat match goal with
         | |- context [?a mod ?b =? 0] =>
             destruct (Z.eqb_spec (a mod b) 0) as [Hm | _];
             [intros [= <- <-]; split; [reflexivity | split; [reflexivity | exact Hm]]|]
         end.
  intros [= <- <-]. split; [reflexivity | split; [reflexivity | apply Z.mod_1_r]].
Qed.

Lemma Duration_String_canonical `{Out : Outside} (n : Z) (u : string) (f : Z) :
  0 <= n -> n * f <= MaxInt64 -> pick_unit (n * f) units = (u, f) ->
  parseDuration (format_int n +:+ u) = inr (n * f) /\
  Duration_String (n * f) = format_int n +:+ u /\
  duration_grammar (format_int n +:+ u).
Proof.
  intros Hn Hmax Hpick.
  destruct (pick_unit_spec _ _ _ Hpick) as (Hf & Hpos & _).
  destruct (format_int_nonneg n Hn) as (Hne & Hd & Hv).
  split; [|split].
  - rewrite (parseDuration_app _ _ _ Hne Hd Hf), Hv. unfold mul64.
    rewrite wrap64_id; [reflexivity|].
    unfold in_int64, MinInt64. split; [|exact Hmax]. nia.
  - unfold Duration_String. rewrite Hpick, Z.quot_mul by lia. reflexivity.
  - exists (format_int n), u. repeat split; auto. apply unit_factor_Some. eauto.
Qed.

(** No formatter at all can return every string of the grammar from its
    duration: two strings of the grammar have the same duration. *)
Lemma no_formatter_inverts_parseDuration `{Out : Outside} (format : Duration -> string) :
  ~ (forall s, duration_grammar s ->
               exists d, parseDuration s = inr d /\ format d = s).
Proof.
  intros H.
  assert (G1 : duration_grammar "60s")
    by (exists "60", "s"; repeat split; [discriminate | unfold duration_units; rewrite !elem_of_cons; tauto]).
  assert (G2 : duration_grammar "1m")
    by (exists "1", "m"; repeat split; [discriminate | unfold duration_units; rewrite !elem_of_cons; tauto]).
  destruct (H _ G1) as (d1 & [= <-] & H1).
  destruct (H _ G2) as (d2 & [= <-] & H2).
  change (mul64 (digits_value "1") Minute) with (mul64 (digits_value "60") Second) in H2.
  rewrite H1 in H2. discriminate H2.
Qed.

Section Samples.

#[local] Existing Instance fixtures.lib.

(** C5, as stated, fails: ["60s"] is in the grammar and parses to one
    minute, which is formatted as ["1m"]. *)
Lemma Duration_String_not_inverse :
  duration_grammar "60s" /\
  exists d, parseDuration "60s" = inr d /\ Duration_String d = "1m" /\
            Duration_String d <> "60s".
Proof.
  split.
  - exists "60", "s". repeat split; [discriminate | unfold duration_units; rewrite !elem_of_cons; tauto].
  - exists (60 * Second). split; [reflexivity|]. split; [reflexivity|].
    intros H. vm_compute in H. discriminate H.
Qed.

End Samples.

(** C5, amended.  For every string of the grammar whose duration is not
    negative (that is, whose count did not overflow int64 into a negative
    value), the formatted duration is again a string of the grammar and
    parses to the same duration: parse, format, parse is the identity.
    The formatted text is the string itself when the string is the
    decimal count, without leading zeros, of the unit that [pick_unit]
    chooses for the duration, as it is for the eight strings of
    [TestParseDuration]. *)
Theorem Duration_parse_format_parse `{Out : Outside} :
  (forall s d, duration_grammar s -> parseDuration s = inr d -> 0 <= d ->
               duration_grammar (Duration_String d) /\
               parseDuration (Duration_String d) = inr d) /\
  (forall n u f, 0 <= n -> n * f <= MaxInt64 -> pick_unit (n * f) units = (u, f) ->
                 parseDuration (format_int n +:+ u) = inr (n * f) /\
                 Duration_String (n * f) = format_int n +:+ u) /\
  Forall (fun s => exists d, parseDuration s = inr d /\ Duration_String d = s)
         ["10ns"; "20" +:+ micro_s; "30ms"; "40s"; "50m"; "60h"; "75d"; "80w"].
Proof.
  split; [|split].
  - intros s d _ Hp Hd.
    assert (Hmax : d <= MaxInt64).
    { destruct (parseDuration_cases s) as [(ds & u & f & _ & _ & _ & _ & Hp') | [_ Hno]];
        [|destruct (Hno d Hp)].
      rewrite Hp in Hp'. injection Hp' as ->. apply wrap64_range. }
    destruct (pick_unit d units) as [u f] eqn:Hpick.
    destruct (pick_unit_spec _ _ _ Hpick) as (Hf & Hpos & Hmod).
    assert (Hd' : d = d / f * f).
    { rewrite (Z.div_mod d f) at 1 by lia. rewrite Hmod. lia. }
    assert (Hq : 0 <= d / f) by (apply Z.div_pos; lia).
    rewrite Hd' in Hpick, Hmax.
    destruct (Duration_String_canonical _ _ _ Hq Hmax Hpick) as (H1 & H2 & H3).
    rewrite <- Hd' in H1, H2. rewrite H2. auto.
  - intros n u f Hn Hmax Hpick.
    destruct (Duration_String_canonical _ _ _ Hn Hmax Hpick) as (H1 & H2 & _). auto.
  - repeat constructor; eexists; split; reflexivity.
Qed.

Section Samples.

#[local] Existing Instance fixtures.lib.

(** Witness of C5 amended: ["60s"], and the canonical ["40s"]. *)
Lemma Duration_parse_format_parse_witness :
  parseDuration (Duration_String (60 * Second)) = inr (60 * Second) /\
  Duration_String (40 * Second) = "40s".
Proof.
  destruct Duration_parse_format_parse as (Hrt & Hcan & _). split.
  - apply (Hrt "60s" (60 * Second)).
    + exists "60", "s". repeat split; [discriminate | unfold duration_units; rewrite !elem_of_cons; tauto].
    + reflexivity.
    + discriminate.
  - apply (Hcan 40 "s" Second); [discriminate | discriminate | reflexivity].
Defined.

End Samples.

(** ** The decoder *)

Lemma bind_inr {A B} (m : Res A) (k : A -> Res B) (b : B) :
  bind m k = inr b -> exists a, m = inr a /\ k a = inr b.
Proof. destruct m as [e | a]; cbn; [discriminate | eauto]. Qed.

Lemma mapM_lookup {A B} (f : A -> Res B) (l : list A) (l' : list B) :
  mapM f l = inr l' ->
  length l' = length l /\
  forall (i : nat) (x : A), l !! i = Some x -> exists y, l' !! i = Some y /\ f x = inr y.
Proof.
  revert l'. induction l as [|a l IH]; intros l'; cbn [mapM].
  - intros [= <-]. split; [reflexivity|]. intros i x Hx. rewrite lookup_nil in Hx. discriminate.
  - intros H. apply bind_inr in H as (b & Hb & H).
    apply bind_inr in H as (bs & Hbs & [= <-]).
    destruct (IH _ Hbs) as [Hlen Hl]. split; [cbn; lia|].
    intros [|i] x Hx; cbn in *.
    + injection Hx as <-. eauto.
    + apply Hl. exact Hx.
Qed.

Lemma mapM_fail {A B} (f : A -> Res B) (l : list A) (x : A) :
  x ∈ l -> (exists e, f x = inl e) -> exists e, mapM f l = inl e.
Proof.
  intros Hin [e He]. induction l as [|a l IH]; [inversion Hin|].
  cbn [mapM]. apply elem_of_cons in Hin as [<- | Hin].
  - rewrite He. cbn. eauto.
  - destruct (f a) as [e' | b]; cbn; [eauto|].
    destruct (IH Hin) as [e' ->]. cbn. eauto.
Qed.

(** A field that only its own key writes holds, after [d.mappingStruct],
    the decoding of the last entry with that key, or the value it had
    when no entry has the key. *)
Lemma fold_fields_get {T F} (field : string -> node -> T -> Res T)
    (proj : T -> F) (k0 : string) (dec : node -> Res F) :
  (forall k v c c', k <> k0 -> field k v c = inr c' -> proj c' = proj c) ->
  (forall v c c', field k0 v c = inr c' -> dec v = inr (proj c')) ->
  forall kvs c c', fold_fields field kvs c = inr c' ->
    match mapping_get k0 kvs with
    | None => proj c' = proj c
    | Some v => dec v = inr (proj c')
    end.
Proof.
  intros Hother Hkey kvs. induction kvs as [|[k v] kvs IH]; intros c c'; cbn.
  - intros [= <-]. reflexivity.
  - intros H. apply bind_inr in H as (c1 & H1 & H).
    specialize (IH _ _ H).
    destruct (mapping_get k0 kvs) as [v'|]; [exact IH|].
    destruct (String.eqb_spec k k0) as [-> | Hne].
    + rewrite IH. (* the value decoded here is the one that stays *)
      pose proof (Hkey _ _ _ H1) as Hd.
      assert (Hp : forall c2, fold_fields field kvs c1 = inr c2 -> proj c2 = proj c1).
      { intros c2 H2. rewrite H in H2. injection H2 as <-. exact IH. }
      exact Hd.
    + rewrite IH. eapply Hother; eauto.
Qed.

(** An entry whose decoding fails whatever the struct holds makes the
    decoding of the mapping fail. *)
Lemma fold_fields_fail {T} (field : string -> node -> T -> Res T)
    (k : string) (v : node) (kvs : list (string * node)) :
  (k, v) ∈ kvs ->
  (forall c, exists e, field k v c = inl e) ->
  forall c, exists e, fold_fields field kvs c = inl e.
Proof.
  intros Hin Hfail. induction kvs as [|[k' v'] kvs IH]; [inversion Hin|].
  intros c. cbn. apply elem_of_cons in Hin as [[= <- <-] | Hin].
  - destruct (Hfail c) as [e ->]. cbn. eauto.
  - destruct (field k' v' c) as [e | c1]; cbn; [eauto|]. apply IH. exact Hin.
Qed.

Ltac split_keys H :=
  repeat match type of H with
         | context [String.eqb ?a ?b] =>
             let He := fresh "He" in
             destruct (String.eqb_spec a b) as [He | He];
             [try discriminate He; try subst; try congruence | try congruence]
         end.

Ltac field_inv H :=
  let x := fresh "x" in
  let Hx := fresh "Hx" in
  first [ apply bind_inr in H as (x & Hx & H); injection H as <-
        | injection H as <- ].

(** ** Clusters *)

Lemma Cluster_field_ClusterUsers_other `{Out : Outside} k v c c' :
  k <> "users" -> Cluster.field k v c = inr c' ->
  Cluster.ClusterUsers c' = Cluster.ClusterUsers c.
Proof.
  intros Hne H. unfold Cluster.field in H. split_keys H; field_inv H; reflexivity.
Qed.

Lemma Cluster_field_ClusterUsers_key `{Out : Outside} v c c' :
  Cluster.field "users" v c = inr c' ->
  sequence ClusterUser.decode v = inr (Cluster.ClusterUsers c').
Proof.
  intros H. unfold Cluster.field in H. split_keys H. field_inv H. exact Hx.
Qed.

Lemma Cluster_field_HeartBeatInterval_other `{Out : Outside} k v c c' :
  k <> "heartbeat_interval" -> Cluster.field k v c = inr c' ->
  Cluster.HeartBeatInterval c' = Cluster.HeartBeatInterval c.
Proof.
  intros Hne H. unfold Cluster.field in H. split_keys H; field_inv H; reflexivity.
Qed.

Lemma Cluster_field_HeartBeatInterval_key `{Out : Outside} v c c' :
  Cluster.field "heartbeat_interval" v c = inr c' ->
  decode_Duration v = inr (Cluster.HeartBeatInterval c').
Proof.
  intros H. unfold Cluster.field in H. split_keys H. field_inv H. exact Hx.
Qed.

Lemma String_length_zero (s : string) : (String.length s =? 0)%nat = true <-> s = "".
Proof. destruct s; cbn; split; congruence. Qed.

(** What [Cluster.UnmarshalYAML] has checked when it returns no error.
    [c0] is the struct as decoded from the mapping, before the default of
    the heartbeat interval. *)
Lemma Cluster_UnmarshalYAML_inv `{Out : Outside} (n : node) (c c' : Cluster.t) :
  Cluster.UnmarshalYAML n c = inr c' ->
  exists c0,
    Cluster.plain n Cluster.defaultCluster = inr c0 /\
    Cluster.Name c0 <> "" /\
    (Cluster.Nodes c0 = [] <-> Cluster.Replicas c0 <> []) /\
    Cluster.ClusterUsers c0 <> [] /\
    c' = (if Cluster.HeartBeatInterval c0 =? 0
          then Cluster.set_HeartBeatInterval (Second * 5) c0 else c0).
Proof.
  unfold Cluster.UnmarshalYAML. intros H. cbv zeta in H.
  apply bind_inr in H as (c0 & Hplain & H). cbv beta in H. exists c0.
  destruct (Nat.eqb (String.length (Cluster.Name c0)) 0) eqn:Hname; [discriminate|].
  destruct (length (Cluster.Nodes c0)) eqn:Hn, (length (Cluster.Replicas c0)) eqn:Hr;
    cbn in H; try discriminate.
  - destruct (Nat.eqb (length (Cluster.ClusterUsers c0)) 0) eqn:Hu; [discriminate|].
    apply bind_inr in H as (_ & _ & [= <-]).
    repeat split; auto.
    + intros Heq. rewrite Heq in Hname. discriminate.
    + intros _ Heq. rewrite Heq in Hr. discriminate.
    + intros _. destruct (Cluster.Nodes c0); [reflexivity | discriminate].
    + intros Heq. rewrite Heq in Hu. discriminate.
  - destruct (Nat.eqb (length (Cluster.ClusterUsers c0)) 0) eqn:Hu; [discriminate|].
    apply bind_inr in H as (_ & _ & [= <-]).
    repeat split; auto.
    + intros Heq. rewrite Heq in Hname. discriminate.
    + intros Heq. rewrite Heq in Hn. discriminate.
    + intros Hne. destruct (Cluster.Replicas c0); [congruence | discriminate].
    + intros Heq. rewrite Heq in Hu. discriminate.
Qed.

(** Every cluster that went through [Cluster.UnmarshalYAML] has exactly
    one of [Nodes] and [Replicas], has users and a heartbeat interval. *)
Lemma Cluster_UnmarshalYAML_valid `{Out : Outside} (n : node) (c c' : Cluster.t) :
  Cluster.UnmarshalYAML n c = inr c' ->
  (Cluster.Nodes c' = [] <-> Cluster.Replicas c' <> []) /\
  Cluster.ClusterUsers c' <> [] /\
  Cluster.HeartBeatInterval c' <> 0.
Proof.
  intros H. apply Cluster_UnmarshalYAML_inv in H as (c0 & _ & _ & Hx & Hu & ->).
  destruct (Z.eqb_spec (Cluster.HeartBeatInterval c0) 0) as [Hz | Hz];
    (split; [exact Hx | split; [exact Hu|]]); [cbn; discriminate | exact Hz].
Qed.

(** The three rejections of [Cluster.UnmarshalYAML] that concern nodes,
    replicas and users. *)
Lemma Cluster_UnmarshalYAML_rejects `{Out : Outside} (n : node) (c c0 : Cluster.t) :
  Cluster.plain n Cluster.defaultCluster = inr c0 ->
  Cluster.Name c0 <> "" ->
  (Cluster.Nodes c0 = [] -> Cluster.Replicas c0 = [] ->
   Cluster.UnmarshalYAML n c
   = inl (Errorf ("either `cluster.nodes` or `cluster.replicas` must be set for "
                  +:+ quote (Cluster.Name c0)))) /\
  (Cluster.Nodes c0 <> [] -> Cluster.Replicas c0 <> [] ->
   Cluster.UnmarshalYAML n c
   = inl (Errorf ("`cluster.nodes` cannot be simultaneously set with `cluster.replicas` for "
                  +:+ quote (Cluster.Name c0)))) /\
  ((Cluster.Nodes c0 = [] <-> Cluster.Replicas c0 <> []) ->
   Cluster.ClusterUsers c0 = [] ->
   Cluster.UnmarshalYAML n c
   = inl (Errorf ("`cluster.users` must contain at least 1 user for "
                  +:+ quote (Cluster.Name c0)))).
Proof.
  intros Hplain Hname. unfold Cluster.UnmarshalYAML. rewrite Hplain. cbn [bind].
  destruct (Nat.eqb (String.length (Cluster.Name c0)) 0) eqn:Hn;
    [apply String_length_zero in Hn; congruence|].
  split; [|split].
  - intros -> ->. reflexivity.
  - intros H1 H2.
    destruct (Cluster.Nodes c0); [congruence|].
    destruct (Cluster.Replicas c0); [congruence|]. reflexivity.
  - intros Hx ->.
    destruct (Cluster.Nodes c0), (Cluster.Replicas c0); cbn; try reflexivity.
    + destruct (proj1 Hx eq_refl eq_refl).
    + destruct Hx as [_ Hx]. discriminate Hx. discriminate.
Qed.

(** ** Loading a document *)

Lemma Config_field_Clusters_other `{Out : Outside} k v c c' :
  k <> "clusters" -> Config.field k v c = inr c' ->
  Config.Clusters c' = Config.Clusters c.
Proof.
  intros Hne H. unfold Config.field in H. split_keys H; field_inv H; reflexivity.
Qed.

Lemma Config_field_Clusters_key `{Out : Outside} v c c' :
  Config.field "clusters" v c = inr c' ->
  sequence Cluster.decode v = inr (Config.Clusters c').
Proof.
  intros H. unfold Config.field in H. split_keys H. field_inv H. exact Hx.
Qed.

Lemma setWriteTimeout_cases (cfg : Config.t) :
  setWriteTimeout cfg = cfg \/
  exists x, setWriteTimeout cfg = Config.set_WriteTimeout x cfg.
Proof.
  unfold setWriteTimeout.
  match goal with |- context [if ?b then _ else _] => destruct b end; eauto.
Qed.

Lemma setWriteTimeout_Clusters (cfg : Config.t) :
  Config.Clusters (setWriteTimeout cfg) = Config.Clusters cfg.
Proof. destruct (setWriteTimeout_cases cfg) as [-> | [x ->]]; reflexivity. Qed.

Lemma setWriteTimeout_ReadTimeout (cfg : Config.t) :
  Config.ReadTimeout (setWriteTimeout cfg) = Config.ReadTimeout cfg /\
  Config.IdleTimeout (setWriteTimeout cfg) = Config.IdleTimeout cfg.
Proof. destruct (setWriteTimeout_cases cfg) as [-> | [x ->]]; split; reflexivity. Qed.

(** What [Config.UnmarshalYAML] has checked when a mapping is loaded. *)
Lemma LoadDocument_mapping_inv `{Out : Outside} (kvs : list (string * node)) (cfg : Config.t) :
  LoadDocument (Some (MappingNode kvs)) = inr cfg ->
  exists c0,
    Config.plain (MappingNode kvs) Config.defaultConfig = inr c0 /\
    Unmarshal (Some (MappingNode kvs)) Config.zero = inr c0 /\
    Config.Users c0 <> [] /\ Config.Clusters c0 <> [] /\ Config.ListenAddr c0 <> "" /\
    cfg = setWriteTimeout c0.
Proof.
  unfold LoadDocument. intros H. apply bind_inr in H as (c0 & Hum & [= <-]).
  exists c0. pose proof Hum as Hum'.
  cbn [Unmarshal unmarshal is_null] in Hum. unfold Config.UnmarshalYAML in Hum.
  cbv zeta in Hum. apply bind_inr in Hum as (c1 & Hplain & H). cbv beta in H.
  destruct (Nat.eqb (length (Config.Users c1)) 0) eqn:Hu; [discriminate|].
  destruct (Nat.eqb (length (Config.Clusters c1)) 0) eqn:Hc; [discriminate|].
  destruct (Nat.eqb (String.length (HTTP.ListenAddr (Server.HTTP (Config.Server c1)))) 0)
    eqn:Hl; [discriminate|].
  apply bind_inr in H as (_ & _ & [= <-]).
  repeat split; auto.
  - intros Heq. rewrite Heq in Hu. discriminate.
  - intros Heq. rewrite Heq in Hc. discriminate.
  - unfold Config.ListenAddr. intros Heq. rewrite Heq in Hl. discriminate.
Qed.

(** The clusters of a loaded mapping: the default cluster when the
    mapping has no [clusters] key, and otherwise the decoding of every
    entry of the sequence under that key. *)
Lemma LoadDocument_clusters `{Out : Outside} (kvs : list (string * node)) (cfg : Config.t) :
  LoadDocument (Some (MappingNode kvs)) = inr cfg ->
  match mapping_get "clusters" kvs with
  | None => Config.Clusters cfg = [Cluster.defaultCluster]
  | Some v => sequence Cluster.decode v = inr (Config.Clusters cfg)
  end.
Proof.
  intros H. apply LoadDocument_mapping_inv in H as (c0 & Hplain & _ & _ & _ & _ & ->).
  rewrite setWriteTimeout_Clusters.
  unfold Config.plain, mappingStruct in Hplain.
  exact (fold_fields_get Config.field Config.Clusters "clusters" (sequence Cluster.decode)
           Config_field_Clusters_other Config_field_Clusters_key _ _ _ Hplain).
Qed.

Lemma LoadDocument_cluster_entry `{Out : Outside} (kvs : list (string * node)) (cfg : Config.t)
    (i : nat) (ckvs : list (string * node)) :
  LoadDocument (Some (MappingNode kvs)) = inr cfg ->
  cluster_entries kvs !! i = Some (MappingNode ckvs) ->
  exists c, Config.Clusters cfg !! i = Some c /\
            Cluster.UnmarshalYAML (MappingNode ckvs) Cluster.zero = inr c.
Proof.
  intros H Hi. apply LoadDocument_clusters in H. unfold cluster_entries in Hi.
  destruct (mapping_get "clusters" kvs) as [[| l |]|];
    try (rewrite lookup_nil in Hi; discriminate).
  cbn [sequence] in H. apply mapM_lookup in H as [_ H].
  destruct (H _ _ Hi) as (c & Hc & Hd). exists c. split; [exact Hc | exact Hd].
Qed.

Lemma Cluster_plain_ClusterUsers `{Out : Outside} (ckvs : list (string * node)) (c c0 : Cluster.t) :
  Cluster.plain (MappingNode ckvs) c = inr c0 ->
  match mapping_get "users" ckvs with
  | None => Cluster.ClusterUsers c0 = Cluster.ClusterUsers c
  | Some v => sequence ClusterUser.decode v = inr (Cluster.ClusterUsers c0)
  end.
Proof.
  intros H. unfold Cluster.plain, mappingStruct in H.
  exact (fold_fields_get Cluster.field Cluster.ClusterUsers "users"
           (sequence ClusterUser.decode)
           Cluster_field_ClusterUsers_other Cluster_field_ClusterUsers_key _ _ _ H).
Qed.

Lemma Cluster_plain_HeartBeatInterval `{Out : Outside} (ckvs : list (string * node)) (c c0 : Cluster.t) :
  Cluster.plain (MappingNode ckvs) c = inr c0 ->
  match mapping_get "heartbeat_interval" ckvs with
  | None => Cluster.HeartBeatInterval c0 = Cluster.HeartBeatInterval c
  | Some v => decode_Duration v = inr (Cluster.HeartBeatInterval c0)
  end.
Proof.
  intros H. unfold Cluster.plain, mappingStruct in H.
  exact (fold_fields_get Cluster.field Cluster.HeartBeatInterval "heartbeat_interval"
           decode_Duration
           Cluster_field_HeartBeatInterval_other Cluster_field_HeartBeatInterval_key
           _ _ _ H).
Qed.

(** A cluster written as a mapping without [heartbeat_interval], or with
    one that decodes to zero, is loaded with five seconds. *)
Lemma Cluster_UnmarshalYAML_HeartBeatInterval `{Out : Outside}
    (ckvs : list (string * node)) (c c' : Cluster.t) :
  Cluster.UnmarshalYAML (MappingNode ckvs) c = inr c' ->
  mapping_get "heartbeat_interval" ckvs = None \/
  (exists v, mapping_get "heartbeat_interval" ckvs = Some v /\ decode_Duration v = inr 0) ->
  Cluster.HeartBeatInterval c' = 5 * Second.
Proof.
  intros H Hkey. apply Cluster_UnmarshalYAML_inv in H as (c0 & Hplain & _ & _ & _ & ->).
  apply Cluster_plain_HeartBeatInterval in Hplain.
  assert (Hz : Cluster.HeartBeatInterval c0 = 0).
  { destruct Hkey as [Hk | (v & Hk & Hv)]; rewrite Hk in Hplain.
    - rewrite Hplain. reflexivity.
    - rewrite Hv in Hplain. injection Hplain as <-. reflexivity. }
  rewrite Hz. reflexivity.
Qed.

(** C7, at the failing document: a document with a server and a user and
    no [clusters] key is accepted by [LoadFile], and the configuration
    has one cluster, the default one, which has neither nodes nor
    replicas (and no name, and no heartbeat interval): the checks of
    [Cluster.UnmarshalYAML] never ran on it. *)
Lemma LoadFile_default_cluster_unvalidated `{Out : Outside} :
  exists cfg,
    LoadFile (fun _ => ret "") (fun _ => ret (Some fixtures.no_clusters)) "config.yml"
    = inr cfg /\
    Config.Clusters cfg = [Cluster.defaultCluster] /\
    Cluster.Nodes Cluster.defaultCluster = [] /\
    Cluster.Replicas Cluster.defaultCluster = [] /\
    Cluster.Name Cluster.defaultCluster = "" /\
    Cluster.HeartBeatInterval Cluster.defaultCluster = 0.
Proof. eexists. repeat split. Qed.

(** The same holds of a null entry of the [clusters] sequence, which is
    decoded to the zero cluster without [Cluster.UnmarshalYAML]. *)
Lemma LoadDocument_null_cluster_unvalidated `{Out : Outside} :
  exists cfg,
    LoadDocument
      (Some (MappingNode [ ("server", fixtures.a_server);
                           ("users", SequenceNode [ fixtures.a_user ]);
                           ("clusters", SequenceNode [ null ]) ]))
    = inr cfg /\
    Config.Clusters cfg = [Cluster.zero].
Proof. eexists. repeat split. Qed.

(** C8, at the failing documents.  The comment on the field
    [HeartBeatInterval] says that an interval that is omitted or zero is
    set to five seconds, and [Cluster.UnmarshalYAML] does so.  A null
    entry of [clusters], and the cluster that [defaultConfig] brings
    when the document has no [clusters] key, never go through
    [Cluster.UnmarshalYAML]: [LoadFile] accepts both documents and
    returns a cluster whose interval is zero. *)
Theorem HeartBeatInterval_not_defaulted `{Out : Outside} :
  (exists cfg c,
      LoadFile (fun _ => ret "") (fun _ => ret (Some fixtures.null_cluster)) "config.yml"
      = inr cfg /\
      Config.Clusters cfg = [c] /\
      Cluster.HeartBeatInterval c = 0 /\ Cluster.HeartBeatInterval c <> 5 * Second) /\
  (exists cfg c,
      LoadFile (fun _ => ret "") (fun _ => ret (Some fixtures.no_clusters)) "config.yml"
      = inr cfg /\
      Config.Clusters cfg = [c] /\
      Cluster.HeartBeatInterval c = 0 /\ Cluster.HeartBeatInterval c <> 5 * Second).
Proof. split; eexists; eexists; repeat split; discriminate. Qed.

(** C10, at the failing document.  A null entry of [clusters] has no
    [users] key; it is decoded to the zero cluster without
    [Cluster.UnmarshalYAML], so it gets neither the default user of
    [defaultCluster] nor the check of the number of users: [LoadFile]
    accepts the document and returns a cluster without any user. *)
Theorem ClusterUsers_null_entry `{Out : Outside} :
  exists cfg c,
    LoadFile (fun _ => ret "") (fun _ => ret (Some fixtures.null_cluster)) "config.yml"
    = inr cfg /\
    Config.Clusters cfg = [c] /\
    Cluster.ClusterUsers c = [] /\
    Cluster.ClusterUsers c <> [defaultClusterUser].
Proof. eexists; eexists; repeat split; discriminate. Qed.

(** What the code does enforce of C7: in an accepted document,
    every entry of [clusters] that is a mapping is loaded as a cluster
    with exactly one of nodes and replicas, and with users. *)
Lemma LoadDocument_cluster_entries_valid `{Out : Outside}
    (kvs : list (string * node)) (cfg : Config.t) (i : nat)
    (ckvs : list (string * node)) (c : Cluster.t) :
  LoadDocument (Some (MappingNode kvs)) = inr cfg ->
  cluster_entries kvs !! i = Some (MappingNode ckvs) ->
  Config.Clusters cfg !! i = Some c ->
  (Cluster.Nodes c = [] <-> Cluster.Replicas c <> []) /\ Cluster.ClusterUsers c <> [].
Proof.
  intros H Hi Hc.
  destruct (LoadDocument_cluster_entry _ _ _ _ H Hi) as (c' & Hc' & Hu).
  rewrite Hc in Hc'. injection Hc' as <-.
  apply Cluster_UnmarshalYAML_valid in Hu as (H1 & H2 & _). auto.
Qed.

(** ** Defaults of a cluster *)

Section Loading.

Context `{E : Externals}.

Lemma applied_emit_ApplyConfig (cfg : Config.t) (w : World Proxy) :
  applied (emit (ApplyConfig cfg) w) = (applied w ++ [cfg])%list.
Proof. unfold applied. cbn [trace emit]. rewrite omap_app. reflexivity. Qed.

Lemma applyConfig_applied (cfg : Config.t) (w w' : World Proxy) (r : option error) :
  applyConfig cfg w = Done w' r -> applied w' = (applied w ++ [cfg])%list.
Proof.
  unfold applyConfig, mbind, gets, modify, mret, log_Infof.
  destruct (proxy_applyConfig cfg (proxy w)).2; intros [= <- _].
  - unfold applied. cbn [trace emit set_proxy].
    rewrite omap_app. reflexivity.
  - unfold applied. cbn [trace emit set_proxy set_debug].
    rewrite !omap_app. cbn. rewrite app_nil_r. reflexivity.
Qed.

Lemma loadConfig_loads (w w' : World Proxy) (cfg : Config.t) :
  loadConfig w = Done w' (inr cfg) ->
  LoadFile (ReadFile w) scan (configFile w) = inr cfg /\ applied w' = applied w.
Proof.
  unfold loadConfig, mbind, gets, modify, mret, log_Fatalf.
  destruct (String.eqb_spec (configFile w) "") as [Heq | Hne]; [discriminate|].
  destruct (LoadFile (ReadFile w) scan (configFile w)); [discriminate|].
  intros [= <- <-]. auto.
Qed.

(** [reloadConfig], when it returns no error, has applied the result of
    [LoadFile] on the file as it is at that time. *)
Lemma reloadConfig_loads (w w' : World Proxy) :
  reloadConfig w = Done w' None ->
  exists cfg, LoadFile (ReadFile w) scan (configFile w) = inr cfg /\
              applied w' = (applied w ++ [cfg])%list.
Proof.
  unfold reloadConfig, mbind.
  destruct (loadConfig w) as [|w1 [err | cfg]] eqn:Hload; try discriminate.
  apply loadConfig_loads in Hload as [Hl Ha]. intros Happ.
  apply applyConfig_applied in Happ. exists cfg. split; [exact Hl | congruence].
Qed.

(** [main] starts with the result of [LoadFile] on the file as it is
    then. *)
Lemma startup_loads (w0 w : World Proxy) (cfg : Config.t) :
  startup w0 = Done w cfg ->
  LoadFile (ReadFile w0) scan (configFile w0) = inr cfg.
Proof.
  unfold startup.
  unfold mbind at 1. unfold gets at 1.
  destruct (version w0).
  { unfold mbind, modify, exit. discriminate. }
  unfold mbind at 1. unfold mret at 1.
  unfold mbind at 1. unfold gets at 1.
  unfold mbind at 1. unfold log_Infof at 1, modify at 1.
  unfold mbind at 1. unfold log_Infof at 1, modify at 1.
  unfold mbind at 1.
  destruct (loadConfig _) as [|w1 [err | cfg1]] eqn:Hload; try discriminate.
  apply loadConfig_loads in Hload as [Hl _]. cbn in Hl.
  unfold mbind at 1.
  destruct (applyConfig cfg1 w1) as [|w2 [e|]]; try discriminate.
  unfold mbind, log_Infof, modify, mret. intros [= _ <-]. exact Hl.
Qed.

End Loading.

(** X16. In a document that [LoadFile] accepts, an entry of [clusters]
    written as a mapping is loaded with a [HeartBeatInterval] of five
    seconds when it has no key [heartbeat_interval] or a value for it
    that decodes to zero, and with the decoded value otherwise. *)
Theorem HeartBeatInterval_of_mapping `{Out : Outside}
    (kvs : list (string * node)) (cfg : Config.t) (i : nat)
    (ckvs : list (string * node)) (c : Cluster.t) :
  LoadDocument (Some (MappingNode kvs)) = inr cfg ->
  cluster_entries kvs !! i = Some (MappingNode ckvs) ->
  Config.Clusters cfg !! i = Some c ->
  (mapping_get "heartbeat_interval" ckvs = None \/
   (exists v, mapping_get "heartbeat_interval" ckvs = Some v /\
              decode_Duration v = inr 0) ->
   Cluster.HeartBeatInterval c = 5 * Second) /\
  (forall v d,
      mapping_get "heartbeat_interval" ckvs = Some v ->
      decode_Duration v = inr d -> d <> 0 ->
      Cluster.HeartBeatInterval c = d).
Proof.
  intros H Hi Hc.
  destruct (LoadDocument_cluster_entry _ _ _ _ H Hi) as (c' & Hc' & Hu).
  rewrite Hc in Hc'. injection Hc' as <-.
  split.
  - intros Hkey. eapply Cluster_UnmarshalYAML_HeartBeatInterval; eauto.
  - intros v d Hk Hv Hd.
    apply Cluster_UnmarshalYAML_inv in Hu as (c0 & Hplain & _ & _ & _ & ->).
    apply Cluster_plain_HeartBeatInterval in Hplain.
    rewrite Hk, Hv in Hplain. injection Hplain as Heq.
    destruct (Z.eqb_spec (Cluster.HeartBeatInterval c0) 0) as [Hz | _];
      [congruence | symmetry; exact Heq].
Qed.

Section Samples.

#[local] Existing Instance fixtures.lib.

(** Witness of X16: the cluster of the "default values" document. *)
Lemma HeartBeatInterval_of_mapping_witness :
  exists c, Config.Clusters fixtures.default_values_cfg !! 0%nat = Some c /\
            Cluster.HeartBeatInterval c = 5 * Second.
Proof.
  exists (Cluster.set_HeartBeatInterval (5 * Second)
            (Cluster.set_Nodes ["127.0.0.1:8123"]
               (Cluster.set_Name "cluster" Cluster.defaultCluster))).
  split; [reflexivity|].
  assert (Hload : LoadDocument (Some fixtures.default_values)
                  = inr fixtures.default_values_cfg) by (vm_compute; reflexivity).
  assert (Hentry : cluster_entries
                     [ ("server", fixtures.a_server);
                       ("users", SequenceNode [ fixtures.a_user ]);
                       ("clusters",
                         SequenceNode
                           [ MappingNode [ ("name", str "cluster");
                                           ("nodes",
                                             SequenceNode [ str "127.0.0.1:8123" ]) ] ]) ]
                     !! 0%nat
                   = Some (MappingNode [ ("name", str "cluster");
                                         ("nodes", SequenceNode [ str "127.0.0.1:8123" ]) ]))
    by reflexivity.
  destruct (HeartBeatInterval_of_mapping _ _ _ _ _ Hload Hentry eq_refl) as [Hdef _].
  apply Hdef. left. reflexivity.
Defined.

End Samples.

(** Witness of C1: a process started on a readable file receives a SIGHUP
    once the file is gone. *)
Lemma reloadConfig_load_failure_witness :
  exists w w',
    startup (E := fixtures.stub) fixtures.world1 = Done w (setWriteTimeout Config.zero) /\
    receive (E := fixtures.stub) fixtures.hup_missing w = Done w' tt /\
    proxy w' = proxy w /\ applied (E := fixtures.stub) w' = applied (E := fixtures.stub) w.
Proof.
  eexists. eexists. split; [reflexivity|].
  match goal with
  | |- receive _ ?w = _ /\ _ =>
      destruct (reloadConfig_load_failure (E := fixtures.stub) w fixtures.hup_missing []
                  (LibError "open testdata/foobar.yml: no such file or directory"))
        as (_ & Hr & Hp & Ha & _)
  end.
  - eapply reach_startup with (w0 := fixtures.world1). reflexivity.
  - reflexivity.
  - reflexivity.
  - split; [exact Hr|]. split; [exact Hp | exact Ha].
Defined.

(** ** The default user of a cluster *)

(** X17. In a document that [LoadFile] accepts, a cluster entry written
    as a mapping without the key [users] is loaded with exactly one
    cluster user, named [default], with an empty password and all limits
    zero; the decoded struct already holds that user when the check of
    the number of users runs, so the check passes, and the test's
    "default values" document is loaded.  When the key [users] is
    present, the users of the loaded cluster are the decoding of its
    value. *)
Theorem ClusterUsers_of_mapping `{Out : Outside} :
  (forall kvs cfg i ckvs c,
      LoadDocument (Some (MappingNode kvs)) = inr cfg ->
      cluster_entries kvs !! i = Some (MappingNode ckvs) ->
      mapping_get "users" ckvs = None ->
      Config.Clusters cfg !! i = Some c ->
      Cluster.ClusterUsers c = [defaultClusterUser]) /\
  defaultClusterUser
  = {| ClusterUser.Name := "default"; ClusterUser.Password := "";
       ClusterUser.MaxConcurrentQueries := 0; ClusterUser.MaxExecutionTime := 0;
       ClusterUser.ReqPerMin := 0; ClusterUser.MaxQueueSize := 0;
       ClusterUser.MaxQueueTime := 0; ClusterUser.XXX := ∅ |} /\
  (forall ckvs c0,
      Cluster.plain (MappingNode ckvs) Cluster.defaultCluster = inr c0 ->
      mapping_get "users" ckvs = None ->
      Cluster.ClusterUsers c0 = [defaultClusterUser] /\
      (length (Cluster.ClusterUsers c0) =? 0)%nat = false) /\
  LoadDocument (Some fixtures.default_values) = inr fixtures.default_values_cfg /\
  (forall ckvs v c c',
      mapping_get "users" ckvs = Some v ->
      Cluster.UnmarshalYAML (MappingNode ckvs) c = inr c' ->
      sequence ClusterUser.decode v = inr (Cluster.ClusterUsers c') /\
      Cluster.ClusterUsers c' <> []).
Proof.
  assert (Hplain : forall ckvs c0,
             Cluster.plain (MappingNode ckvs) Cluster.defaultCluster = inr c0 ->
             mapping_get "users" ckvs = None ->
             Cluster.ClusterUsers c0 = [defaultClusterUser]).
  { intros ckvs c0 H Hk. apply Cluster_plain_ClusterUsers in H. rewrite Hk in H.
    rewrite H. reflexivity. }
  split; [|split; [|split; [|split]]].
  - intros kvs cfg i ckvs c H Hi Hk Hc.
    destruct (LoadDocument_cluster_entry _ _ _ _ H Hi) as (c' & Hc' & Hu).
    rewrite Hc in Hc'. injection Hc' as <-.
    apply Cluster_UnmarshalYAML_inv in Hu as (c0 & Hp & _ & _ & _ & ->).
    rewrite <- (Hplain _ _ Hp Hk).
    destruct (Cluster.HeartBeatInterval c0 =? 0); reflexivity.
  - reflexivity.
  - intros ckvs c0 H Hk. rewrite (Hplain _ _ H Hk). split; reflexivity.
  - reflexivity.
  - intros ckvs v c c' Hk H.
    apply Cluster_UnmarshalYAML_inv in H as (c0 & Hp & _ & _ & Hne & ->).
    apply Cluster_plain_ClusterUsers in Hp. rewrite Hk in Hp.
    destruct (Cluster.HeartBeatInterval c0 =? 0); split; assumption.
Qed.

Section Samples.

#[local] Existing Instance fixtures.lib.

(** Witness of X17: the cluster of the "default values" document, and a
    cluster with a [users] list. *)
Lemma ClusterUsers_of_mapping_witness :
  (forall c, Config.Clusters fixtures.default_values_cfg !! 0%nat = Some c ->
             Cluster.ClusterUsers c = [defaultClusterUser]) /\
  (forall c c',
      Cluster.UnmarshalYAML
        (MappingNode [ ("name", str "c"); ("nodes", SequenceNode [ str "n:8123" ]);
                       ("users", SequenceNode [ MappingNode [ ("name", str "web") ] ]) ])
        c = inr c' ->
      Cluster.ClusterUsers c' = [ ClusterUser.set_Name "web" ClusterUser.zero ]).
Proof.
  destruct ClusterUsers_of_mapping as (Habsent & _ & _ & _ & Hpresent).
  split.
  - intros c Hc.
    apply (Habsent [ ("server", fixtures.a_server);
                     ("users", SequenceNode [ fixtures.a_user ]);
                     ("clusters",
                       SequenceNode
                         [ MappingNode [ ("name", str "cluster");
                                         ("nodes", SequenceNode [ str "127.0.0.1:8123" ]) ] ]) ]
                   fixtures.default_values_cfg 0%nat
                   [ ("name", str "cluster");
                     ("nodes", SequenceNode [ str "127.0.0.1:8123" ]) ] c);
      [reflexivity | reflexivity | reflexivity | exact Hc].
  - intros c c' H.
    destruct (Hpresent
                [ ("name", str "c"); ("nodes", SequenceNode [ str "n:8123" ]);
                  ("users", SequenceNode [ MappingNode [ ("name", str "web") ] ]) ]
                (SequenceNode [ MappingNode [ ("name", str "web") ] ]) c c'
                eq_refl H) as [Hseq _].
    change (inr [ ClusterUser.set_Name "web" ClusterUser.zero ]
            = inr (B := list ClusterUser.t) (A := error) (Cluster.ClusterUsers c')) in Hseq.
    injection Hseq as <-. reflexivity.
Defined.

End Samples.

(** ** Timeouts *)

Lemma add64_id (a b : Z) : 0 <= a + b <= MaxInt64 -> add64 a b = a + b.
Proof.
  intros H. unfold add64. apply wrap64_id. unfold in_int64, MinInt64. lia.
Qed.

Lemma fold_max_sums {U} (a b : U -> Z) (us : list U) (m : Z) :
  Forall (fun t => 0 <= t /\ t + Minute <= MaxInt64) (map (fun u => a u + b u) us) ->
  fold_left (fun m u => let x := add64 (a u) (b u) in if x >? m then x else m) us m
  = fold_left Z.max (map (fun u => a u + b u) us) m.
Proof.
  revert m. induction us as [|u us IH]; intros m Hall; [reflexivity|].
  cbn [map] in Hall. apply Forall_cons in Hall as [Hu Hall].
  cbn [fold_left map]. rewrite <- (IH _ Hall). f_equal.
  cbv zeta. rewrite add64_id by (unfold Minute, Second, Millisecond, Microsecond, Nanosecond in Hu; lia).
  rewrite Z.gtb_ltb. destruct (Z.ltb_spec m (a u + b u)); lia.
Qed.

Lemma maxClusters_sums (cs : list Cluster.t) (m : Z) :
  Forall (fun t => 0 <= t /\ t + Minute <= MaxInt64)
         (concat (map (fun c =>
                         map (fun u => ClusterUser.MaxExecutionTime u
                                       + ClusterUser.MaxQueueTime u)
                             (Cluster.ClusterUsers c)) cs)) ->
  maxClusters cs m
  = fold_left Z.max
      (concat (map (fun c =>
                      map (fun u => ClusterUser.MaxExecutionTime u
                                    + ClusterUser.MaxQueueTime u)
                          (Cluster.ClusterUsers c)) cs)) m.
Proof.
  revert m. unfold maxClusters. induction cs as [|c cs IH]; intros m Hall; [reflexivity|].
  cbn [map concat] in Hall |- *. apply Forall_app in Hall as [Hc Hall].
  cbn [fold_left]. rewrite fold_left_app. rewrite (IH _ Hall). f_equal.
  unfold maxClusterUsers. apply fold_max_sums. exact Hc.
Qed.

Lemma fold_left_max_spec (l : list Z) (m : Z) :
  m <= fold_left Z.max l m /\
  (forall x, x ∈ l -> x <= fold_left Z.max l m) /\
  (fold_left Z.max l m = m \/ fold_left Z.max l m ∈ l).
Proof.
  revert m. induction l as [|y l IH]; intros m; cbn [fold_left].
  - split; [lia|]. split; [|left; reflexivity]. intros x Hx. inversion Hx.
  - destruct (IH (Z.max m y)) as (H1 & H2 & H3). split; [lia|]. split.
    + intros x [-> | Hx]%elem_of_cons; [lia | auto].
    + destruct H3 as [H3 | H3].
      * destruct (Z.max_spec m y) as [[_ Hm] | [_ Hm]].
        -- right. rewrite H3, Hm. apply elem_of_cons. left. reflexivity.
        -- left. rewrite H3, Hm. reflexivity.
      * right. apply elem_of_cons. right. exact H3.
Qed.

Lemma fold_left_max_is_maximum (l : list Z) :
  l <> [] -> Forall (fun t => 0 <= t) l -> is_maximum (fold_left Z.max l 0) l.
Proof.
  intros Hne Hall. destruct (fold_left_max_spec l 0) as (H1 & H2 & H3).
  split; [|exact H2].
  destruct H3 as [H3 | H3]; [|exact H3].
  destruct l as [|y l]; [congruence|].
  assert (Hy : y = 0).
  { apply Forall_cons in Hall as [Hy _].
    specialize (H2 y ltac:(apply elem_of_cons; left; reflexivity)). lia. }
  rewrite H3, Hy. apply elem_of_cons. left. reflexivity.
Qed.

(** The end of [LoadFile], when no sum overflows. *)
Lemma setWriteTimeout_spec (cfg : Config.t) :
  Config.ListenAddr cfg <> "" -> Config.WriteTimeout cfg = 0 ->
  Config.Users cfg <> [] ->
  Forall (fun t => 0 <= t /\ t + Minute <= MaxInt64) (responseTimes cfg) ->
  exists m, is_maximum m (responseTimes cfg) /\
            setWriteTimeout cfg = Config.set_WriteTimeout (Minute + m) cfg.
Proof.
  intros Hl Hw Hu Hall.
  assert (Hne : responseTimes cfg <> []).
  { unfold responseTimes. destruct (Config.Users cfg); [congruence|].
    intros H. apply app_eq_nil in H as [_ H]. discriminate H. }
  assert (Hpos : Forall (fun t => 0 <= t) (responseTimes cfg)).
  { eapply Forall_impl; [exact Hall|]. cbv beta. intros t Ht. lia. }
  pose proof (fold_left_max_is_maximum _ Hne Hpos) as Hmax.
  exists (fold_left Z.max (responseTimes cfg) 0). split; [exact Hmax|].
  unfold responseTimes in Hall. apply Forall_app in Hall as [Hc Hus].
  unfold setWriteTimeout. cbv zeta.
  unfold maxUsers. rewrite (fold_max_sums _ _ _ _ Hus), (maxClusters_sums _ _ Hc).
  rewrite <- fold_left_app. fold (responseTimes cfg).
  set (m := fold_left Z.max (responseTimes cfg) 0) in *.
  assert (Hm : 0 <= m /\ m + Minute <= MaxInt64).
  { destruct Hmax as [Hin _]. unfold responseTimes in Hin.
    assert (Hall : Forall (fun t => 0 <= t /\ t + Minute <= MaxInt64) (responseTimes cfg))
      by (unfold responseTimes; apply Forall_app; auto).
    rewrite Forall_forall in Hall. apply Hall. exact Hin. }
  destruct (Z.ltb_spec m 0) as [Hneg | _]; [lia|].
  rewrite add64_id by (unfold Minute, Second, Millisecond, Microsecond, Nanosecond in *; lia).
  rewrite Hw, Z.eqb_refl.
  destruct (Config.ListenAddr cfg) eqn:Hla; [congruence|].
  cbn [String.length Nat.ltb Nat.leb andb]. f_equal. lia.
Qed.

Lemma Unmarshal_listening `{Out : Outside} (doc : option node) (cfg : Config.t) :
  Unmarshal doc Config.zero = inr cfg -> Config.ListenAddr cfg <> "" ->
  Config.Users cfg <> [].
Proof.
  intros H Hl. destruct doc as [n|]; cbn [Unmarshal] in H.
  - unfold unmarshal in H. destruct (is_null n).
    + injection H as <-. destruct Hl. reflexivity.
    + unfold Config.UnmarshalYAML in H. cbv zeta in H.
      apply bind_inr in H as (c1 & _ & H). cbv beta in H.
      destruct (Nat.eqb (length (Config.Users c1)) 0) eqn:Hu; [discriminate|].
      destruct (Nat.eqb (length (Config.Clusters c1)) 0); [discriminate|].
      destruct (Nat.eqb (String.length (HTTP.ListenAddr (Server.HTTP (Config.Server c1)))) 0);
        [discriminate|].
      apply bind_inr in H as (_ & _ & [= <-]).
      intros Heq. rewrite Heq in Hu. discriminate.
  - injection H as <-. destruct Hl. reflexivity.
Qed.

Lemma HTTP_field_ReadTimeout_other `{Out : Outside} k v c c' :
  k <> "read_timeout" -> HTTP.field k v c = inr c' ->
  HTTP.ReadTimeout c' = HTTP.ReadTimeout c.
Proof.
  intros Hne H. unfold HTTP.field in H. split_keys H; field_inv H; reflexivity.
Qed.

Lemma HTTP_field_ReadTimeout_key `{Out : Outside} v c c' :
  HTTP.field "read_timeout" v c = inr c' ->
  decode_Duration v = inr (HTTP.ReadTimeout c').
Proof.
  intros H. unfold HTTP.field in H. split_keys H. field_inv H. exact Hx.
Qed.

Lemma HTTP_field_IdleTimeout_other `{Out : Outside} k v c c' :
  k <> "idle_timeout" -> HTTP.field k v c = inr c' ->
  HTTP.IdleTimeout c' = HTTP.IdleTimeout c.
Proof.
  intros Hne H. unfold HTTP.field in H. split_keys H; field_inv H; reflexivity.
Qed.

Lemma HTTP_field_IdleTimeout_key `{Out : Outside} v c c' :
  HTTP.field "idle_timeout" v c = inr c' ->
  decode_Duration v = inr (HTTP.IdleTimeout c').
Proof.
  intros H. unfold HTTP.field in H. split_keys H. field_inv H. exact Hx.
Qed.

(** What [HTTP.UnmarshalYAML] returns: the struct as decoded, with the
    defaults of the read and idle timeouts in place of zero. *)
Lemma HTTP_UnmarshalYAML_inv `{Out : Outside} (n : node) (c c' : HTTP.t) :
  HTTP.UnmarshalYAML n c = inr c' ->
  exists c0,
    HTTP.plain n c = inr c0 /\
    HTTP.ReadTimeout c' = (if HTTP.ReadTimeout c0 =? 0 then Minute else HTTP.ReadTimeout c0) /\
    HTTP.IdleTimeout c' = (if HTTP.IdleTimeout c0 =? 0 then Minute * 10
                           else HTTP.IdleTimeout c0) /\
    HTTP.WriteTimeout c' = HTTP.WriteTimeout c0.
Proof.
  unfold HTTP.UnmarshalYAML. intros H.
  apply bind_inr in H as (c0 & Hplain & H). cbv beta zeta in H.
  apply bind_inr in H as (_ & _ & [= <-]). exists c0. split; [exact Hplain|].
  destruct (HTTP.ReadTimeout c0 =? 0) eqn:Hr.
  - destruct (HTTP.IdleTimeout (HTTP.set_ReadTimeout Minute c0) =? 0) eqn:Hi;
      change (HTTP.IdleTimeout (HTTP.set_ReadTimeout Minute c0))
        with (HTTP.IdleTimeout c0) in Hi; rewrite Hi; auto.
  - destruct (HTTP.IdleTimeout c0 =? 0) eqn:Hi; rewrite ?Hr; auto.
Qed.

(** Beyond int64 the sums wrap and are passed over: with an execution
    time and a queue time of 15250 weeks each, the write timeout is one
    minute. *)
Lemma setWriteTimeout_wraps :
  let u := User.set_MaxQueueTime (15250 * (7 * (24 * Hour)))
             (User.set_MaxExecutionTime (15250 * (7 * (24 * Hour))) User.zero) in
  let cfg := Config.set_Users [u]
               (Config.set_Server
                  (Server.set_HTTP (HTTP.set_ListenAddr ":8080" HTTP.zero) Server.zero)
                  Config.zero) in
  in_int64 (User.MaxExecutionTime u) /\
  Config.WriteTimeout (setWriteTimeout cfg) = Minute.
Proof. split; [split; intros H; vm_compute in H; discriminate H | vm_compute; reflexivity]. Qed.

Section Samples.

#[local] Existing Instance fixtures.lib.

(** Without the bound on the sums the write timeout is not one minute
    plus their maximum.  In this document the cluster user and the user
    each have an execution time and a queue time of 15250 weeks; every
    sum is beyond int64 and wraps to a negative value; the document has
    a listen address and no write timeout, [LoadFile] accepts it, and
    the write timeout is one minute: neither one minute plus the
    maximum of the sums, nor one minute plus the maximum of the wrapped
    sums, with or without wrap-around of that last addition. *)
Lemma LoadFile_timeouts_overflow :
  exists cfg0 cfg,
    Unmarshal (Some fixtures.long_queries) Config.zero = inr cfg0 /\
    Config.ListenAddr cfg0 = ":8080" /\ Config.WriteTimeout cfg0 = 0 /\
    LoadDocument (Some fixtures.long_queries) = inr cfg /\
    Config.WriteTimeout cfg = Minute /\
    (forall m, is_maximum m (responseTimes cfg0) ->
               MaxInt64 < m /\ Config.WriteTimeout cfg <> Minute + m) /\
    (forall m, is_maximum m (wrappedTimes cfg0) ->
               m < 0 /\ Config.WriteTimeout cfg <> Minute + m /\
               Config.WriteTimeout cfg <> add64 m Minute).
Proof.
  eexists. eexists.
  split; [vm_compute; reflexivity|].
  split; [reflexivity|]. split; [reflexivity|].
  split; [vm_compute; reflexivity|].
  split; [reflexivity|].
  split.
  - intros m [Hin _].
    match type of Hin with
    | _ ∈ ?l => let l' := eval vm_compute in l in change l with l' in Hin
    end.
    rewrite !elem_of_cons, elem_of_nil in Hin.
    destruct Hin as [-> | [-> | []]];
      (split; [reflexivity | intros H; vm_compute in H; discriminate H]).
  - intros m [Hin _].
    match type of Hin with
    | _ ∈ ?l => let l' := eval vm_compute in l in change l with l' in Hin
    end.
    rewrite !elem_of_cons, elem_of_nil in Hin.
    destruct Hin as [-> | [-> | []]];
      (split; [reflexivity|];
       split; intros H; vm_compute in H; discriminate H).
Qed.

End Samples.

(** C9. When the decoded configuration listens and has no write timeout,
    and no sum of an execution time and a queue time overflows,
    [LoadFile] returns the configuration with [WriteTimeout] set to one
    minute plus the maximum of those sums over the users of all clusters
    and the users, which is one minute when all the sums are zero;
    [HTTP.UnmarshalYAML] replaces a read timeout of zero by one minute
    and an idle timeout of zero by ten minutes, and [LoadFile] keeps
    both. *)
Theorem LoadFile_timeouts `{Out : Outside} :
  (forall doc cfg0,
      Unmarshal doc Config.zero = inr cfg0 ->
      Config.ListenAddr cfg0 <> "" -> Config.WriteTimeout cfg0 = 0 ->
      Forall (fun t => 0 <= t /\ t + Minute <= MaxInt64) (responseTimes cfg0) ->
      exists m, is_maximum m (responseTimes cfg0) /\
                LoadDocument doc = inr (Config.set_WriteTimeout (Minute + m) cfg0) /\
                (Forall (fun t => t = 0) (responseTimes cfg0) ->
                 LoadDocument doc = inr (Config.set_WriteTimeout Minute cfg0))) /\
  (forall kvs c c',
      HTTP.UnmarshalYAML (MappingNode kvs) c = inr c' ->
      exists c0,
        HTTP.plain (MappingNode kvs) c = inr c0 /\
        match mapping_get "read_timeout" kvs with
        | None => HTTP.ReadTimeout c0 = HTTP.ReadTimeout c
        | Some v => decode_Duration v = inr (HTTP.ReadTimeout c0)
        end /\
        match mapping_get "idle_timeout" kvs with
        | None => HTTP.IdleTimeout c0 = HTTP.IdleTimeout c
        | Some v => decode_Duration v = inr (HTTP.IdleTimeout c0)
        end /\
        (HTTP.ReadTimeout c0 = 0 -> HTTP.ReadTimeout c' = Minute) /\
        (HTTP.IdleTimeout c0 = 0 -> HTTP.IdleTimeout c' = 10 * Minute) /\
        (HTTP.ReadTimeout c0 <> 0 -> HTTP.ReadTimeout c' = HTTP.ReadTimeout c0) /\
        (HTTP.IdleTimeout c0 <> 0 -> HTTP.IdleTimeout c' = HTTP.IdleTimeout c0)) /\
  (forall cfg0,
      Config.ReadTimeout (setWriteTimeout cfg0) = Config.ReadTimeout cfg0 /\
      Config.IdleTimeout (setWriteTimeout cfg0) = Config.IdleTimeout cfg0) /\
  (exists cfg,
      LoadDocument (Some fixtures.default_values) = inr cfg /\
      Config.WriteTimeout cfg = Minute /\ Config.ReadTimeout cfg = Minute /\
      Config.IdleTimeout cfg = 10 * Minute).
Proof.
  split; [|split; [|split]].
  - intros doc cfg0 Hum Hl Hw Hall.
    pose proof (Unmarshal_listening _ _ Hum Hl) as Hu.
    destruct (setWriteTimeout_spec cfg0 Hl Hw Hu Hall) as (m & Hmax & Hset).
    exists m. split; [exact Hmax|].
    assert (Hload : LoadDocument doc = inr (Config.set_WriteTimeout (Minute + m) cfg0)).
    { unfold LoadDocument. rewrite Hum. cbn [bind]. rewrite Hset. reflexivity. }
    split; [exact Hload|].
    intros Hzero. rewrite Hload. destruct Hmax as [Hin _].
    rewrite Forall_forall in Hzero. rewrite (Hzero _ Hin), Z.add_0_r. reflexivity.
  - intros kvs c c' H.
    apply HTTP_UnmarshalYAML_inv in H as (c0 & Hplain & Hr & Hi & _).
    exists c0. split; [exact Hplain|].
    unfold HTTP.plain, mappingStruct in Hplain.
    split.
    { exact (fold_fields_get HTTP.field HTTP.ReadTimeout "read_timeout" decode_Duration
               HTTP_field_ReadTimeout_other HTTP_field_ReadTimeout_key _ _ _ Hplain). }
    split.
    { exact (fold_fields_get HTTP.field HTTP.IdleTimeout "idle_timeout" decode_Duration
               HTTP_field_IdleTimeout_other HTTP_field_IdleTimeout_key _ _ _ Hplain). }
    repeat split.
    + intros Hz. rewrite Hr, Hz. reflexivity.
    + intros Hz. rewrite Hi, Hz. reflexivity.
    + intros Hz. rewrite Hr. destruct (Z.eqb_spec (HTTP.ReadTimeout c0) 0); congruence.
    + intros Hz. rewrite Hi. destruct (Z.eqb_spec (HTTP.IdleTimeout c0) 0); congruence.
  - apply setWriteTimeout_ReadTimeout.
  - eexists. repeat split.
Qed.

Section Samples.

#[local] Existing Instance fixtures.lib.

(** Witness of C9: the configuration of [TestConfigTimeouts] with the
    comment "10 + 1 minute", a user whose query may run for ten minutes. *)
Lemma LoadFile_timeouts_witness :
  exists cfg,
    LoadDocument
      (Some (MappingNode
               [ ("server", fixtures.a_server);
                 ("users",
                   SequenceNode
                     [ MappingNode [ ("name", str "default"); ("to_cluster", str "cluster");
                                     ("to_user", str "default");
                                     ("max_execution_time", str "10m") ] ]);
                 ("clusters",
                   SequenceNode
                     [ MappingNode [ ("name", str "cluster");
                                     ("nodes", SequenceNode [ str "127.0.0.1:8123" ]) ] ]) ]))
    = inr cfg /\
    Config.WriteTimeout cfg = 11 * Minute.
Proof.
  destruct LoadFile_timeouts as (Hw & _).
  match goal with
  | |- exists cfg, LoadDocument ?doc = _ /\ _ =>
      destruct (Hw doc
                  (match Unmarshal doc Config.zero with
                   | inr c => c
                   | inl _ => Config.zero
                   end))
        as (m & [Hin Hmax] & Hload & _)
  end.
  - reflexivity.
  - discriminate.
  - reflexivity.
  - repeat constructor; discriminate.
  - eexists. split; [exact Hload|].
    change (Minute + m = 11 * Minute).
    match type of Hin with
    | _ ∈ ?l => assert (Hl : l = [0; 10 * Minute]) by reflexivity;
                rewrite Hl in Hin, Hmax
    end.
    rewrite !elem_of_cons, elem_of_nil in Hin.
    destruct Hin as [-> | [-> | []]].
    + specialize (Hmax (10 * Minute)).
      rewrite !elem_of_cons in Hmax. specialize (Hmax ltac:(tauto)). destruct Hmax. reflexivity.
    + reflexivity.
Defined.

End Samples.

(** * Further properties *)

(** ** The decoder, continued *)

(** After [d.mappingStruct], a field that only its own key writes holds
    what the last entry with that key left there, or the value it had. *)
Lemma fold_fields_post {T F} (field : string -> node -> T -> Res T)
    (proj : T -> F) (k0 : string) (P : node -> F -> Prop) :
  (forall k v c c', k <> k0 -> field k v c = inr c' -> proj c' = proj c) ->
  (forall v c c', field k0 v c = inr c' -> P v (proj c')) ->
  forall kvs c c', fold_fields field kvs c = inr c' ->
    match mapping_get k0 kvs with
    | None => proj c' = proj c
    | Some v => P v (proj c')
    end.
Proof.
  intros Hother Hkey kvs. induction kvs as [|[k v] kvs IH]; intros c c'; cbn.
  - intros [= <-]. reflexivity.
  - intros H. apply bind_inr in H as (c1 & H1 & H).
    specialize (IH _ _ H).
    destruct (mapping_get k0 kvs) as [v'|]; [exact IH|].
    destruct (String.eqb_spec k k0) as [-> | Hne].
    + rewrite IH. eapply Hkey; eauto.
    + rewrite IH. eapply Hother; eauto.
Qed.

Lemma fold_fields_invariant {T} (field : string -> node -> T -> Res T) (P : T -> Prop) :
  (forall k v c c', P c -> field k v c = inr c' -> P c') ->
  forall kvs c c', P c -> fold_fields field kvs c = inr c' -> P c'.
Proof.
  intros Hstep kvs. induction kvs as [|[k v] kvs IH]; intros c c' Hc; cbn.
  - intros [= <-]. exact Hc.
  - intros H. apply bind_inr in H as (c1 & H1 & H).
    apply (IH c1 c'); [exact (Hstep _ _ _ _ Hc H1) | exact H].
Qed.

Lemma sequence_entry {T} (dec : node -> Res T) (v : node) (xs : list T)
    (i : nat) (n : node) :
  sequence dec v = inr xs ->
  match v with SequenceNode l => l | _ => [] end !! i = Some n ->
  exists x, xs !! i = Some x /\ dec n = inr x.
Proof.
  intros H Hi. destruct v as [| l |]; try (rewrite lookup_nil in Hi; discriminate).
  cbn [sequence] in H. apply mapM_lookup in H as [_ H]. eauto.
Qed.

Lemma sequence_length {T} (dec : node -> Res T) (l : list node) (xs : list T) :
  sequence dec (SequenceNode l) = inr xs -> length xs = length l.
Proof. cbn [sequence]. intros H. apply mapM_lookup in H as [H _]. exact H. Qed.

Lemma mappingStruct_mapping {T} (reset : T -> T) (field : string -> node -> T -> Res T)
    (n : node) (c c' : T) :
  mappingStruct reset field n c = inr c' ->
  exists kvs, n = MappingNode kvs /\ fold_fields field kvs (reset c) = inr c'.
Proof. destruct n; cbn; try discriminate. eauto. Qed.

(** ** The top level of a document *)

Lemma Config_field_Users_other `{Out : Outside} k v c c' :
  k <> "users" -> Config.field k v c = inr c' -> Config.Users c' = Config.Users c.
Proof.
  intros Hne H. unfold Config.field in H. split_keys H; field_inv H; reflexivity.
Qed.

Lemma Config_field_Users_key `{Out : Outside} v c c' :
  Config.field "users" v c = inr c' -> sequence User.decode v = inr (Config.Users c').
Proof. intros H. unfold Config.field in H. split_keys H. field_inv H. exact Hx. Qed.

Lemma Config_field_Caches_other `{Out : Outside} k v c c' :
  k <> "caches" -> Config.field k v c = inr c' -> Config.Caches c' = Config.Caches c.
Proof.
  intros Hne H. unfold Config.field in H. split_keys H; field_inv H; reflexivity.
Qed.

Lemma Config_field_Caches_key `{Out : Outside} v c c' :
  Config.field "caches" v c = inr c' -> sequence Cache.decode v = inr (Config.Caches c').
Proof. intros H. unfold Config.field in H. split_keys H. field_inv H. exact Hx. Qed.

Lemma Config_field_ParamGroups_other `{Out : Outside} k v c c' :
  k <> "param_groups" -> Config.field k v c = inr c' ->
  Config.ParamGroups c' = Config.ParamGroups c.
Proof.
  intros Hne H. unfold Config.field in H. split_keys H; field_inv H; reflexivity.
Qed.

Lemma Config_field_ParamGroups_key `{Out : Outside} v c c' :
  Config.field "param_groups" v c = inr c' ->
  sequence ParamGroup.decode v = inr (Config.ParamGroups c').
Proof. intros H. unfold Config.field in H. split_keys H. field_inv H. exact Hx. Qed.

Lemma Config_field_Server_other `{Out : Outside} k v c c' :
  k <> "server" -> Config.field k v c = inr c' -> Config.Server c' = Config.Server c.
Proof.
  intros Hne H. unfold Config.field in H. split_keys H; field_inv H; reflexivity.
Qed.

Lemma LoadDocument_mapping `{Out : Outside} (kvs : list (string * node)) :
  LoadDocument (Some (MappingNode kvs))
  = bind (Config.plain (MappingNode kvs) Config.defaultConfig) (fun c =>
      if (length (Config.Users c) =? 0)%nat
      then fail (Errorf "`users` must contain at least 1 user")
      else if (length (Config.Clusters c) =? 0)%nat
      then fail (Errorf "`clusters` must contain at least 1 cluster")
      else if (String.length (Config.ListenAddr c) =? 0)%nat
      then fail (Errorf "HTTP is not configured")
      else bind (checkOverflow (Config.XXX c) "config") (fun _ => ret (setWriteTimeout c))).
Proof.
  unfold LoadDocument. cbn [Unmarshal unmarshal is_null]. unfold Config.UnmarshalYAML.
  cbv zeta. destruct (Config.plain (MappingNode kvs) Config.defaultConfig) as [e | c];
    [reflexivity|].
  cbn [bind]. unfold Config.ListenAddr.
  destruct (length (Config.Users c) =? 0)%nat; [reflexivity|].
  destruct (length (Config.Clusters c) =? 0)%nat; [reflexivity|].
  destruct (String.length _ =? 0)%nat; [reflexivity|].
  destruct (checkOverflow (Config.XXX c) "config"); reflexivity.
Qed.

(** X1. The sections a document must have.  For a mapping whose entries
    all decode: when it has no [users] key, or a [users] value that
    decodes to no user, [LoadFile] fails with the error of the users;
    when it has users and a [clusters] value that decodes to no cluster,
    with the error of the clusters; when it has users and clusters and
    no [server] key, with [HTTP is not configured]. *)
Theorem LoadDocument_required_sections `{Out : Outside}
    (kvs : list (string * node)) (c0 : Config.t) :
  Config.plain (MappingNode kvs) Config.defaultConfig = inr c0 ->
  (mapping_get "users" kvs = None \/
   (exists v, mapping_get "users" kvs = Some v /\ sequence User.decode v = inr []) ->
   LoadDocument (Some (MappingNode kvs))
   = inl (Errorf "`users` must contain at least 1 user")) /\
  (Config.Users c0 <> [] ->
   (exists v, mapping_get "clusters" kvs = Some v /\ sequence Cluster.decode v = inr []) ->
   LoadDocument (Some (MappingNode kvs))
   = inl (Errorf "`clusters` must contain at least 1 cluster")) /\
  (Config.Users c0 <> [] -> Config.Clusters c0 <> [] ->
   mapping_get "server" kvs = None ->
   LoadDocument (Some (MappingNode kvs)) = inl (Errorf "HTTP is not configured")).
Proof.
  intros Hplain. rewrite LoadDocument_mapping, Hplain. cbn [bind].
  pose proof Hplain as Hfold. unfold Config.plain, mappingStruct in Hfold.
  split; [|split].
  - intros Hkey.
    pose proof (fold_fields_get Config.field Config.Users "users" (sequence User.decode)
                  Config_field_Users_other Config_field_Users_key _ _ _ Hfold) as Hu.
    assert (Hnil : Config.Users c0 = []).
    { destruct Hkey as [Hk | (v & Hk & Hv)]; rewrite Hk in Hu.
      - rewrite Hu. reflexivity.
      - rewrite Hv in Hu. injection Hu as <-. reflexivity. }
    rewrite Hnil. reflexivity.
  - intros Hu (v & Hk & Hv).
    pose proof (fold_fields_get Config.field Config.Clusters "clusters"
                  (sequence Cluster.decode)
                  Config_field_Clusters_other Config_field_Clusters_key _ _ _ Hfold) as Hc.
    rewrite Hk, Hv in Hc. injection Hc as Hc.
    destruct (Config.Users c0); [congruence|]. rewrite <- Hc. reflexivity.
  - intros Hu Hc Hk.
    pose proof (fold_fields_post Config.field Config.Server "server" (fun _ _ => True)
                  Config_field_Server_other (fun _ _ _ _ => I) _ _ _ Hfold) as Hs.
    rewrite Hk in Hs.
    destruct (Config.Users c0); [congruence|].
    destruct (Config.Clusters c0); [congruence|].
    unfold Config.ListenAddr. rewrite Hs. reflexivity.
Qed.

Section Samples.

#[local] Existing Instance fixtures.lib.

(** Witness of X1: a document with only a server, one with users and an
    empty list of clusters, and one with users and no server. *)
Lemma LoadDocument_required_sections_witness :
  LoadDocument (Some (MappingNode [ ("server", fixtures.a_server) ]))
  = inl (Errorf "`users` must contain at least 1 user") /\
  LoadDocument (Some (MappingNode [ ("users", SequenceNode [ fixtures.a_user ]);
                                    ("clusters", SequenceNode []) ]))
  = inl (Errorf "`clusters` must contain at least 1 cluster") /\
  LoadDocument (Some (MappingNode [ ("users", SequenceNode [ fixtures.a_user ]) ]))
  = inl (Errorf "HTTP is not configured").
Proof.
  split; [|split].
  - eapply (LoadDocument_required_sections [ ("server", fixtures.a_server) ]);
      [reflexivity | left; reflexivity].
  - eapply (LoadDocument_required_sections
              [ ("users", SequenceNode [ fixtures.a_user ]);
                ("clusters", SequenceNode []) ]);
      [reflexivity | discriminate | eexists; split; reflexivity].
  - eapply (LoadDocument_required_sections
              [ ("users", SequenceNode [ fixtures.a_user ]) ]);
      [reflexivity | discriminate | discriminate | reflexivity].
Defined.

End Samples.

(** The two ways in which [LoadFile] accepts a content. *)
Lemma LoadDocument_inv `{Out : Outside} (doc : option node) (cfg : Config.t) :
  LoadDocument doc = inr cfg ->
  ((doc = None \/ exists n, doc = Some n /\ is_null n = true) /\
   cfg = Config.zero /\ Config.ListenAddr cfg = "") \/
  ((exists n, doc = Some n /\ is_null n = false) /\
   Config.Users cfg <> [] /\ Config.Clusters cfg <> [] /\ Config.ListenAddr cfg <> "").
Proof.
  unfold LoadDocument. intros H. apply bind_inr in H as (c0 & Hum & [= <-]).
  destruct doc as [n|]; cbn [Unmarshal] in Hum.
  - unfold unmarshal in Hum. destruct (is_null n) eqn:Hnull.
    + injection Hum as <-. left. split; [right; eauto|]. split; reflexivity.
    + right. split; [eauto|].
      unfold Config.UnmarshalYAML in Hum. cbv zeta in Hum.
      apply bind_inr in Hum as (c1 & _ & H). cbv beta in H.
      destruct (Nat.eqb (length (Config.Users c1)) 0) eqn:Hu; [discriminate|].
      destruct (Nat.eqb (length (Config.Clusters c1)) 0) eqn:Hc; [discriminate|].
      destruct (Nat.eqb (String.length (HTTP.ListenAddr (Server.HTTP (Config.Server c1)))) 0)
        eqn:Hl; [discriminate|].
      apply bind_inr in H as (_ & _ & [= <-]).
      assert (Hla : Config.ListenAddr (setWriteTimeout c1) = Config.ListenAddr c1)
        by (destruct (setWriteTimeout_cases c1) as [-> | [x ->]]; reflexivity).
      assert (Hus : Config.Users (setWriteTimeout c1) = Config.Users c1)
        by (destruct (setWriteTimeout_cases c1) as [-> | [x ->]]; reflexivity).
      rewrite setWriteTimeout_Clusters, Hla, Hus. repeat split.
      * intros Heq. rewrite Heq in Hu. discriminate.
      * intros Heq. rewrite Heq in Hc. discriminate.
      * unfold Config.ListenAddr. intros Heq. rewrite Heq in Hl. discriminate.
  - injection Hum as <-. left. split; [left; reflexivity|]. split; reflexivity.
Qed.

(** X2. What [LoadFile] accepts.  A content without a document, or whose
    document is null, is accepted and gives the zero configuration, which
    has no listen address; every other accepted document gives a
    configuration with at least one user, at least one cluster and a
    listen address. *)
Theorem LoadDocument_accepted `{Out : Outside} (doc : option node) (cfg : Config.t) :
  LoadDocument doc = inr cfg ->
  ((doc = None \/ exists n, doc = Some n /\ is_null n = true) /\
   cfg = Config.zero /\ Config.ListenAddr cfg = "") \/
  ((exists n, doc = Some n /\ is_null n = false) /\
   Config.Users cfg <> [] /\ Config.Clusters cfg <> [] /\ Config.ListenAddr cfg <> "").
Proof. exact (LoadDocument_inv doc cfg). Qed.

Section Samples.

#[local] Existing Instance fixtures.lib.

(** Witness of X2: the empty content and the "default values". *)
Lemma LoadDocument_accepted_witness :
  LoadDocument None = inr Config.zero /\
  Config.Users fixtures.default_values_cfg <> [].
Proof.
  split; [reflexivity|].
  destruct (LoadDocument_accepted (Some fixtures.default_values) fixtures.default_values_cfg
              eq_refl) as [(_ & H & _) | (_ & H & _)].
  - discriminate H.
  - exact H.
Defined.

End Samples.

(** ** The write timeout, without conditions *)

Lemma gtb_max (x m : Z) : (if x >? m then x else m) = Z.max m x.
Proof. rewrite Z.gtb_ltb. destruct (Z.ltb_spec m x); lia. Qed.

Lemma fold_max_wrapped {U} (g : U -> Z) (us : list U) (m : Z) :
  fold_left (fun m u => let x := g u in if x >? m then x else m) us m
  = fold_left Z.max (map g us) m.
Proof.
  revert m. induction us as [|u us IH]; intros m; [reflexivity|].
  cbn [fold_left map]. rewrite <- IH. cbv zeta. rewrite gtb_max. reflexivity.
Qed.

Lemma maxResponseTime_fold (cfg : Config.t) :
  maxUsers (Config.Users cfg) (maxClusters (Config.Clusters cfg) 0)
  = fold_left Z.max (wrappedTimes cfg) 0.
Proof.
  unfold wrappedTimes, maxUsers. rewrite fold_left_app.
  rewrite (fold_max_wrapped
             (fun u => add64 (User.MaxExecutionTime u) (User.MaxQueueTime u))).
  f_equal. generalize 0. unfold maxClusters.
  induction (Config.Clusters cfg) as [|c cs IH]; intros m; [reflexivity|].
  cbn [fold_left map concat]. rewrite fold_left_app, IH. f_equal.
  unfold maxClusterUsers.
  apply (fold_max_wrapped
           (fun u => add64 (ClusterUser.MaxExecutionTime u) (ClusterUser.MaxQueueTime u))).
Qed.

Lemma wrappedTimes_range (cfg : Config.t) (x : Z) :
  x ∈ wrappedTimes cfg -> in_int64 x.
Proof.
  unfold wrappedTimes. rewrite elem_of_app. intros [H | H].
  - apply list_elem_of_In, in_concat in H as (l & Hl & Hx).
    apply in_map_iff in Hl as (c & <- & _).
    apply in_map_iff in Hx as (u & <- & _). apply wrap64_range.
  - apply list_elem_of_In, in_map_iff in H as (u & <- & _). apply wrap64_range.
Qed.

Lemma maxResponseTime_range (cfg : Config.t) :
  0 <= fold_left Z.max (wrappedTimes cfg) 0 <= MaxInt64.
Proof.
  destruct (fold_left_max_spec (wrappedTimes cfg) 0) as (H1 & _ & H3).
  split; [exact H1|].
  destruct H3 as [-> | H3]; [unfold MaxInt64; lia|].
  apply wrappedTimes_range in H3. apply H3.
Qed.

(** One minute more than a non-negative int64 is never zero, even when
    the sum wraps. *)
Lemma add64_Minute_nonzero (m : Z) : 0 <= m <= MaxInt64 -> add64 m Minute <> 0.
Proof.
  unfold add64, wrap64, MaxInt64, Minute, Second, Millisecond, Microsecond, Nanosecond.
  intros Hm.
  destruct (Z_lt_le_dec (m + 60000000000 + 2 ^ 63) (2 ^ 64)) as [Hlt | Hge].
  - rewrite Z.mod_small by lia. lia.
  - replace (m + 60 * (1000 * (1000 * (1000 * 1))) + 2 ^ 63)
      with ((m + 60000000000 + 2 ^ 63 - 2 ^ 64) + 1 * 2 ^ 64) by lia.
    rewrite Z.mod_add by lia. rewrite Z.mod_small by lia. lia.
Qed.

Lemma set_WriteTimeout_same (cfg : Config.t) :
  Config.set_WriteTimeout (Config.WriteTimeout cfg) cfg = cfg.
Proof. destruct cfg as [[[a [r w i] x] y] c u l ca p z]. reflexivity. Qed.

Lemma setWriteTimeout_eq (cfg : Config.t) :
  setWriteTimeout cfg
  = if (0 <? String.length (Config.ListenAddr cfg))%nat && (Config.WriteTimeout cfg =? 0)
    then Config.set_WriteTimeout
           (add64 (fold_left Z.max (wrappedTimes cfg) 0) Minute) cfg
    else cfg.
Proof.
  unfold setWriteTimeout. cbv zeta. rewrite maxResponseTime_fold.
  destruct (Z.ltb_spec (fold_left Z.max (wrappedTimes cfg) 0) 0) as [Hneg | _];
    [pose proof (maxResponseTime_range cfg); lia | reflexivity].
Qed.

(** X3. [LoadFile] changes nothing of the decoded configuration but the
    write timeout of the server; it keeps a write timeout that is set,
    and the configuration of a server without listen address; doing it
    twice is doing it once. *)
Theorem setWriteTimeout_only_WriteTimeout (cfg : Config.t) :
  setWriteTimeout cfg
  = Config.set_WriteTimeout (Config.WriteTimeout (setWriteTimeout cfg)) cfg /\
  (Config.WriteTimeout cfg <> 0 \/ Config.ListenAddr cfg = "" ->
   setWriteTimeout cfg = cfg) /\
  setWriteTimeout (setWriteTimeout cfg) = setWriteTimeout cfg.
Proof.
  pose proof (setWriteTimeout_eq cfg) as Heq.
  destruct ((0 <? String.length (Config.ListenAddr cfg))%nat
            && (Config.WriteTimeout cfg =? 0)) eqn:Hc; rewrite Heq.
  - split; [reflexivity|]. split.
    + apply andb_true_iff in Hc as [Hl Hw]. apply Z.eqb_eq in Hw.
      intros [H | H]; [congruence|]. rewrite H in Hl. discriminate.
    + rewrite setWriteTimeout_eq.
      change (Config.WriteTimeout (Config.set_WriteTimeout ?x cfg)) with x.
      destruct (Z.eqb_spec (add64 (fold_left Z.max (wrappedTimes cfg) 0) Minute) 0)
        as [Hz | _].
      * destruct (add64_Minute_nonzero _ (maxResponseTime_range cfg) Hz).
      * rewrite andb_false_r. reflexivity.
  - split; [symmetry; apply set_WriteTimeout_same|]. split; [reflexivity|].
    rewrite Heq. reflexivity.
Qed.

(** Witness of X3: a configuration with a write timeout of ten minutes. *)
Lemma setWriteTimeout_only_WriteTimeout_witness :
  setWriteTimeout samples.full_cfg = samples.full_cfg.
Proof.
  destruct (setWriteTimeout_only_WriteTimeout samples.full_cfg) as (_ & H & _).
  apply H. left. intros Hz. vm_compute in Hz. discriminate Hz.
Defined.

(** X4. The response time that [LoadFile] computes is the greatest of 0
    and of the int64 sums of execution time and queue time of all cluster
    users and users; it is never negative, so the reset of a negative
    value never happens; when the configuration listens and has no write
    timeout, the write timeout becomes that value plus one minute in
    int64, which is not zero. *)
Theorem maxResponseTime_exact (cfg : Config.t) :
  let m := maxUsers (Config.Users cfg) (maxClusters (Config.Clusters cfg) 0) in
  0 <= m <= MaxInt64 /\
  (forall x, x ∈ wrappedTimes cfg -> x <= m) /\
  (m = 0 \/ m ∈ wrappedTimes cfg) /\
  (Config.ListenAddr cfg <> "" -> Config.WriteTimeout cfg = 0 ->
   Config.WriteTimeout (setWriteTimeout cfg) = add64 m Minute /\
   Config.WriteTimeout (setWriteTimeout cfg) <> 0).
Proof.
  cbv zeta. rewrite maxResponseTime_fold.
  pose proof (maxResponseTime_range cfg) as Hr.
  destruct (fold_left_max_spec (wrappedTimes cfg) 0) as (_ & H2 & H3).
  split; [exact Hr|]. split; [exact H2|]. split; [exact H3|].
  intros Hl Hw. rewrite setWriteTimeout_eq, Hw, Z.eqb_refl.
  destruct (Config.ListenAddr cfg) eqn:Hla; [congruence|].
  cbn [String.length Nat.ltb Nat.leb andb].
  change (Config.WriteTimeout (Config.set_WriteTimeout ?x cfg)) with x.
  split; [reflexivity | apply add64_Minute_nonzero; exact Hr].
Qed.

(** Witness of X4: the "default values", where every sum is zero. *)
Lemma maxResponseTime_exact_witness :
  Config.WriteTimeout
    (setWriteTimeout (Config.set_WriteTimeout 0 fixtures.default_values_cfg))
  = Minute.
Proof.
  destruct (maxResponseTime_exact (Config.set_WriteTimeout 0 fixtures.default_values_cfg))
    as (_ & _ & _ & H).
  destruct H as [H _]; [discriminate | reflexivity|].
  rewrite H. vm_compute. reflexivity.
Defined.

(** ** The timeouts of the server *)

Lemma HTTP_UnmarshalYAML_timeouts `{Out : Outside} (n : node) (c c' : HTTP.t) :
  HTTP.UnmarshalYAML n c = inr c' ->
  HTTP.ReadTimeout c' <> 0 /\ HTTP.IdleTimeout c' <> 0.
Proof.
  intros H. apply HTTP_UnmarshalYAML_inv in H as (c0 & _ & Hr & Hi & _).
  rewrite Hr, Hi. split.
  - destruct (Z.eqb_spec (HTTP.ReadTimeout c0) 0); [discriminate | assumption].
  - destruct (Z.eqb_spec (HTTP.IdleTimeout c0) 0); [discriminate | assumption].
Qed.

Lemma Server_field_timeouts `{Out : Outside} k v s s' :
  timeouts_set (Server.HTTP s) -> Server.field k v s = inr s' ->
  timeouts_set (Server.HTTP s').
Proof.
  intros Hs H. unfold Server.field in H.
  destruct (String.eqb k "http").
  - apply bind_inr in H as (x & Hx & [= <-]). cbn.
    unfold unmarshal in Hx. destruct (is_null v).
    + injection Hx as <-. intros Hl. destruct Hl. reflexivity.
    + intros _. eapply HTTP_UnmarshalYAML_timeouts. exact Hx.
  - injection H as <-. exact Hs.
Qed.

Lemma Server_UnmarshalYAML_timeouts `{Out : Outside} (n : node) (s s' : Server.t) :
  timeouts_set (Server.HTTP s) -> Server.UnmarshalYAML n s = inr s' ->
  timeouts_set (Server.HTTP s').
Proof.
  intros Hs H. unfold Server.UnmarshalYAML in H.
  apply bind_inr in H as (s0 & Hplain & H).
  apply bind_inr in H as (_ & _ & [= <-]).
  unfold Server.plain in Hplain.
  apply mappingStruct_mapping in Hplain as (kvs & _ & Hfold).
  exact (fold_fields_invariant Server.field (fun s => timeouts_set (Server.HTTP s))
           Server_field_timeouts kvs (Server.set_XXX ∅ s) s0 Hs Hfold).
Qed.

Lemma Config_field_timeouts `{Out : Outside} k v c c' :
  timeouts_set (Server.HTTP (Config.Server c)) -> Config.field k v c = inr c' ->
  timeouts_set (Server.HTTP (Config.Server c')).
Proof.
  intros Hc H.
  destruct (String.eqb_spec k "server") as [-> | Hne].
  - unfold Config.field in H. cbn [String.eqb Ascii.eqb Bool.eqb] in H.
    change (String.eqb "server" "server") with true in H. cbv iota in H.
    apply bind_inr in H as (x & Hx & [= <-]). cbn.
    unfold unmarshal in Hx. destruct (is_null v).
    + injection Hx as <-. intros Hl. destruct Hl. reflexivity.
    + eapply Server_UnmarshalYAML_timeouts; eauto.
  - rewrite (Config_field_Server_other _ _ _ _ Hne H). exact Hc.
Qed.

(** The three timeouts of a configuration that [LoadFile] returns with a
    listen address. *)
Lemma LoadDocument_timeouts_set `{Out : Outside} (doc : option node) (cfg : Config.t) :
  LoadDocument doc = inr cfg -> Config.ListenAddr cfg <> "" ->
  Config.ReadTimeout cfg <> 0 /\ Config.WriteTimeout cfg <> 0 /\
  Config.IdleTimeout cfg <> 0.
Proof.
  unfold LoadDocument. intros H Hl. apply bind_inr in H as (c0 & Hum & [= <-]).
  assert (Hla : Config.ListenAddr (setWriteTimeout c0) = Config.ListenAddr c0)
    by (destruct (setWriteTimeout_cases c0) as [-> | [x ->]]; reflexivity).
  rewrite Hla in Hl.
  assert (Hset : timeouts_set (Server.HTTP (Config.Server c0))).
  { destruct doc as [n|]; cbn [Unmarshal] in Hum.
    - unfold unmarshal in Hum. destruct (is_null n).
      + injection Hum as <-. destruct Hl. reflexivity.
      + unfold Config.UnmarshalYAML in Hum. cbv zeta in Hum.
        apply bind_inr in Hum as (c1 & Hplain & H). cbv beta in H.
        destruct (Nat.eqb (length (Config.Users c1)) 0); [discriminate|].
        destruct (Nat.eqb (length (Config.Clusters c1)) 0); [discriminate|].
        destruct (Nat.eqb (String.length (HTTP.ListenAddr (Server.HTTP (Config.Server c1)))) 0);
          [discriminate|].
        apply bind_inr in H as (_ & _ & [= <-]).
        unfold Config.plain in Hplain.
        apply mappingStruct_mapping in Hplain as (kvs & _ & Hfold).
        refine (fold_fields_invariant Config.field
                  (fun c => timeouts_set (Server.HTTP (Config.Server c)))
                  Config_field_timeouts kvs (Config.set_XXX ∅ Config.defaultConfig) c1
                  _ Hfold).
        intros Hne. destruct Hne. reflexivity.
    - injection Hum as <-. destruct Hl. reflexivity. }
  destruct (Hset Hl) as [Hr Hi].
  destruct (setWriteTimeout_ReadTimeout c0) as [-> ->].
  split; [exact Hr|]. split; [|exact Hi].
  destruct (Z.eq_dec (Config.WriteTimeout c0) 0) as [Hw | Hw].
  - rewrite setWriteTimeout_eq, Hw, Z.eqb_refl.
    destruct (Config.ListenAddr c0) eqn:Hla0; [congruence|].
    cbn [String.length Nat.ltb Nat.leb andb].
    apply add64_Minute_nonzero, maxResponseTime_range.
  - rewrite setWriteTimeout_eq, (proj2 (Z.eqb_neq _ _) Hw), andb_false_r. exact Hw.
Qed.

(** X5. Every configuration that [LoadFile] returns with a listen address
    has a read timeout, a write timeout and an idle timeout that are not
    zero. *)
Theorem LoadDocument_timeouts_nonzero `{Out : Outside} (doc : option node) (cfg : Config.t) :
  LoadDocument doc = inr cfg -> Config.ListenAddr cfg <> "" ->
  Config.ReadTimeout cfg <> 0 /\ Config.WriteTimeout cfg <> 0 /\
  Config.IdleTimeout cfg <> 0.
Proof. exact (LoadDocument_timeouts_set doc cfg). Qed.

Section Samples.

#[local] Existing Instance fixtures.lib.

(** Witness of X5: the "default values". *)
Lemma LoadDocument_timeouts_nonzero_witness :
  Config.WriteTimeout fixtures.default_values_cfg <> 0.
Proof.
  destruct (LoadDocument_timeouts_nonzero (Some fixtures.default_values)
              fixtures.default_values_cfg eq_refl) as (_ & H & _).
  - discriminate.
  - exact H.
Defined.

End Samples.

(** ** What the methods have checked *)

Lemma User_UnmarshalYAML_inv `{Out : Outside} (n : node) (u u' : User.t) :
  User.UnmarshalYAML n u = inr u' ->
  User.plain n u = inr u' /\
  User.Name u' <> "" /\ User.ToUser u' <> "" /\ User.ToCluster u' <> "" /\
  (User.DenyHTTP u' = true -> User.DenyHTTPS u' = false) /\
  (0 < User.MaxQueueTime u' -> User.MaxQueueSize u' <> 0).
Proof.
  unfold User.UnmarshalYAML. intros H.
  apply bind_inr in H as (u0 & Hplain & H). cbv beta in H.
  destruct (Nat.eqb (String.length (User.Name u0)) 0) eqn:Hn; [discriminate|].
  destruct (Nat.eqb (String.length (User.ToUser u0)) 0) eqn:Htu; [discriminate|].
  destruct (Nat.eqb (String.length (User.ToCluster u0)) 0) eqn:Htc; [discriminate|].
  destruct (User.DenyHTTP u0 && User.DenyHTTPS u0) eqn:Hd; [discriminate|].
  destruct ((User.MaxQueueTime u0 >? 0) && (User.MaxQueueSize u0 =? 0)) eqn:Hq;
    [discriminate|].
  apply bind_inr in H as (_ & _ & [= <-]).
  split; [exact Hplain|]. repeat split.
  - intros Heq. rewrite Heq in Hn. discriminate.
  - intros Heq. rewrite Heq in Htu. discriminate.
  - intros Heq. rewrite Heq in Htc. discriminate.
  - intros Hh. rewrite Hh in Hd. exact Hd.
  - intros Hpos Hz. rewrite Hz, andb_true_r in Hq.
    rewrite Z.gtb_ltb in Hq. apply Z.ltb_ge in Hq. lia.
Qed.

Lemma ClusterUser_UnmarshalYAML_inv `{Out : Outside} (n : node) (u u' : ClusterUser.t) :
  ClusterUser.UnmarshalYAML n u = inr u' ->
  ClusterUser.plain n u = inr u' /\
  ClusterUser.Name u' <> "" /\
  (0 < ClusterUser.MaxQueueTime u' -> ClusterUser.MaxQueueSize u' <> 0).
Proof.
  unfold ClusterUser.UnmarshalYAML. intros H.
  apply bind_inr in H as (u0 & Hplain & H). cbv beta in H.
  destruct (Nat.eqb (String.length (ClusterUser.Name u0)) 0) eqn:Hn; [discriminate|].
  destruct ((ClusterUser.MaxQueueTime u0 >? 0) && (ClusterUser.MaxQueueSize u0 =? 0))
    eqn:Hq; [discriminate|].
  apply bind_inr in H as (_ & _ & [= <-]).
  split; [exact Hplain|]. split.
  - intros Heq. rewrite Heq in Hn. discriminate.
  - intros Hpos Hz. rewrite Hz, andb_true_r in Hq.
    rewrite Z.gtb_ltb in Hq. apply Z.ltb_ge in Hq. lia.
Qed.

Lemma Replica_UnmarshalYAML_inv `{Out : Outside} (n : node) (r r' : Replica.t) :
  Replica.UnmarshalYAML n r = inr r' ->
  Replica.plain n r = inr r' /\ Replica.Name r' <> "" /\ Replica.Nodes r' <> [].
Proof.
  unfold Replica.UnmarshalYAML. intros H.
  apply bind_inr in H as (r0 & Hplain & H). cbv beta in H.
  destruct (Nat.eqb (String.length (Replica.Name r0)) 0) eqn:Hn; [discriminate|].
  destruct (Nat.eqb (length (Replica.Nodes r0)) 0) eqn:Hs; [discriminate|].
  apply bind_inr in H as (_ & _ & [= <-]).
  split; [exact Hplain|]. split.
  - intros Heq. rewrite Heq in Hn. discriminate.
  - intros Heq. rewrite Heq in Hs. discriminate.
Qed.

Lemma Cache_UnmarshalYAML_inv `{Out : Outside} (n : node) (c c' : Cache.t) :
  Cache.UnmarshalYAML n c = inr c' ->
  Cache.plain n c = inr c' /\
  Cache.Name c' <> "" /\ Cache.Dir c' <> "" /\ 0 < Cache.MaxSize c'.
Proof.
  unfold Cache.UnmarshalYAML. intros H.
  apply bind_inr in H as (c0 & Hplain & H). cbv beta in H.
  destruct (Nat.eqb (String.length (Cache.Name c0)) 0) eqn:Hn; [discriminate|].
  destruct (Nat.eqb (String.length (Cache.Dir c0)) 0) eqn:Hd; [discriminate|].
  destruct (Z.leb_spec (Cache.MaxSize c0) 0); [discriminate|].
  apply bind_inr in H as (_ & _ & [= <-]).
  split; [exact Hplain|]. repeat split.
  - intros Heq. rewrite Heq in Hn. discriminate.
  - intros Heq. rewrite Heq in Hd. discriminate.
  - assumption.
Qed.

Lemma ParamGroup_UnmarshalYAML_inv `{Out : Outside} (n : node) (pg pg' : ParamGroup.t) :
  ParamGroup.UnmarshalYAML n pg = inr pg' ->
  ParamGroup.plain n pg = inr pg' /\
  ParamGroup.Name pg' <> "" /\ ParamGroup.Params pg' <> [].
Proof.
  unfold ParamGroup.UnmarshalYAML. intros H.
  apply bind_inr in H as (p0 & Hplain & H). cbv beta in H.
  destruct (Nat.eqb (String.length (ParamGroup.Name p0)) 0) eqn:Hn; [discriminate|].
  destruct (Nat.eqb (length (ParamGroup.Params p0)) 0) eqn:Hp; [discriminate|].
  apply bind_inr in H as (_ & _ & [= <-]).
  split; [exact Hplain|]. split.
  - intros Heq. rewrite Heq in Hn. discriminate.
  - intros Heq. rewrite Heq in Hp. discriminate.
Qed.

Lemma Cluster_field_Replicas_other `{Out : Outside} k v c c' :
  k <> "replicas" -> Cluster.field k v c = inr c' ->
  Cluster.Replicas c' = Cluster.Replicas c.
Proof.
  intros Hne H. unfold Cluster.field in H. split_keys H; field_inv H; reflexivity.
Qed.

Lemma Cluster_field_Replicas_key `{Out : Outside} v c c' :
  Cluster.field "replicas" v c = inr c' ->
  sequence Replica.decode v = inr (Cluster.Replicas c').
Proof. intros H. unfold Cluster.field in H. split_keys H. field_inv H. exact Hx. Qed.

Lemma Cluster_field_KillQueryUser_other `{Out : Outside} k v c c' :
  k <> "kill_query_user" -> Cluster.field k v c = inr c' ->
  Cluster.KillQueryUser c' = Cluster.KillQueryUser c.
Proof.
  intros Hne H. unfold Cluster.field in H. split_keys H; field_inv H; reflexivity.
Qed.

Lemma Cluster_field_KillQueryUser_key `{Out : Outside} v c c' :
  Cluster.field "kill_query_user" v c = inr c' ->
  if is_null v then Cluster.KillQueryUser c' = KillQueryUser.zero
  else KillQueryUser.Name (Cluster.KillQueryUser c') <> "".
Proof.
  intros H. unfold Cluster.field in H. split_keys H. field_inv H. cbn.
  unfold unmarshal in Hx. destruct (is_null v); [inversion Hx; reflexivity|].
  unfold KillQueryUser.UnmarshalYAML in Hx.
  apply bind_inr in Hx as (u0 & _ & Hx). cbv beta in Hx.
  destruct (Nat.eqb (String.length (KillQueryUser.Name u0)) 0) eqn:Hn; [discriminate|].
  apply bind_inr in Hx as (_ & _ & [= <-]).
  intros Heq. rewrite Heq in Hn. discriminate.
Qed.

Lemma setWriteTimeout_lists (cfg : Config.t) :
  Config.Users (setWriteTimeout cfg) = Config.Users cfg /\
  Config.Caches (setWriteTimeout cfg) = Config.Caches cfg /\
  Config.ParamGroups (setWriteTimeout cfg) = Config.ParamGroups cfg /\
  Config.LogDebug (setWriteTimeout cfg) = Config.LogDebug cfg.
Proof. destruct (setWriteTimeout_cases cfg) as [-> | [x ->]]; repeat split. Qed.

(** The struct that [Cluster.UnmarshalYAML] returns differs from the one
    decoded only by the heartbeat interval. *)
Lemma Cluster_UnmarshalYAML_fields `{Out : Outside} (n : node) (c c' : Cluster.t) :
  Cluster.UnmarshalYAML n c = inr c' ->
  exists c0,
    Cluster.plain n Cluster.defaultCluster = inr c0 /\
    Cluster.Name c' = Cluster.Name c0 /\ Cluster.Nodes c' = Cluster.Nodes c0 /\
    Cluster.Replicas c' = Cluster.Replicas c0 /\
    Cluster.ClusterUsers c' = Cluster.ClusterUsers c0 /\
    Cluster.KillQueryUser c' = Cluster.KillQueryUser c0.
Proof.
  intros H. apply Cluster_UnmarshalYAML_inv in H as (c0 & Hp & _ & _ & _ & ->).
  exists c0. split; [exact Hp|].
  destruct (Cluster.HeartBeatInterval c0 =? 0); repeat split.
Qed.

(** ** The entries of an accepted document *)


Section Samples.

#[local] Existing Instance fixtures.lib.


End Samples.

(** X7. In an accepted document, inside a cluster entry written as a
    mapping: every entry of [replicas] written as a mapping is loaded as
    a replica with a name and at least one node, and every entry of
    [users] written as a mapping as a cluster user with a name and, when
    it has a queue time, a queue size; without the key
    [kill_query_user] the cluster has the zero kill-query user, and with
    a value that is not null one with a name. *)
Theorem LoadDocument_cluster_parts_checked `{Out : Outside}
    (kvs : list (string * node)) (cfg : Config.t) (i : nat)
    (ckvs : list (string * node)) (c : Cluster.t) :
  LoadDocument (Some (MappingNode kvs)) = inr cfg ->
  entries "clusters" kvs !! i = Some (MappingNode ckvs) ->
  Config.Clusters cfg !! i = Some c ->
  (forall j rkvs,
      entries "replicas" ckvs !! j = Some (MappingNode rkvs) ->
      exists r, Cluster.Replicas c !! j = Some r /\
                Replica.Name r <> "" /\ Replica.Nodes r <> []) /\
  (forall j ukvs,
      entries "users" ckvs !! j = Some (MappingNode ukvs) ->
      exists u, Cluster.ClusterUsers c !! j = Some u /\
                ClusterUser.Name u <> "" /\
                (0 < ClusterUser.MaxQueueTime u -> ClusterUser.MaxQueueSize u <> 0)) /\
  match mapping_get "kill_query_user" ckvs with
  | None => Cluster.KillQueryUser c = KillQueryUser.zero
  | Some v => if is_null v then Cluster.KillQueryUser c = KillQueryUser.zero
              else KillQueryUser.Name (Cluster.KillQueryUser c) <> ""
  end.
Proof.
  intros H Hi Hc.
  destruct (LoadDocument_cluster_entry _ _ _ _ H Hi) as (c' & Hc' & Hu).
  rewrite Hc in Hc'. injection Hc' as <-.
  apply Cluster_UnmarshalYAML_fields in Hu as (c0 & Hplain & _ & _ & Hr & Hus & Hk).
  rewrite Hr, Hus, Hk.
  pose proof Hplain as Hfold. unfold Cluster.plain, mappingStruct in Hfold.
  split; [|split].
  - intros j rkvs Hj.
    pose proof (fold_fields_get Cluster.field Cluster.Replicas "replicas"
                  (sequence Replica.decode)
                  Cluster_field_Replicas_other Cluster_field_Replicas_key _ _ _ Hfold)
      as Hseq.
    unfold entries in Hj.
    destruct (mapping_get "replicas" ckvs) as [v|];
      [|rewrite lookup_nil in Hj; discriminate].
    destruct (sequence_entry _ _ _ _ _ Hseq Hj) as (r & Hr' & Hd).
    exists r. split; [exact Hr'|].
    apply Replica_UnmarshalYAML_inv in Hd as (_ & Hn & Hs). auto.
  - intros j ukvs Hj.
    pose proof (Cluster_plain_ClusterUsers _ _ _ Hplain) as Hseq.
    unfold entries in Hj.
    destruct (mapping_get "users" ckvs) as [v|];
      [|rewrite lookup_nil in Hj; discriminate].
    destruct (sequence_entry _ _ _ _ _ Hseq Hj) as (u & Hu' & Hd).
    exists u. split; [exact Hu'|].
    apply ClusterUser_UnmarshalYAML_inv in Hd as (_ & Hn & Hq). auto.
  - exact (fold_fields_post Cluster.field Cluster.KillQueryUser "kill_query_user"
             (fun v x => if is_null v then x = KillQueryUser.zero
                         else KillQueryUser.Name x <> "")
             Cluster_field_KillQueryUser_other Cluster_field_KillQueryUser_key
             _ _ _ Hfold).
Qed.

Section Samples.

#[local] Existing Instance fixtures.lib.

(** Witness of X7: the replica of the cluster of the sample document. *)
Lemma LoadDocument_cluster_parts_checked_witness :
  exists c r, Config.Clusters samples.full_cfg !! 0%nat = Some c /\
              Cluster.Replicas c !! 0%nat = Some r /\ Replica.Nodes r <> [].
Proof.
  destruct (Config.Clusters samples.full_cfg !! 0%nat) as [c|] eqn:Hc;
    [|vm_compute in Hc; discriminate Hc].
  assert (Hload : LoadDocument (Some (MappingNode samples.full)) = inr samples.full_cfg)
    by (vm_compute; reflexivity).
  assert (Hentry : entries "clusters" samples.full !! 0%nat
                   = Some (MappingNode samples.full_cluster))
    by (vm_compute; reflexivity).
  destruct (LoadDocument_cluster_parts_checked _ _ _ _ c Hload Hentry Hc)
    as (Hrep & _ & _).
  assert (Hr0 : entries "replicas" samples.full_cluster !! 0%nat
                = Some (MappingNode samples.full_replica))
    by (vm_compute; reflexivity).
  destruct (Hrep _ _ Hr0) as (r & Hr & _ & Hn).
  exists c, r. split; [reflexivity|]. split; [exact Hr | exact Hn].
Defined.

End Samples.

(** X8. In an accepted document, every entry of the top-level [users]
    written as a mapping is loaded, at the same position, as a user with
    a name, a [to_user] and a [to_cluster], not denied on both http and
    https, and with a queue size when it has a queue time; there are as
    many users as entries. *)
Theorem LoadDocument_user_entry_checked `{Out : Outside}
    (kvs : list (string * node)) (cfg : Config.t) (i : nat)
    (ukvs : list (string * node)) :
  LoadDocument (Some (MappingNode kvs)) = inr cfg ->
  entries "users" kvs !! i = Some (MappingNode ukvs) ->
  length (Config.Users cfg) = length (entries "users" kvs) /\
  exists u,
    Config.Users cfg !! i = Some u /\
    User.Name u <> "" /\ User.ToUser u <> "" /\ User.ToCluster u <> "" /\
    (User.DenyHTTP u = true -> User.DenyHTTPS u = false) /\
    (0 < User.MaxQueueTime u -> User.MaxQueueSize u <> 0).
Proof.
  intros H Hi.
  apply LoadDocument_mapping_inv in H as (c0 & Hplain & _ & _ & _ & _ & ->).
  destruct (setWriteTimeout_lists c0) as (-> & _).
  unfold Config.plain, mappingStruct in Hplain.
  pose proof (fold_fields_get Config.field Config.Users "users" (sequence User.decode)
                Config_field_Users_other Config_field_Users_key _ _ _ Hplain) as Hseq.
  unfold entries in Hi |- *.
  destruct (mapping_get "users" kvs) as [v|]; [|rewrite lookup_nil in Hi; discriminate].
  split.
  - destruct v as [| l |]; try (rewrite lookup_nil in Hi; discriminate).
    eapply sequence_length. exact Hseq.
  - destruct (sequence_entry _ _ _ _ _ Hseq Hi) as (u & Hu & Hd).
    exists u. split; [exact Hu|].
    apply User_UnmarshalYAML_inv in Hd as (_ & Hrest). exact Hrest.
Qed.

Section Samples.

#[local] Existing Instance fixtures.lib.

(** Witness of X8: the user of the sample document. *)
Lemma LoadDocument_user_entry_checked_witness :
  exists u, Config.Users samples.full_cfg !! 0%nat = Some u /\ User.ToCluster u <> "".
Proof.
  assert (Hload : LoadDocument (Some (MappingNode samples.full)) = inr samples.full_cfg)
    by (vm_compute; reflexivity).
  assert (Hentry : entries "users" samples.full !! 0%nat
                   = Some (MappingNode samples.full_user))
    by (vm_compute; reflexivity).
  destruct (LoadDocument_user_entry_checked _ _ _ _ Hload Hentry)
    as (_ & u & Hu & _ & _ & Htc & _).
  exists u. split; [exact Hu | exact Htc].
Defined.

End Samples.

(** X9. In an accepted document, every entry of [caches] written as a
    mapping is loaded as a cache with a name, a directory and a size
    above zero, and every entry of [param_groups] written as a mapping
    as a group with a name and at least one parameter; without these
    keys the configuration has no cache and no group. *)
Theorem LoadDocument_cache_entry_checked `{Out : Outside}
    (kvs : list (string * node)) (cfg : Config.t) :
  LoadDocument (Some (MappingNode kvs)) = inr cfg ->
  (forall i ckvs,
      entries "caches" kvs !! i = Some (MappingNode ckvs) ->
      exists c, Config.Caches cfg !! i = Some c /\
                Cache.Name c <> "" /\ Cache.Dir c <> "" /\ 0 < Cache.MaxSize c) /\
  (forall i gkvs,
      entries "param_groups" kvs !! i = Some (MappingNode gkvs) ->
      exists g, Config.ParamGroups cfg !! i = Some g /\
                ParamGroup.Name g <> "" /\ ParamGroup.Params g <> []) /\
  (mapping_get "caches" kvs = None -> Config.Caches cfg = []) /\
  (mapping_get "param_groups" kvs = None -> Config.ParamGroups cfg = []).
Proof.
  intros H.
  apply LoadDocument_mapping_inv in H as (c0 & Hplain & _ & _ & _ & _ & ->).
  destruct (setWriteTimeout_lists c0) as (_ & -> & -> & _).
  unfold Config.plain, mappingStruct in Hplain.
  pose proof (fold_fields_get Config.field Config.Caches "caches" (sequence Cache.decode)
                Config_field_Caches_other Config_field_Caches_key _ _ _ Hplain) as Hc.
  pose proof (fold_fields_get Config.field Config.ParamGroups "param_groups"
                (sequence ParamGroup.decode)
                Config_field_ParamGroups_other Config_field_ParamGroups_key _ _ _ Hplain)
    as Hg.
  split; [|split; [|split]].
  - intros i ckvs Hi. unfold entries in Hi.
    destruct (mapping_get "caches" kvs) as [v|]; [|rewrite lookup_nil in Hi; discriminate].
    destruct (sequence_entry _ _ _ _ _ Hc Hi) as (c & Hc' & Hd).
    exists c. split; [exact Hc'|].
    apply Cache_UnmarshalYAML_inv in Hd as (_ & Hrest). exact Hrest.
  - intros i gkvs Hi. unfold entries in Hi.
    destruct (mapping_get "param_groups" kvs) as [v|];
      [|rewrite lookup_nil in Hi; discriminate].
    destruct (sequence_entry _ _ _ _ _ Hg Hi) as (g & Hg' & Hd).
    exists g. split; [exact Hg'|].
    apply ParamGroup_UnmarshalYAML_inv in Hd as (_ & Hrest). exact Hrest.
  - intros Hk. rewrite Hk in Hc. exact Hc.
  - intros Hk. rewrite Hk in Hg. exact Hg.
Qed.

Section Samples.

#[local] Existing Instance fixtures.lib.

(** Witness of X9: the cache of the sample document. *)
Lemma LoadDocument_cache_entry_checked_witness :
  exists c, Config.Caches samples.full_cfg !! 0%nat = Some c /\ 0 < Cache.MaxSize c.
Proof.
  assert (Hload : LoadDocument (Some (MappingNode samples.full)) = inr samples.full_cfg)
    by (vm_compute; reflexivity).
  destruct (LoadDocument_cache_entry_checked _ _ Hload) as (Hc & _).
  assert (Hentry : entries "caches" samples.full !! 0%nat
                   = Some (MappingNode samples.full_cache))
    by (vm_compute; reflexivity).
  destruct (Hc _ _ Hentry) as (c & Hc' & _ & _ & Hpos).
  exists c. split; [exact Hc' | exact Hpos].
Defined.

End Samples.

(** ** The process: start, reload, signals *)

Section Run.

Context `{E : Externals}.

Ltac run :=
  unfold mbind, gets, modify, mret, exit, log_Infof, log_Errorf, log_Fatalf; cbv beta.

Ltac applied_steps :=
  unfold applied;
  cbn [trace emit set_configSuccess set_env set_proxy set_configSuccessTime set_debug];
  rewrite ?omap_app; cbn; rewrite ?app_nil_r; try reflexivity.

Lemma applied_emit_Log (level msg : string) (w : World Proxy) :
  applied (emit (Log level msg) w) = applied w.
Proof. unfold applied. cbn [trace emit]. rewrite omap_app. cbn. apply app_nil_r. Qed.

Lemma applied_emit_Print (s : string) (w : World Proxy) :
  applied (emit (Print s) w) = applied w.
Proof. unfold applied. cbn [trace emit]. rewrite omap_app. cbn. apply app_nil_r. Qed.

(** [loadConfig] on a named file. *)
Lemma loadConfig_eq (w : World Proxy) :
  configFile w <> "" ->
  loadConfig w =
  match LoadFile (ReadFile w) scan (configFile w) with
  | inl e =>
      Done (set_configSuccess 0 w)
           (inl (Errorf ("can't load config " +:+ quote (configFile w) +:+ ": "
                         +:+ Error e)))
  | inr cfg => Done (set_configSuccessTime (now w) (set_configSuccess 1 w)) (inr cfg)
  end.
Proof.
  intros Hne. unfold loadConfig. run.
  destruct (String.eqb_spec (configFile w) "") as [Heq | _]; [congruence|].
  destruct (LoadFile (ReadFile w) scan (configFile w)); reflexivity.
Qed.

Lemma applyConfig_eq (cfg : Config.t) (w : World Proxy) :
  applyConfig cfg w =
  let w1 := set_proxy (proxy_applyConfig cfg (proxy w)).1 (emit (ApplyConfig cfg) w) in
  match (proxy_applyConfig cfg (proxy w)).2 with
  | Some err => Done w1 (Some err)
  | None =>
      Done (emit (Log "INFO" ("Loaded config:" +:+ nl +:+ Config_String cfg))
                 (set_debug (Config.LogDebug cfg) w1)) None
  end.
Proof.
  unfold applyConfig. run. cbv zeta.
  destruct (proxy_applyConfig cfg (proxy w)).2; reflexivity.
Qed.

(** [main] up to the start of the goroutines, case by case. *)
Lemma startup_eq (w0 : World Proxy) :
  startup w0 =
  if version w0 then Exited 0 (emit (Print (versionString +:+ nl)) w0)
  else
    let w1 := emit (Log "INFO" ("Loading config: " +:+ configFile w0))
                   (emit (Log "INFO" versionString) w0) in
    if String.eqb (configFile w0) ""
    then Exited 1 (emit (Log "FATAL" "Missing -config flag") w1)
    else
      match LoadFile (ReadFile w0) scan (configFile w0) with
      | inl e =>
          Exited 1
            (emit (Log "FATAL"
                       ("error while loading config: "
                        +:+ Error (Errorf ("can't load config " +:+ quote (configFile w0)
                                           +:+ ": " +:+ Error e))))
                  (set_configSuccess 0 w1))
      | inr cfg =>
          let w2 := set_proxy (proxy_applyConfig cfg (proxy w0)).1
                      (emit (ApplyConfig cfg)
                         (set_configSuccessTime (now w0) (set_configSuccess 1 w1))) in
          match (proxy_applyConfig cfg (proxy w0)).2 with
          | Some err =>
              Exited 1 (emit (Log "FATAL" ("error while applying config: " +:+ Error err)) w2)
          | None =>
              Done (emit (Log "INFO" ("Loading config " +:+ quote (configFile w0)
                                      +:+ ": successful"))
                      (emit (Log "INFO" ("Loaded config:" +:+ nl +:+ Config_String cfg))
                         (set_debug (Config.LogDebug cfg) w2)))
                   cfg
          end
      end.
Proof.
  unfold startup.
  unfold mbind at 1. unfold gets at 1.
  destruct (version w0).
  { run. reflexivity. }
  unfold mbind at 1. unfold mret at 1.
  unfold mbind at 1. unfold gets at 1.
  unfold mbind at 1. unfold log_Infof at 1, modify at 1.
  unfold mbind at 1. unfold log_Infof at 1, modify at 1.
  unfold mbind at 1. cbv zeta.
  set (w1 := emit _ (emit _ w0)).
  destruct (String.eqb_spec (configFile w0) "") as [Heq | Hne].
  { unfold loadConfig. run. change (configFile w1) with (configFile w0).
    rewrite Heq. reflexivity. }
  rewrite (loadConfig_eq w1 Hne).
  change (ReadFile w1) with (ReadFile w0). change (configFile w1) with (configFile w0).
  destruct (LoadFile (ReadFile w0) scan (configFile w0)) as [e | cfg].
  { run. reflexivity. }
  unfold mbind at 1. rewrite applyConfig_eq. cbv zeta.
  change (proxy (set_configSuccessTime (now w1) (set_configSuccess 1 w1)))
    with (proxy w0).
  change (now w1) with (now w0).
  destruct (proxy_applyConfig cfg (proxy w0)).2; run; reflexivity.
Qed.

Lemma startup_Done_inv (w0 w : World Proxy) (cfg : Config.t) :
  startup w0 = Done w cfg ->
  version w0 = false /\ configFile w0 <> "" /\
  LoadFile (ReadFile w0) scan (configFile w0) = inr cfg /\
  (proxy_applyConfig cfg (proxy w0)).2 = None /\
  configFile w = configFile w0.
Proof.
  rewrite startup_eq. cbv zeta.
  destruct (version w0); [discriminate|].
  destruct (String.eqb_spec (configFile w0) "") as [Heq | Hne]; [discriminate|].
  destruct (LoadFile (ReadFile w0) scan (configFile w0)) as [e | cfg']; [discriminate|].
  destruct (proxy_applyConfig cfg' (proxy w0)).2 eqn:Hap; [discriminate|].
  intros [= <- <-]. rewrite Hap. auto.
Qed.

(** What a SIGHUP does, case by case. *)
Lemma receive_SIGHUP_eq (a : arrival) (w : World Proxy) :
  sig a = SIGHUP -> configFile w <> "" ->
  receive a w =
  let w1 := emit (Log "INFO" ("SIGHUP received. Going to reload config "
                              +:+ configFile w +:+ " ..."))
                 (set_env (fs a) (clock a) w) in
  match LoadFile (fs a) scan (configFile w) with
  | inl e =>
      Done (emit (Log "ERROR"
                      ("error while reloading config: "
                       +:+ Error (Errorf ("can't load config " +:+ quote (configFile w)
                                          +:+ ": " +:+ Error e))))
                 (set_configSuccess 0 w1)) tt
  | inr cfg =>
      let w2 := set_proxy (proxy_applyConfig cfg (proxy w)).1
                  (emit (ApplyConfig cfg)
                     (set_configSuccessTime (clock a) (set_configSuccess 1 w1))) in
      match (proxy_applyConfig cfg (proxy w)).2 with
      | Some err =>
          Done (emit (Log "ERROR" ("error while reloading config: " +:+ Error err)) w2) tt
      | None =>
          Done (emit (Log "INFO" ("Reloading config " +:+ configFile w +:+ ": successful"))
                  (emit (Log "INFO" ("Loaded config:" +:+ nl +:+ Config_String cfg))
                     (set_debug (Config.LogDebug cfg) w2))) tt
      end
  end.
Proof.
  intros Hsig Hne. unfold receive, mbind at 1, modify at 1, handleSignal.
  rewrite Hsig, Z.eqb_refl.
  unfold mbind at 1, gets at 1. unfold mbind at 1, log_Infof at 1, modify at 1.
  unfold mbind at 1. cbv zeta.
  change (configFile (set_env (fs a) (clock a) w)) with (configFile w).
  set (w1 := emit _ (set_env (fs a) (clock a) w)).
  unfold reloadConfig. unfold mbind at 1.
  rewrite (loadConfig_eq w1 Hne).
  change (ReadFile w1) with (fs a). change (configFile w1) with (configFile w).
  change (now w1) with (clock a).
  destruct (LoadFile (fs a) scan (configFile w)) as [e | cfg].
  { run. reflexivity. }
  rewrite applyConfig_eq. cbv zeta.
  change (proxy (set_configSuccessTime (clock a) (set_configSuccess 1 w1)))
    with (proxy w).
  destruct (proxy_applyConfig cfg (proxy w)).2; run; reflexivity.
Qed.

Lemma receive_other_eq (a : arrival) (w : World Proxy) :
  sig a <> SIGHUP -> receive a w = Done (set_env (fs a) (clock a) w) tt.
Proof.
  intros Hsig. unfold receive, mbind at 1, modify at 1, handleSignal.
  rewrite (proj2 (Z.eqb_neq _ _) Hsig). reflexivity.
Qed.

(** What one signal leaves as it was, and what it may add. *)
Lemma receive_frame (a : arrival) (w : World Proxy) :
  configFile w <> "" ->
  exists w' t new,
    receive a w = Done w' tt /\
    configFile w' = configFile w /\ version w' = version w /\
    badRequest w' = badRequest w /\
    trace w' = (trace w ++ t)%list /\
    applied w' = (applied w ++ new)%list /\
    (length new <= count_SIGHUP [a])%nat /\
    Forall (fun cfg => sig a = SIGHUP /\
                       LoadFile (fs a) scan (configFile w) = inr cfg) new /\
    (sig a <> SIGHUP ->
     t = [] /\ proxy w' = proxy w /\ debug w' = debug w /\
     configSuccess w' = configSuccess w /\
     configSuccessTime w' = configSuccessTime w).
Proof.
  intros Hne. unfold count_SIGHUP. cbn [List.filter].
  destruct (Z.eq_dec (sig a) SIGHUP) as [Hsig | Hsig].
  - rewrite (receive_SIGHUP_eq a w Hsig Hne). cbv zeta.
    rewrite (proj2 (Z.eqb_eq _ _) Hsig).
    destruct (LoadFile (fs a) scan (configFile w)) as [e | cfg] eqn:Hload.
    + eexists _, _, []. split; [reflexivity|].
      split; [reflexivity|]. split; [reflexivity|]. split; [reflexivity|].
      split; [cbn [trace emit set_configSuccess set_env];
              rewrite <- !app_assoc; reflexivity|].
      split; [applied_steps|]. split; [cbn; lia|]. split; [constructor|].
      intros Hs. contradiction.
    + destruct (proxy_applyConfig cfg (proxy w)).2.
      * eexists _, _, [cfg]. split; [reflexivity|].
        split; [reflexivity|]. split; [reflexivity|]. split; [reflexivity|].
        split; [cbn [trace emit set_configSuccess set_env set_proxy
                     set_configSuccessTime];
                rewrite <- !app_assoc; reflexivity|].
        split; [applied_steps|]. split; [cbn; lia|].
        split; [constructor; [auto | constructor]|].
        intros Hs. contradiction.
      * eexists _, _, [cfg]. split; [reflexivity|].
        split; [reflexivity|]. split; [reflexivity|]. split; [reflexivity|].
        split; [cbn [trace emit set_configSuccess set_env set_proxy
                     set_configSuccessTime set_debug];
                rewrite <- !app_assoc; reflexivity|].
        split; [applied_steps|]. split; [cbn; lia|].
        split; [constructor; [auto | constructor]|].
        intros Hs. contradiction.
  - rewrite (receive_other_eq a w Hsig).
    exists (set_env (fs a) (clock a) w), [], []. split; [reflexivity|].
    split; [reflexivity|]. split; [reflexivity|]. split; [reflexivity|].
    split; [cbn [trace set_env]; rewrite app_nil_r; reflexivity|].
    split; [applied_steps|]. split; [cbn; lia|]. split; [constructor|].
    intros _. repeat split.
Qed.

Lemma count_SIGHUP_cons (a : arrival) (l : list arrival) :
  count_SIGHUP (a :: l) = (count_SIGHUP [a] + count_SIGHUP l)%nat.
Proof. unfold count_SIGHUP. cbn [List.filter]. destruct (sig a =? SIGHUP); reflexivity. Qed.

Lemma count_SIGHUP_zero (a : arrival) (l : list arrival) :
  count_SIGHUP l = 0%nat -> In a l -> sig a <> SIGHUP.
Proof.
  unfold count_SIGHUP. induction l as [|b l IH]; [contradiction|].
  cbn [List.filter]. destruct (Z.eqb_spec (sig b) SIGHUP) as [Hb | Hb]; [discriminate|].
  intros Hz [<- | Hin]; [exact Hb | exact (IH Hz Hin)].
Qed.

(** The signal loop over any signals. *)
Lemma signalLoop_frame (l : list arrival) (w : World Proxy) :
  configFile w <> "" ->
  exists w' t new,
    signalLoop l w = Done w' tt /\
    configFile w' = configFile w /\ version w' = version w /\
    badRequest w' = badRequest w /\
    trace w' = (trace w ++ t)%list /\
    applied w' = (applied w ++ new)%list /\
    (length new <= count_SIGHUP l)%nat /\
    Forall (fun cfg => exists a, In a l /\ sig a = SIGHUP /\
                                 LoadFile (fs a) scan (configFile w) = inr cfg) new /\
    (count_SIGHUP l = 0%nat ->
     t = [] /\ proxy w' = proxy w /\ debug w' = debug w /\
     configSuccess w' = configSuccess w /\
     configSuccessTime w' = configSuccessTime w).
Proof.
  revert w. induction l as [|a l IH]; intros w Hne.
  - exists w, [], []. cbn [signalLoop]. unfold mret. rewrite !app_nil_r.
    repeat split; try reflexivity; try (cbn; lia); constructor.
  - destruct (receive_frame a w Hne)
      as (w1 & t1 & n1 & Hr & Hcf & Hv & Hb & Ht & Ha & Hlen & Hall & Hoth).
    assert (Hne1 : configFile w1 <> "") by congruence.
    destruct (IH w1 Hne1)
      as (w2 & t2 & n2 & Hl & Hcf2 & Hv2 & Hb2 & Ht2 & Ha2 & Hlen2 & Hall2 & Hoth2).
    exists w2, (t1 ++ t2)%list, (n1 ++ n2)%list.
    cbn [signalLoop]. unfold mbind. rewrite Hr.
    split; [exact Hl|].
    split; [congruence|]. split; [congruence|]. split; [congruence|].
    split; [rewrite Ht2, Ht, app_assoc; reflexivity|].
    split; [rewrite Ha2, Ha, app_assoc; reflexivity|].
    split; [rewrite length_app, count_SIGHUP_cons; lia|].
    split.
    + apply Forall_app. split.
      * eapply Forall_impl; [exact Hall|]. intros cfg [Hs Hload].
        exists a. split; [left; reflexivity | auto].
      * eapply Forall_impl; [exact Hall2|]. intros cfg (b & Hin & Hs & Hload).
        exists b. split; [right; exact Hin|]. split; [exact Hs|]. congruence.
    + intros Hz. rewrite count_SIGHUP_cons in Hz.
      assert (Hsa : sig a <> SIGHUP)
        by (unfold count_SIGHUP in Hz; cbn [List.filter] in Hz;
            destruct (Z.eqb_spec (sig a) SIGHUP); [cbn in Hz; lia | assumption]).
      destruct (Hoth Hsa) as (-> & Hp & Hd & Hs & Hst).
      destruct Hoth2 as (-> & Hp2 & Hd2 & Hs2 & Hst2); [lia|].
      repeat split; congruence.
Qed.

(** X10. How [main] starts.  With [-version] it prints the version and
    exits with status 0.  Without a [-config] it exits with status 1
    having loaded and applied nothing.  When [LoadFile] fails it exits
    with status 1 with the gauge [configSuccess] at 0, the proxy
    untouched and no configuration applied.  When [LoadFile] succeeds
    the gauge is 1, the time of the load is recorded and the
    configuration is handed to the proxy once; if the proxy refuses it
    the process exits with status 1 without changing the debug flag,
    otherwise the start returns that configuration and the debug flag is
    its [log_debug]. *)
Theorem startup_outcomes (w0 : World Proxy) :
  (version w0 = true ->
   startup w0 = Exited 0 (emit (Print (versionString +:+ nl)) w0)) /\
  (version w0 = false -> configFile w0 = "" ->
   exists w, startup w0 = Exited 1 w /\ applied w = applied w0 /\
             proxy w = proxy w0 /\ configSuccess w = configSuccess w0) /\
  (version w0 = false -> configFile w0 <> "" ->
   match LoadFile (ReadFile w0) scan (configFile w0) with
   | inl e =>
       exists w, startup w0 = Exited 1 w /\ configSuccess w = 0 /\
                 applied w = applied w0 /\ proxy w = proxy w0 /\ debug w = debug w0
   | inr cfg =>
       exists w,
         configSuccess w = 1 /\ configSuccessTime w = now w0 /\
         applied w = (applied w0 ++ [cfg])%list /\
         proxy w = (proxy_applyConfig cfg (proxy w0)).1 /\
         match (proxy_applyConfig cfg (proxy w0)).2 with
         | Some _ => startup w0 = Exited 1 w /\ debug w = debug w0
         | None => startup w0 = Done w cfg /\ debug w = Config.LogDebug cfg
         end
   end).
Proof.
  rewrite startup_eq. cbv zeta. split; [|split].
  - intros ->. reflexivity.
  - intros -> ->. cbn [String.eqb]. eexists. split; [reflexivity|].
    rewrite !applied_emit_Log. auto.
  - intros -> Hne.
    destruct (String.eqb_spec (configFile w0) "") as [Heq | _]; [congruence|].
    destruct (LoadFile (ReadFile w0) scan (configFile w0)) as [e | cfg].
    + eexists. split; [reflexivity|].
      rewrite applied_emit_Log. unfold applied at 1.
      cbn [trace emit set_configSuccess]. fold (applied (emit (Log "INFO" versionString) w0)).
      rewrite !omap_app. cbn [omap]. rewrite !app_nil_r. auto.
    + destruct (proxy_applyConfig cfg (proxy w0)).2.
      * eexists. split; [|split; [|split; [|split; [|split; [reflexivity|]]]]];
          try reflexivity.
        rewrite applied_emit_Log. unfold applied.
        cbn [trace emit set_configSuccess set_proxy set_configSuccessTime].
        rewrite !omap_app. cbn [omap]. rewrite !app_nil_r. reflexivity.
      * eexists. split; [|split; [|split; [|split; [|split; [reflexivity|]]]]];
          try reflexivity.
        rewrite !applied_emit_Log. unfold applied.
        cbn [trace emit set_configSuccess set_proxy set_configSuccessTime set_debug].
        rewrite !omap_app. cbn [omap]. rewrite !app_nil_r. reflexivity.
Qed.

(** X11. A SIGHUP that arrives when [LoadFile] accepts the file: the
    handler returns, with the gauge [configSuccess] at 1 and the time of
    the signal in [configSuccessTime], and the loaded configuration has
    been handed to the proxy once.  Both hold even when the proxy
    refuses the configuration; then the debug flag is unchanged and the
    last line of the log is the error.  When the proxy accepts it the
    debug flag is the [log_debug] of the configuration and the last line
    reports the success. *)
Theorem receive_SIGHUP_loaded (a : arrival) (w : World Proxy) (cfg : Config.t) :
  configFile w <> "" ->
  sig a = SIGHUP ->
  LoadFile (fs a) scan (configFile w) = inr cfg ->
  exists w',
    receive a w = Done w' tt /\
    configSuccess w' = 1 /\ configSuccessTime w' = clock a /\
    applied w' = (applied w ++ [cfg])%list /\
    proxy w' = (proxy_applyConfig cfg (proxy w)).1 /\
    configFile w' = configFile w /\
    match (proxy_applyConfig cfg (proxy w)).2 with
    | Some err =>
        debug w' = debug w /\
        last (trace w')
        = Some (Log "ERROR" ("error while reloading config: " +:+ Error err))
    | None =>
        debug w' = Config.LogDebug cfg /\
        last (trace w')
        = Some (Log "INFO" ("Reloading config " +:+ configFile w +:+ ": successful"))
    end.
Proof.
  intros Hne Hsig Hload. rewrite (receive_SIGHUP_eq a w Hsig Hne). cbv zeta.
  rewrite Hload.
  destruct (proxy_applyConfig cfg (proxy w)).2.
  - eexists. split; [reflexivity|]. split; [reflexivity|]. split; [reflexivity|].
    split.
    { rewrite applied_emit_Log. unfold applied.
      cbn [trace emit set_configSuccess set_env set_proxy set_configSuccessTime].
      rewrite !omap_app. cbn [omap]. rewrite !app_nil_r. reflexivity. }
    split; [reflexivity|]. split; [reflexivity|]. split; [reflexivity|].
    cbn [trace emit]. apply last_snoc.
  - eexists. split; [reflexivity|]. split; [reflexivity|]. split; [reflexivity|].
    split.
    { rewrite !applied_emit_Log. unfold applied.
      cbn [trace emit set_configSuccess set_env set_proxy set_configSuccessTime
           set_debug].
      rewrite !omap_app. cbn [omap]. rewrite !app_nil_r. reflexivity. }
    split; [reflexivity|]. split; [reflexivity|]. split; [reflexivity|].
    cbn [trace emit]. apply last_snoc.
Qed.

(** X12. A SIGHUP that arrives when the file is empty, or holds only a
    null document, is a successful load: the zero configuration, which
    has no user, no cluster and no listen address, is handed to the
    proxy, and the check of the listen address that [main] makes at the
    start is not made again. *)
Theorem receive_SIGHUP_empty_file
    (a : arrival) (w : World Proxy) (content : string) (doc : option node) :
  configFile w <> "" ->
  sig a = SIGHUP ->
  fs a (configFile w) = inr content ->
  scan content = inr doc ->
  doc = None \/ (exists n, doc = Some n /\ is_null n = true) ->
  exists w',
    receive a w = Done w' tt /\
    applied w' = (applied w ++ [Config.zero])%list /\
    proxy w' = (proxy_applyConfig Config.zero (proxy w)).1 /\
    configSuccess w' = 1.
Proof.
  intros Hne Hsig Hfs Hscan Hdoc.
  assert (Hload : LoadFile (fs a) scan (configFile w) = inr Config.zero).
  { unfold LoadFile. rewrite Hfs. cbn [bind]. rewrite Hscan. cbn [bind].
    destruct Hdoc as [-> | (n & -> & Hn)]; unfold LoadDocument; cbn [Unmarshal].
    - reflexivity.
    - unfold unmarshal. rewrite Hn. reflexivity. }
  rewrite (receive_SIGHUP_eq a w Hsig Hne). cbv zeta. rewrite Hload.
  destruct (proxy_applyConfig Config.zero (proxy w)).2.
  - eexists. split; [reflexivity|]. split; [|split; reflexivity].
    rewrite applied_emit_Log. unfold applied.
    cbn [trace emit set_configSuccess set_env set_proxy set_configSuccessTime].
    rewrite !omap_app. cbn [omap]. rewrite !app_nil_r. reflexivity.
  - eexists. split; [reflexivity|]. split; [|split; reflexivity].
    rewrite !applied_emit_Log. unfold applied.
    cbn [trace emit set_configSuccess set_env set_proxy set_configSuccessTime
         set_debug].
    rewrite !omap_app. cbn [omap]. rewrite !app_nil_r. reflexivity.
Qed.

(** X13. The loop of the goroutine that handles the channel of signals,
    over any values received from it, in a process that has a [-config]:
    it handles every value and goes on, so handling a signal never ends
    the process; the flags and the counter of bad requests are
    unchanged; the log only grows; the proxy is handed nothing but
    results of [LoadFile] on the configuration file, one at most for
    each SIGHUP; and when no value is a SIGHUP, nothing is logged and
    the proxy, the debug flag and the gauges are unchanged. *)
Theorem signalLoop_invariants (l : list arrival) (w : World Proxy) :
  configFile w <> "" ->
  exists w' t new,
    signalLoop l w = Done w' tt /\
    configFile w' = configFile w /\ version w' = version w /\
    badRequest w' = badRequest w /\
    trace w' = (trace w ++ t)%list /\
    applied w' = (applied w ++ new)%list /\
    (length new <= count_SIGHUP l)%nat /\
    Forall (fun cfg => exists a, In a l /\ sig a = SIGHUP /\
                                 LoadFile (fs a) scan (configFile w) = inr cfg) new /\
    (count_SIGHUP l = 0%nat ->
     t = [] /\ proxy w' = proxy w /\ debug w' = debug w /\
     configSuccess w' = configSuccess w /\
     configSuccessTime w' = configSuccessTime w).
Proof. exact (signalLoop_frame l w). Qed.

(** X14. [main] ends with the panic on the listen address exactly when
    the configuration file is read as an empty or a null document and
    the proxy accepts the zero configuration: [LoadFile] validates
    nothing in that case, and every other accepted document has a
    listen address. *)
Theorem main_panics (arrivals : list arrival) (w0 : World Proxy) :
  (exists w, main arrivals w0 = Exited 2 w) <->
  version w0 = false /\ configFile w0 <> "" /\
  (exists content doc,
      ReadFile w0 (configFile w0) = inr content /\ scan content = inr doc /\
      (doc = None \/ exists n, doc = Some n /\ is_null n = true)) /\
  (proxy_applyConfig Config.zero (proxy w0)).2 = None.
Proof.
  split.
  - intros [w Hmain]. unfold main, mbind in Hmain.
    destruct (startup w0) as [code w1 | w1 cfg] eqn:Hs.
    + exfalso. rewrite startup_eq in Hs. cbv zeta in Hs.
      destruct (version w0); [congruence|].
      destruct (String.eqb (configFile w0) ""); [congruence|].
      destruct (LoadFile (ReadFile w0) scan (configFile w0)) as [e | cfg]; [congruence|].
      destruct (proxy_applyConfig cfg (proxy w0)).2; congruence.
    + apply startup_Done_inv in Hs as (Hv & Hne & Hload & Hap & Hcf).
      destruct (Nat.eqb (String.length (Config.ListenAddr cfg)) 0) eqn:Hl.
      * unfold LoadFile in Hload.
        apply bind_inr in Hload as (content & Hread & Hload).
        apply bind_inr in Hload as (doc & Hscan & Hload).
        destruct (LoadDocument_inv doc cfg Hload) as [(Hdoc & -> & _) | (_ & _ & _ & Hla)].
        -- repeat split; eauto.
        -- exfalso. apply Hla. destruct (Config.ListenAddr cfg); [reflexivity | discriminate].
      * exfalso.
        assert (Hne1 : configFile w1 <> "") by congruence.
        destruct (signalLoop_frame arrivals w1 Hne1) as (w2 & t & new & Hloop & _).
        rewrite Hloop in Hmain. discriminate.
  - intros (Hv & Hne & (content & doc & Hread & Hscan & Hdoc) & Hap).
    assert (Hload : LoadFile (ReadFile w0) scan (configFile w0) = inr Config.zero).
    { unfold LoadFile. rewrite Hread. cbn [bind]. rewrite Hscan. cbn [bind].
      destruct Hdoc as [-> | (n & -> & Hn)]; unfold LoadDocument; cbn [Unmarshal].
      - reflexivity.
      - unfold unmarshal. rewrite Hn. reflexivity. }
    unfold main, mbind. rewrite startup_eq. cbv zeta. rewrite Hv.
    destruct (String.eqb_spec (configFile w0) "") as [Heq | _]; [congruence|].
    rewrite Hload, Hap. eexists. reflexivity.
Qed.

End Run.

Section Samples.

#[local] Existing Instance fixtures.lib.

(** Witness of X10: a process whose configuration file does not exist,
    one whose file is accepted, and one whose proxy refuses the
    configuration. *)
Lemma startup_outcomes_witness :
  (exists w, startup (E := fixtures.stub) fixtures.world0 = Exited 1 w /\
             configSuccess w = 0 /\ applied w = []) /\
  (exists w, startup (E := fixtures.reading (Some fixtures.default_values)) fixtures.world1
             = Done w fixtures.default_values_cfg /\
             applied w = [fixtures.default_values_cfg]) /\
  (exists w, startup (E := samples.refusing) fixtures.world1 = Exited 1 w /\
             configSuccess w = 1).
Proof.
  split; [|split].
  - destruct (startup_outcomes (E := fixtures.stub) fixtures.world0) as (_ & _ & H).
    specialize (H eq_refl). 
    assert (Hne : configFile fixtures.world0 <> "") by discriminate.
    specialize (H Hne). cbn in H.
    destruct H as (w & Hs & Hg & Ha & _). exists w. auto.
  - destruct (startup_outcomes (E := fixtures.reading (Some fixtures.default_values))
                fixtures.world1) as (_ & _ & H).
    specialize (H eq_refl).
    assert (Hne : configFile fixtures.world1 <> "") by discriminate.
    specialize (H Hne).
    assert (Hload :
              LoadFile
                (Out := outside (Externals := fixtures.reading
                                                (Some fixtures.default_values)))
                (ReadFile (Proxy := Proxy (Externals := fixtures.reading
                                                          (Some fixtures.default_values)))
                          fixtures.world1)
                (scan (Externals := fixtures.reading (Some fixtures.default_values)))
                (configFile (Proxy := Proxy (Externals := fixtures.reading
                                                            (Some fixtures.default_values)))
                            fixtures.world1)
              = inr fixtures.default_values_cfg) by (vm_compute; reflexivity).
    rewrite Hload in H. cbn in H.
    destruct H as (w & _ & _ & Ha & _ & Hs & _). exists w. auto.
  - destruct (startup_outcomes (E := samples.refusing) fixtures.world1) as (_ & _ & H).
    specialize (H eq_refl).
    assert (Hne : configFile fixtures.world1 <> "") by discriminate.
    specialize (H Hne).
    assert (Hload :
              LoadFile
                (Out := outside (Externals := samples.refusing))
                (ReadFile (Proxy := Proxy (Externals := samples.refusing)) fixtures.world1)
                (scan (Externals := samples.refusing))
                (configFile (Proxy := Proxy (Externals := samples.refusing))
                            fixtures.world1)
              = inr fixtures.default_values_cfg) by (vm_compute; reflexivity).
    rewrite Hload in H. cbn in H.
    destruct H as (w & Hg & _ & _ & _ & Hs & _). exists w. auto.
Defined.

End Samples.

Section Samples.

#[local] Existing Instance fixtures.lib.

(** Witness of X11: a SIGHUP in a process whose proxy refuses the
    configuration. *)
Lemma receive_SIGHUP_loaded_witness :
  exists w, receive (E := samples.refusing) samples.hup fixtures.world1 = Done w tt /\
            configSuccess w = 1 /\ configSuccessTime w = 7 /\
            applied w = [fixtures.default_values_cfg].
Proof.
  assert (Hne : configFile fixtures.world1 <> "") by discriminate.
  assert (Hload : LoadFile (fs samples.hup) (scan (Externals := samples.refusing))
                    (configFile fixtures.world1)
                  = inr fixtures.default_values_cfg) by (vm_compute; reflexivity).
  destruct (receive_SIGHUP_loaded (E := samples.refusing) samples.hup fixtures.world1
              fixtures.default_values_cfg Hne eq_refl Hload)
    as (w & Hr & Hg & Ht & Ha & _).
  exists w. auto.
Defined.

End Samples.

Section Samples.

#[local] Existing Instance fixtures.lib.

(** Witness of X12: a SIGHUP in a process whose scanner finds no
    document. *)
Lemma receive_SIGHUP_empty_file_witness :
  exists w, receive (E := fixtures.stub) samples.hup fixtures.world0 = Done w tt /\
            applied w = [Config.zero].
Proof.
  assert (Hne : configFile fixtures.world0 <> "") by discriminate.
  destruct (receive_SIGHUP_empty_file (E := fixtures.stub) samples.hup fixtures.world0
              "" None Hne eq_refl eq_refl eq_refl (or_introl eq_refl))
    as (w & Hr & Ha & _).
  exists w. auto.
Defined.

End Samples.

Section Samples.

#[local] Existing Instance fixtures.lib.

(** Witness of X13: two signals, one of them a SIGHUP. *)
Lemma signalLoop_invariants_witness :
  exists w, signalLoop (E := fixtures.stub) [samples.usr1; samples.hup] fixtures.world0
            = Done w tt /\
            (length (applied w) <= 1)%nat.
Proof.
  assert (Hne : configFile fixtures.world0 <> "") by discriminate.
  destruct (signalLoop_invariants (E := fixtures.stub) [samples.usr1; samples.hup]
              fixtures.world0 Hne)
    as (w & t & new & Hl & _ & _ & _ & _ & Ha & Hlen & _).
  exists w. split; [exact Hl|]. rewrite Ha. cbn in Hlen |- *. exact Hlen.
Defined.

End Samples.

Section Samples.

#[local] Existing Instance fixtures.lib.

(** Witness of X14: a process whose scanner finds no document in its
    configuration file. *)
Lemma main_panics_witness :
  exists w, main (E := fixtures.stub) [] fixtures.world1 = Exited 2 w.
Proof.
  apply (proj2 (main_panics (E := fixtures.stub) [] fixtures.world1)).
  split; [reflexivity|]. split; [discriminate|]. split; [|reflexivity].
  exists "", None. split; [reflexivity|]. split; [reflexivity|]. left. reflexivity.
Defined.

End Samples.

(** ** The HTTP server *)

Section Server.

Context `{E : Externals}.

Variable Listener : Type.
Variable net_Listen : string -> Res Listener.
Variable Serve : server.http_Server -> Listener -> option error.

(** X15. After its start [main] either panics, when the configuration
    has no listen address, or serves on [cfg.Server.HTTP]: the
    [http.Server] that [listenAndServe] builds has the three timeouts of
    the configuration, and none of them is zero; the process exits with
    status 1 when the address cannot be listened on, before the server
    is built, and when the server returns an error.  Nothing is said of
    the sign of the timeouts: [LoadFile] returns a negative write
    timeout when the addition of the minute overflows. *)
Theorem mainServe_outcomes (w0 w : World Proxy) (cfg : Config.t) :
  startup w0 = Done w cfg ->
  (Config.ListenAddr cfg = "" ->
   server.mainServe Listener net_Listen Serve w0 = Exited 2 w) /\
  (Config.ListenAddr cfg <> "" ->
   let s := {| server.ReadTimeout := Config.ReadTimeout cfg;
               server.WriteTimeout := Config.WriteTimeout cfg;
               server.IdleTimeout := Config.IdleTimeout cfg |} in
   server.ReadTimeout s <> 0 /\ server.WriteTimeout s <> 0 /\
   server.IdleTimeout s <> 0 /\
   server.mainServe Listener net_Listen Serve w0 =
   match net_Listen (Config.ListenAddr cfg) with
   | inl err =>
       Exited 1 (emit (Log "FATAL" ("cannot listen for " +:+ quote (Config.ListenAddr cfg)
                                    +:+ ": " +:+ Error err)) w)
   | inr ln =>
       let w1 := emit (Log "INFO" ("Serving http on " +:+ quote (Config.ListenAddr cfg))) w in
       match Serve s ln with
       | Some err =>
           Exited 1 (emit (Log "FATAL" ("HTTP server error on "
                                        +:+ quote (Config.ListenAddr cfg)
                                        +:+ ": " +:+ Error err)) w1)
       | None => Done w1 tt
       end
   end).
Proof.
  intros Hs.
  assert (Heq : server.mainServe Listener net_Listen Serve w0 =
                (if (String.length (Config.ListenAddr cfg) =? 0)%nat
                 then exit 2
                 else server.serve Listener net_Listen Serve
                        (Server.HTTP (Config.Server cfg))) w)
    by (unfold server.mainServe, mbind at 1; rewrite Hs; reflexivity).
  rewrite Heq. clear Heq.
  split.
  - intros ->. reflexivity.
  - intros Hne. cbv zeta.
    apply startup_Done_inv in Hs as (_ & _ & Hload & _).
    unfold LoadFile in Hload.
    apply bind_inr in Hload as (content & _ & Hload).
    apply bind_inr in Hload as (doc & _ & Hload).
    destruct (LoadDocument_timeouts_set doc cfg Hload Hne) as (Hr & Hw & Hi).
    split; [exact Hr|]. split; [exact Hw|]. split; [exact Hi|].
    destruct (Nat.eqb (String.length (Config.ListenAddr cfg)) 0) eqn:Hl.
    { destruct (Config.ListenAddr cfg); [congruence | discriminate Hl]. }
    unfold server.serve, server.newListener, server.listenAndServe.
    unfold mbind, log_Fatalf, log_Infof, modify, mret.
    change (HTTP.ListenAddr (Server.HTTP (Config.Server cfg))) with (Config.ListenAddr cfg).
    destruct (net_Listen (Config.ListenAddr cfg)) as [err | ln]; [reflexivity|].
    unfold Config.ReadTimeout, Config.WriteTimeout, Config.IdleTimeout,
      HTTP.ReadTimeout, HTTP.WriteTimeout, HTTP.IdleTimeout.
    destruct (Serve _ ln); reflexivity.
Qed.

End Server.

Section Samples.

#[local] Existing Instance fixtures.lib.

(** Witness of X15: the "default values" on an address that is taken. *)
Lemma mainServe_outcomes_witness :
  exists w,
    server.mainServe (E := fixtures.reading (Some fixtures.default_values))
      unit (fun _ => inl (LibError "listen tcp4 :8080: bind: address already in use"))
      (fun _ _ => None) fixtures.world1
    = Exited 1 w.
Proof.
  destruct (startup (E := fixtures.reading (Some fixtures.default_values)) fixtures.world1)
    as [code w | w cfg] eqn:Hs.
  { vm_compute in Hs. discriminate Hs. }
  pose proof Hs as Hcfg. vm_compute in Hcfg. injection Hcfg as _ Hcfg.
  destruct (mainServe_outcomes (E := fixtures.reading (Some fixtures.default_values))
              unit (fun _ => inl (LibError "listen tcp4 :8080: bind: address already in use"))
              (fun _ _ => None) fixtures.world1 w cfg Hs) as (_ & H).
  assert (Hne : Config.ListenAddr cfg <> "").
  { rewrite <- Hcfg. intros Hz. vm_compute in Hz. discriminate Hz. }
  destruct (H Hne) as (_ & _ & _ & Hm).
  eexists. exact Hm.
Defined.

End Samples.
